(** * Areopagus (iitpvote): key issuance, ballot redemption and poll lifecycle

    A shallow embedding of [polls/models.py], [polls/views.py] and the poll
    actions of [polls/admin.py].  The database is an explicit store threaded
    through an exception monad; [transaction.atomic] restores the store when
    an exception leaves its block.  The operating system's random source is
    an explicit tape of draws. *)

From stdpp Require Import gmap strings list fin_maps pretty.
From Stdlib Require Import ZArith Lia.

Open Scope string_scope.

(** ** Data model ([polls/models.py]) *)

Module Poll.
(** [Poll.State]: a [TextChoices] of three values. *)
Inductive State := NOT_STARTED | STARTED | FINISHED.

(** [State(s).label] *)
Definition label (s : State) : string :=
  match s with
  | NOT_STARTED => "Не начато"
  | STARTED => "Идёт"
  | FINISHED => "Завершено"
  end.

(** [State(s).label.lower()], tabulated: the labels are Cyrillic. *)
Definition label_lower (s : State) : string :=
  match s with
  | NOT_STARTED => "не начато"
  | STARTED => "идёт"
  | FINISHED => "завершено"
  end.

(** [Poll.Method.SIX_DIGITS]; the column is a one-character string and the
    tests store other values in it, so it stays a string. *)
Definition SIX_DIGITS : string := "6".

Record t := {
  id : Z;
  title : string;
  text : string;
  allow_spoiling : bool;
  date : Z;
  voter_local : list Z;
  voter_remote : list Z;
  secretary : Z;
  private_key_method : string;
  state : State
}.

Definition set_state (s : State) (p : t) : t :=
  {| id := id p; title := title p; text := text p;
     allow_spoiling := allow_spoiling p; date := date p;
     voter_local := voter_local p; voter_remote := voter_remote p;
     secretary := secretary p; private_key_method := private_key_method p;
     state := s |}.

Definition set_id (i : Z) (p : t) : t :=
  {| id := i; title := title p; text := text p;
     allow_spoiling := allow_spoiling p; date := date p;
     voter_local := voter_local p; voter_remote := voter_remote p;
     secretary := secretary p; private_key_method := private_key_method p;
     state := state p |}.
End Poll.

Module SendEmail.
Inductive Status := LOCAL | READY | QUEUEING | SENDING | SUCCESS | ERROR.

(** The [info] JSON object; the code only ever writes the keys
    ['error'] and ['time']. *)
Record Info := { error : option string; time : option Z }.

Record t := {
  info : Info;
  voter : Z;
  poll : Z;
  public_key : Z;
  visited : bool;
  secretary : Z;
  status : Status
}.

Definition set_visited (b : bool) (s : t) : t :=
  {| info := info s; voter := voter s; poll := poll s;
     public_key := public_key s; visited := b;
     secretary := secretary s; status := status s |}.

Definition set_status (st : Status) (s : t) : t :=
  {| info := info s; voter := voter s; poll := poll s;
     public_key := public_key s; visited := visited s;
     secretary := secretary s; status := st |}.

Definition set_info (i : Info) (s : t) : t :=
  {| info := i; voter := voter s; poll := poll s;
     public_key := public_key s; visited := visited s;
     secretary := secretary s; status := status s |}.
End SendEmail.

Module Key.
Inductive Response := YES | NO | SPOILED | NOT_RETURNED.

(** [Response.value] *)
Definition Response_value (r : Response) : string :=
  match r with
  | YES => "Y"
  | NO => "N"
  | SPOILED => "S"
  | NOT_RETURNED => "?"
  end.

(** [poll] is nullable in the schema. *)
Record t := {
  poll : option Z;
  value : string;
  response : Response
}.

Definition set_response (r : Response) (k : t) : t :=
  {| poll := poll k; value := value k; response := r |}.
End Key.

Module BadKey.
Record t := {
  poll : option Z;
  value : string;
  timestamp : Z
}.
End BadKey.

Global Instance State_eq_dec : EqDecision Poll.State.
Proof. solve_decision. Defined.

Global Instance Status_eq_dec : EqDecision SendEmail.Status.
Proof. solve_decision. Defined.

Global Instance Response_eq_dec : EqDecision Key.Response.
Proof. solve_decision. Defined.

Definition Response_to_nat (r : Key.Response) : nat :=
  match r with
  | Key.YES => 0
  | Key.NO => 1
  | Key.SPOILED => 2
  | Key.NOT_RETURNED => 3
  end.

Definition Response_of_nat (n : nat) : option Key.Response :=
  match n with
  | 0 => Some Key.YES
  | 1 => Some Key.NO
  | 2 => Some Key.SPOILED
  | 3 => Some Key.NOT_RETURNED
  | _ => None
  end.

Global Instance Response_countable : Countable Key.Response.
Proof.
  refine (inj_countable Response_to_nat Response_of_nat _).
  by intros [].
Defined.

(** ** The store, the random tape, exceptions *)

(** Tables are keyed by primary key: [Poll.id], [SendEmail.public_key],
    [Key.value].  [BadKey] rows are only ever appended. *)
Record DB := {
  polls : gmap Z Poll.t;
  send_emails : gmap Z SendEmail.t;
  keys : gmap string Key.t;
  bad_keys : list BadKey.t
}.

Definition set_polls (m : gmap Z Poll.t) (d : DB) : DB :=
  {| polls := m; send_emails := send_emails d; keys := keys d;
     bad_keys := bad_keys d |}.

Definition set_send_emails (m : gmap Z SendEmail.t) (d : DB) : DB :=
  {| polls := polls d; send_emails := m; keys := keys d;
     bad_keys := bad_keys d |}.

Definition set_keys (m : gmap string Key.t) (d : DB) : DB :=
  {| polls := polls d; send_emails := send_emails d; keys := m;
     bad_keys := bad_keys d |}.

Definition set_bad_keys (l : list BadKey.t) (d : DB) : DB :=
  {| polls := polls d; send_emails := send_emails d; keys := keys d;
     bad_keys := l |}.

(** The system random source: an infinite tape of raw draws and the
    position of the next unread one. *)
Record Rng := { entropy : nat → nat; cursor : nat }.

Record World := { db : DB; rng : Rng }.

Inductive exn :=
| ValueError (msg : string)
| AssertionError (msg : string)
| IntegrityError (msg : string)
| DatabaseError (msg : string)
| DoesNotExist (model : string)
| IndexError (msg : string)
| KeyError (msg : string)
| Http404.

(** [str(e)] *)
Definition exn_str (e : exn) : string :=
  match e with
  | ValueError m | AssertionError m | IntegrityError m | DatabaseError m
  | IndexError m | KeyError m => m
  | DoesNotExist model => model ++ " matching query does not exist."
  | Http404 => ""
  end.

Inductive result (A : Type) :=
| Ok (a : A)
| Raise (e : exn).
Arguments Ok {A} a.
Arguments Raise {A} e.

Definition M (A : Type) : Type := World → result A * World.

Global Instance M_ret : MRet M := λ A a w, (Ok a, w).

Global Instance M_bind : MBind M := λ A B f m w,
  match m w with
  | (Ok a, w') => f a w'
  | (Raise e, w') => (Raise e, w')
  end.

Definition raise {A} (e : exn) : M A := λ w, (Raise e, w).

Definition get_db : M DB := λ w, (Ok (db w), w).

Definition put_db (d : DB) : M unit :=
  λ w, (Ok tt, {| db := d; rng := rng w |}).

(** [try: body except <exceptions selected by handler>: ...]; a handler
    returning [None] lets the exception through. *)
Definition try_except {A} (body : M A) (handler : exn → option (M A)) : M A :=
  λ w,
    match body w with
    | (Ok a, w') => (Ok a, w')
    | (Raise e, w') =>
        match handler e with
        | Some h => h w'
        | None => (Raise e, w')
        end
    end.

(** [with transaction.atomic(): body].  Leaving the block normally (also by
    [return]) commits; an exception leaving it rolls the store back.  Draws
    already taken from the random source are not given back. *)
Definition atomic {A} (body : M A) : M A :=
  λ w,
    match body w with
    | (Ok a, w') => (Ok a, w')
    | (Raise e, w') => (Raise e, {| db := db w; rng := rng w' |})
    end.

(** ** Random digits ([secrets], [secure_digits]) *)

(** [SystemRandom._randbelow(n)] for [n > 0]: the next draw, reduced. *)
Definition randbelow (n : nat) : M nat :=
  λ w,
    let r := rng w in
    (Ok (entropy r (cursor r) mod n),
     {| db := db w; rng := {| entropy := entropy r; cursor := S (cursor r) |} |}).

(** [secrets.choice(seq)] on a string: a one-character string. *)
Definition secrets_choice (seq : string) : M string :=
  if decide (String.length seq = 0)
  then raise (IndexError "Cannot choose from an empty sequence")
  else i ← randbelow (String.length seq); mret (String.substring i 1 seq).

(** [string.digits] *)
Definition digits : string := "0123456789".

(** [(secrets.choice(digits) for _ in range(k))], drawn in order. *)
Fixpoint choices (k : nat) (digits : string) : M (list string) :=
  match k with
  | O => mret []
  | S k' =>
      c ← secrets_choice digits;
      cs ← choices k' digits;
      mret (c :: cs)
  end.

(** [def secure_digits(k=8, digits=digits)] *)
Definition secure_digits (k : nat) (digits : string) : M string :=
  cs ← choices k digits; mret (String.concat "" cs).

(** ** Object-relational primitives

    Django itself is library code outside the repository; the few queries
    the application issues are written out over the store. *)

(** [QuerySet.get_or_create], after Django's control flow: look the object
    up; when it does not exist, try to insert it inside a savepoint; when
    the insert violates a constraint, look it up once more, and when that
    still finds nothing re-raise the constraint violation. *)
Definition get_or_create {A} (get create : M A) : M (A * bool) :=
  try_except (a ← get; mret (a, false)) (λ e,
    match e with
    | DoesNotExist _ => Some (
        try_except (a ← atomic create; mret (a, true)) (λ e',
          match e' with
          | IntegrityError _ => Some (
              try_except (a ← get; mret (a, false)) (λ e'',
                match e'' with
                | DoesNotExist _ => Some (raise e')
                | _ => None
                end))
          | _ => None
          end))
    | _ => None
    end).

(** [Poll.objects.get(pk=poll_id)].  A row answers a query on its primary
    key only when it carries that key, here and in the lookups below. *)
Definition Poll_objects_get (poll_id : Z) : M Poll.t :=
  d ← get_db;
  match polls d !! poll_id with
  | Some p =>
      if decide (Poll.id p = poll_id) then mret p
      else raise (DoesNotExist "Poll")
  | None => raise (DoesNotExist "Poll")
  end.

(** [Poll.objects.get(id=poll_id, secretary=user)] *)
Definition Poll_objects_get_for (poll_id user : Z) : M Poll.t :=
  p ← Poll_objects_get poll_id;
  if decide (Poll.secretary p = user) then mret p
  else raise (DoesNotExist "Poll").

(** [poll.save()] on a poll that has a primary key. *)
Definition Poll_save (p : Poll.t) : M unit :=
  d ← get_db; put_db (set_polls (<[Poll.id p := p]> (polls d)) d).

(** [Key.objects.get(value=value, poll=poll)] *)
Definition Key_objects_get (value : string) (poll : Z) : M Key.t :=
  d ← get_db;
  match keys d !! value with
  | Some k =>
      if decide (Key.value k = value ∧ Key.poll k = Some poll) then mret k
      else raise (DoesNotExist "Key")
  | None => raise (DoesNotExist "Key")
  end.

(** [Key.objects.create(poll=poll, value=value)]: an INSERT; [value] is the
    primary key, so a row with that value, of whatever poll, makes it
    fail.  [response] takes its default. *)
Definition Key_objects_create (poll : Z) (value : string) : M Key.t :=
  d ← get_db;
  match keys d !! value with
  | Some _ => raise (IntegrityError "UNIQUE constraint failed: polls_key.value")
  | None =>
      let k := {| Key.poll := Some poll; Key.value := value;
                  Key.response := Key.NOT_RETURNED |} in
      put_db (set_keys (<[value := k]> (keys d)) d);; mret k
  end.

(** [key.save()] *)
Definition Key_save (k : Key.t) : M unit :=
  d ← get_db; put_db (set_keys (<[Key.value k := k]> (keys d)) d).

(** [BadKey(...).save()]: the row gets the next automatic id. *)
Definition BadKey_save (b : BadKey.t) : M unit :=
  d ← get_db; put_db (set_bad_keys (bad_keys d ++ [b]) d).

(** [SendEmail.objects.filter(...)], evaluated.  The model's ordering
    ([poll], [status], [visited]) does not order the rows of one poll and
    status; they come in the order of the table. *)
Definition SendEmail_objects_filter (cond : SendEmail.t → bool)
  : M (list SendEmail.t) :=
  d ← get_db; mret (filter (λ s, Is_true (cond s)) (map_to_list (send_emails d)).*2).

(** [SendEmail.objects.get(public_key=public_key)] *)
Definition SendEmail_objects_get (public_key : Z) : M SendEmail.t :=
  d ← get_db;
  match send_emails d !! public_key with
  | Some s =>
      if decide (SendEmail.public_key s = public_key) then mret s
      else raise (DoesNotExist "SendEmail")
  | None => raise (DoesNotExist "SendEmail")
  end.

(** [SendEmail.objects.get(voter=voter, poll=poll, secretary=secretary)];
    the unique constraint on the three columns leaves at most one row. *)
Definition SendEmail_objects_get_by (voter poll secretary : Z) : M SendEmail.t :=
  rows ← SendEmail_objects_filter (λ s,
    bool_decide (SendEmail.voter s = voter) &&
    bool_decide (SendEmail.poll s = poll) &&
    bool_decide (SendEmail.secretary s = secretary));
  match rows with
  | s :: _ => mret s
  | [] => raise (DoesNotExist "SendEmail")
  end.

(** [uuid.uuid4()], the default of [public_key]: 128 bits read off the
    random source. *)
Definition uuid4 : M Z :=
  λ w,
    let r := rng w in
    ((Ok (Z.of_nat (entropy r (cursor r)) mod 2 ^ 128))%Z,
     {| db := db w; rng := {| entropy := entropy r; cursor := S (cursor r) |} |}).

(** [SendEmail.objects.create(voter=, poll=, secretary=, status=)] *)
Definition SendEmail_objects_create (voter poll secretary : Z)
    (status : SendEmail.Status) : M SendEmail.t :=
  pk ← uuid4;
  d ← get_db;
  if decide (is_Some (send_emails d !! pk)) then
    raise (IntegrityError "UNIQUE constraint failed: polls_sendemail.public_key")
  else
    let s := {| SendEmail.info := {| SendEmail.error := None; SendEmail.time := None |};
                SendEmail.voter := voter; SendEmail.poll := poll;
                SendEmail.public_key := pk; SendEmail.visited := false;
                SendEmail.secretary := secretary; SendEmail.status := status |} in
    put_db (set_send_emails (<[pk := s]> (send_emails d)) d);; mret s.

(** [item.save()] *)
Definition SendEmail_save (s : SendEmail.t) : M unit :=
  d ← get_db;
  put_db (set_send_emails (<[SendEmail.public_key s := s]> (send_emails d)) d).

(** [send_email.save(update_fields=["visited"])]: an UPDATE of the one
    column of the row with that primary key; Django raises when no row was
    affected. *)
Definition SendEmail_save_visited (s : SendEmail.t) : M unit :=
  d ← get_db;
  match send_emails d !! SendEmail.public_key s with
  | Some row =>
      put_db (set_send_emails
                (<[SendEmail.public_key s :=
                     SendEmail.set_visited (SendEmail.visited s) row]>
                   (send_emails d)) d)
  | None => raise (DatabaseError "Save with update_fields did not affect any rows.")
  end.

(** ** [Poll.create_private_key_for] *)

(** The [for _ in range(n): ... else: raise ValueError(...)] loop. *)
Fixpoint mint_loop (n : nat) (self : Poll.t) : M Key.t :=
  match n with
  | O =>
      raise (ValueError
        "Невозможно создать приватный ключ. Было произведено 1000 попыток.")
  | S n' =>
      private_key_value ← secure_digits 6 digits;
      if decide (String.length private_key_value = 6) then
        '(private_key, created) ←
          get_or_create (Key_objects_get private_key_value (Poll.id self))
                        (Key_objects_create (Poll.id self) private_key_value);
        if created : bool then mret private_key else mint_loop n' self
      else
        raise (AssertionError
          "Метод создания приватного ключа вернул неправильное число цифр.")
  end.

Definition create_private_key_for (self : Poll.t) (send_email : SendEmail.t)
  : M Key.t :=
  if decide (Poll.state self = Poll.FINISHED) then
    raise (ValueError "Голосование завершено")
  else if SendEmail.visited send_email then
    raise (ValueError "Бюллетень уже выдан")
  else
    private_key ←
      (if decide (Poll.private_key_method self = Poll.SIX_DIGITS) then
         mint_loop 1000 self
       else
         raise (ValueError
           ("Неизвестный метод получения приватного ключа: "
              ++ Poll.private_key_method self ++ ".")));
    SendEmail_save_visited (SendEmail.set_visited true send_email);;
    mret private_key.

(** ** Requests and responses *)

(** What the views read from an [HttpRequest]: the method, the POST
    multi-dictionary, the authenticated user, and the wall-clock reading
    ([timezone_now()]) taken while the request is served. *)
Record HttpRequest := {
  method : string;
  POST : gmap string (list string);
  user : Z;
  now : Z
}.

(** [request.POST.getlist(name)] *)
Definition getlist (name : string) (q : gmap string (list string)) : list string :=
  default [] (q !! name).

Inductive Value :=
| Str (s : string)
| AKey (k : Key.t)
| APoll (p : Poll.t)
| KeyList (ks : list Key.t).

Definition Context := list (string * Value).

(** [render(request, template_name, context)] and [HttpResponse(content)];
    the [settings] and class objects passed to templates are left out of
    the context. *)
Inductive HttpResponse :=
| render (template_name : string) (context : Context)
| HttpResponse_content (content : string).

Section Site.

(** [settings.EMAIL_LINK_START] *)
Variable EMAIL_LINK_START : string.

(** The mail transport behind [EmailMessage(...).send()] for the message
    built for one ledger row: [None] when it was sent, [Some (repr e)] when
    the transport raised [e]. *)
Variable send_mail : SendEmail.t → option string.

(** ** [Poll.start_sending_thread] *)

Definition to_be_sent (st : SendEmail.Status) : bool :=
  match st with
  | SendEmail.READY | SendEmail.ERROR | SendEmail.QUEUEING
  | SendEmail.SENDING => true
  | _ => false
  end.

(** The body of [for item in SendEmail.objects.filter(pk__in=pks)]. *)
Fixpoint send_items (now : Z) (items : list SendEmail.t) : M unit :=
  match items with
  | [] => mret tt
  | item :: rest =>
      let item := SendEmail.set_status SendEmail.SENDING item in
      SendEmail_save item;;
      let item :=
        match send_mail item with
        | Some err =>
            SendEmail.set_info
              {| SendEmail.error := Some err;
                 SendEmail.time := SendEmail.time (SendEmail.info item) |}
              (SendEmail.set_status SendEmail.ERROR item)
        | None => SendEmail.set_status SendEmail.SUCCESS item
        end in
      let item :=
        SendEmail.set_info
          {| SendEmail.error := SendEmail.error (SendEmail.info item);
             SendEmail.time := Some now |} item in
      SendEmail_save item;;
      send_items now rest
  end.

Definition start_sending_thread (now : Z) (self : Poll.t) : M unit :=
  rows ← SendEmail_objects_filter (λ s,
    bool_decide (SendEmail.poll s = Poll.id self) &&
    to_be_sent (SendEmail.status s));
  let pks := SendEmail.public_key <$> rows in
  if decide (pks = []) then mret tt
  else
    d ← get_db;
    put_db (set_send_emails
      ((λ s, if bool_decide (SendEmail.public_key s ∈ pks)
             then SendEmail.set_status SendEmail.QUEUEING s else s)
         <$> send_emails d) d);;
    items ← SendEmail_objects_filter (λ s,
      bool_decide (SendEmail.public_key s ∈ pks));
    send_items now items.

(** ** Views ([polls/views.py]) *)

Definition message (request : HttpRequest) (message : string)
    (extra : Context) : HttpResponse :=
  render "polls/message.html" (("message", Str message) :: extra).

(** [send_email.poll]: the related poll row, fetched together with the
    ledger row ([select_related]); nothing changes the store between that
    query and this read. *)
Definition SendEmail_poll (send_email : SendEmail.t) : M Poll.t :=
  Poll_objects_get (SendEmail.poll send_email).

Definition get_bulletin_common (request : HttpRequest)
    (send_email : SendEmail.t) (template_name : string)
    (message_extra : Context) : M HttpResponse :=
  atomic (
    poll ← SendEmail_poll send_email;
    r ← try_except
          (private_key ← create_private_key_for poll send_email;
           mret (inr private_key))
          (λ e,
             match e with
             | ValueError _ =>
                 Some (mret (inl (message request (exn_str e) message_extra)))
             | _ => None
             end);
    match r with
    | inl response => mret response
    | inr private_key =>
        let url := EMAIL_LINK_START ++ "/vote/poll_" ++ pretty (Poll.id poll)
                     ++ "/" ++ Key.value private_key in
        mret (render template_name
                [("url", Str url); ("private_key", AKey private_key)])
    end).

Definition email_bulletin (request : HttpRequest) (public_key : Z)
  : M HttpResponse :=
  send_email ← try_except (SendEmail_objects_get public_key)
                  (λ e,
                     match e with
                     | DoesNotExist _ => Some (raise Http404)
                     | _ => None
                     end);
  get_bulletin_common request send_email "polls/get_bulletin.html" [].

(** The member of [Key.Response] whose value is [s], if there is one. *)
Definition Response_by_value (s : string) : option Key.Response :=
  if decide (s = "Y") then Some Key.YES
  else if decide (s = "N") then Some Key.NO
  else if decide (s = "S") then Some Key.SPOILED
  else if decide (s = "?") then Some Key.NOT_RETURNED
  else None.

(** [Key.Response(response)]: the member with that value, else
    [ValueError]. *)
Definition Response_of_value (s : string) : M Key.Response :=
  match Response_by_value s with
  | Some r => mret r
  | None => raise (ValueError ("'" ++ s ++ "' is not a valid Key.Response"))
  end.

(** [{Key.Response(response) for response in response_list}] *)
Fixpoint Response_set (response_list : list string) : M (gset Key.Response) :=
  match response_list with
  | [] => mret ∅
  | response :: rest =>
      r ← Response_of_value response;
      rs ← Response_set rest;
      mret ({[ r ]} ∪ rs)
  end.

(** [responses.pop()] *)
Definition set_pop (responses : gset Key.Response) : M Key.Response :=
  match elements responses with
  | r :: _ => mret r
  | [] => raise (KeyError "pop from an empty set")
  end.

(** The body of the [try] block of [vote] that turns the submitted list into
    a response: [inl] is the early [return] of the spoiling refusal. *)
Definition parse_response (request : HttpRequest) (poll : Poll.t)
    (response_list : list string) : M (HttpResponse + Key.Response) :=
  responses ← Response_set response_list;
  response ←
    (if decide (responses = {[ Key.YES; Key.NO ]}) then mret Key.SPOILED
     else if decide (size responses = 1) then set_pop responses
     else raise (ValueError ""));
  if negb (Poll.allow_spoiling poll) && bool_decide (response = Key.SPOILED)
  then mret (inl (message request
                    "В данном голосовании нельзя портить бюллетень" []))
  else mret (inr response).

Definition vote (request : HttpRequest) (poll_id : Z) (private_key : string)
  : M HttpResponse :=
  r ← try_except (poll ← Poll_objects_get poll_id; mret (inr poll))
        (λ e,
           match e with
           | DoesNotExist _ =>
               Some (mret (inl (message request
                                  "Данного голосования не существует" [])))
           | _ => None
           end);
  match r with
  | inl response => mret response
  | inr poll =>
      if decide (Poll.state poll ≠ Poll.STARTED) then
        mret (message request
                ("Данное голосование " ++ Poll.label_lower (Poll.state poll)) [])
      else
        atomic (
          r ← try_except
                (key ← Key_objects_get private_key poll_id; mret (inr key))
                (λ e,
                   match e with
                   | DoesNotExist _ => Some (
                       BadKey_save {| BadKey.value := private_key;
                                      BadKey.poll := Some (Poll.id poll);
                                      BadKey.timestamp := now request |};;
                       mret (inl (message request
                         "Данный номер бюллетеня не зарегистрирован в текущем голосовании"
                         [])))
                   | _ => None
                   end);
          match r with
          | inl response => mret response
          | inr key =>
              returned ←
                (if decide (method request = "POST") then
                   let response_list := getlist "response" (POST request) in
                   r ← try_except (parse_response request poll response_list)
                         (λ e,
                            match e with
                            | ValueError _ =>
                                Some (mret (inl (message request
                                                   "Ответ не распознан" [])))
                            | _ => None
                            end);
                   match r with
                   | inl response => mret (Some response)
                   | inr response =>
                       if decide (Key.response key = Key.NOT_RETURNED) then
                         Key_save (Key.set_response response key);;
                         mret (Some (message request "Ваш голос учтён" []))
                       else mret None
                   end
                 else mret None);
              match returned with
              | Some response => mret response
              | None =>
                  (* [key.poll] is the poll found above *)
                  if decide (Key.response key = Key.NOT_RETURNED) then
                    mret (render "polls/vote.html"
                            [("key", AKey key); ("poll", APoll poll)])
                  else
                    mret (message request
                            "Ошибка: вы уже проголовали ранее" [])
              end
          end)
  end.

(** ** Administrative surface ([polls/admin.py]) *)

(** [x[i], x[j] = x[j], x[i]] *)
Definition swap {A} (i j : nat) (x : list A) : list A :=
  match x !! i, x !! j with
  | Some a, Some b => <[j := a]> (<[i := b]> x)
  | _, _ => x
  end.

(** [for i in reversed(range(1, i + 1)): j = randbelow(i + 1); swap] *)
Fixpoint shuffle_from {A} (i : nat) (x : list A) : M (list A) :=
  match i with
  | O => mret x
  | S i' =>
      j ← randbelow (S i);
      shuffle_from i' (swap i j x)
  end.

(** [random.shuffle(x)] *)
Definition shuffle {A} (x : list A) : M (list A) :=
  shuffle_from (length x - 1) x.

(** The loop [for send_email in send_emails] of [print_bulletins]; [inl]
    is the [return] from the exception handler. *)
Fixpoint mint_each (poll : Poll.t) (send_emails : list SendEmail.t)
    (private_keys : list Key.t) : M (HttpResponse + list Key.t) :=
  match send_emails with
  | [] => mret (inr private_keys)
  | send_email :: rest =>
      r ← try_except
            (private_key ← create_private_key_for poll send_email;
             mret (inr private_key))
            (λ e, Some (mret (inl (HttpResponse_content
                                     ("Ошибка: " ++ exn_str e)))));
      match r with
      | inl response => mret (inl response)
      | inr private_key => mint_each poll rest (private_keys ++ [private_key])
      end
  end.

(** The filter [visited=False, poll=poll, status=LOCAL,
    secretary=request.user] of [print_bulletins]. *)
Definition unvisited_local (poll : Poll.t) (user : Z) (s : SendEmail.t) : bool :=
  negb (SendEmail.visited s) &&
  bool_decide (SendEmail.poll s = Poll.id poll) &&
  bool_decide (SendEmail.status s = SendEmail.LOCAL) &&
  bool_decide (SendEmail.secretary s = user).

Definition print_bulletins (request : HttpRequest) (poll_id : Z)
  : M HttpResponse :=
  poll ← try_except (Poll_objects_get_for poll_id (user request))
           (λ e,
              match e with
              | DoesNotExist _ => Some (raise Http404)
              | _ => None
              end);
  if decide (Poll.state poll ≠ Poll.STARTED) then
    mret (HttpResponse_content "Голосование не начато")
  else
    atomic (
      send_emails ← SendEmail_objects_filter (unvisited_local poll (user request));
      r ← mint_each poll send_emails [];
      match r with
      | inl response => mret response
      | inr private_keys =>
          private_keys ← shuffle private_keys;
          mret (render "polls/print.html"
                  [("poll", APoll poll); ("private_keys", KeyList private_keys)])
      end).

(** A [QuerySet] of polls is a filter that is evaluated against the table
    when it is iterated or updated; the rows come in the order of the
    table. *)
Definition QuerySet := Poll.t → bool.

Definition evaluate (queryset : QuerySet) : M (list Poll.t) :=
  d ← get_db; mret (filter (λ p, Is_true (queryset p)) (map_to_list (polls d)).*2).

(** [Poll.__str__] *)
Definition Poll_str (p : Poll.t) : string :=
  "Голосование №" ++ pretty (Poll.id p) ++ " [" ++ Poll.label (Poll.state p) ++ "]".

(** [for voter in voters: SendEmail.objects.get_or_create(voter=voter,
    poll=poll, secretary=request.user, defaults={'status': status})] *)
Fixpoint seed (voters : list Z) (poll : Poll.t) (secretary : Z)
    (status : SendEmail.Status) : M unit :=
  match voters with
  | [] => mret tt
  | voter :: rest =>
      get_or_create
        (SendEmail_objects_get_by voter (Poll.id poll) secretary)
        (SendEmail_objects_create voter (Poll.id poll) secretary status);;
      seed rest poll secretary status
  end.

(** The loop of [start_poll]; the result lists what [message_user] was
    given. *)
Fixpoint start_each (request : HttpRequest) (selected : list Poll.t)
  : M (list string) :=
  match selected with
  | [] => mret []
  | poll :: rest =>
      poll ← atomic (
        seed (Poll.voter_remote poll) poll (user request) SendEmail.READY;;
        seed (Poll.voter_local poll) poll (user request) SendEmail.LOCAL;;
        let poll := Poll.set_state Poll.STARTED poll in
        Poll_save poll;;
        mret poll);
      start_sending_thread (now request) poll;;
      msgs ← start_each request rest;
      mret ((Poll_str poll ++ " успешно запущено") :: msgs)
  end.

Definition start_poll (request : HttpRequest) (queryset : QuerySet)
  : M (list string) :=
  selected ← evaluate (λ p, queryset p &&
                            negb (bool_decide (Poll.state p = Poll.FINISHED)));
  start_each request selected.

Definition end_poll (request : HttpRequest) (queryset : QuerySet)
  : M (list string) :=
  atomic (
    d ← get_db;
    put_db (set_polls
      ((λ p, if queryset p && bool_decide (Poll.state p = Poll.STARTED)
             then Poll.set_state Poll.FINISHED p else p) <$> polls d) d);;
    mret ["Голосование успешно завершено"]).

(** The primary key an INSERT without one receives. *)
Definition next_id (m : gmap Z Poll.t) : Z :=
  (foldr Z.max 0 (map_to_list m).*1 + 1)%Z.

Definition set_voters (local remote : list Z) (p : Poll.t) : Poll.t :=
  {| Poll.id := Poll.id p; Poll.title := Poll.title p; Poll.text := Poll.text p;
     Poll.allow_spoiling := Poll.allow_spoiling p; Poll.date := Poll.date p;
     Poll.voter_local := local; Poll.voter_remote := remote;
     Poll.secretary := Poll.secretary p;
     Poll.private_key_method := Poll.private_key_method p;
     Poll.state := Poll.state p |}.

(** The loop of [duplicate_poll]: the copy is inserted under a new primary
    key in state NOT_STARTED, first without voters, which are then set
    from the original's. *)
Fixpoint duplicate_each (selected : list Poll.t) : M (list string) :=
  match selected with
  | [] => mret []
  | poll :: rest =>
      let orig_voter_local := Poll.voter_local poll in
      let orig_voter_remote := Poll.voter_remote poll in
      d ← get_db;
      let poll := Poll.set_id (next_id (polls d))
                    (Poll.set_state Poll.NOT_STARTED (set_voters [] [] poll)) in
      Poll_save poll;;
      let poll := set_voters orig_voter_local orig_voter_remote poll in
      Poll_save poll;;
      msgs ← duplicate_each rest;
      mret ((Poll_str poll ++ " успешно дублировано") :: msgs)
  end.

Definition duplicate_poll (request : HttpRequest) (queryset : QuerySet)
  : M (list string) :=
  atomic (selected ← evaluate queryset; duplicate_each selected).

End Site.

(** ** Vocabulary of the statements *)

(** The poll row the views find under [poll_id]. *)
Definition poll_is (w : World) (poll_id : Z) (p : Poll.t) : Prop :=
  (Poll_objects_get poll_id w).1 = Ok p.

(** The key row [vote] finds for [value] in poll [poll_id]. *)
Definition key_is (w : World) (value : string) (poll_id : Z) (k : Key.t) : Prop :=
  (Key_objects_get value poll_id w).1 = Ok k.

(** [value] is not registered for poll [poll_id]: the lookup of [vote]
    raises [Key.DoesNotExist]. *)
Definition key_unregistered (w : World) (value : string) (poll_id : Z) : Prop :=
  (Key_objects_get value poll_id w).1 = Raise (DoesNotExist "Key").

(** The ledger row the bulletin view finds under [public_key]. *)
Definition send_email_is (w : World) (public_key : Z) (s : SendEmail.t) : Prop :=
  (SendEmail_objects_get public_key w).1 = Ok s.

Definition with_db (d : DB) (w : World) : World := {| db := d; rng := rng w |}.

(** The world after [n] more draws from the random source. *)
Definition advance (n : nat) (w : World) : World :=
  {| db := db w;
     rng := {| entropy := entropy (rng w); cursor := n + cursor (rng w) |} |}.

(** The store after [key.response = r; key.save()]. *)
Definition record_response (r : Key.Response) (k : Key.t) (w : World) : World :=
  with_db (set_keys (<[Key.value k := Key.set_response r k]> (keys (db w))) (db w)) w.

(** The store after one [BadKey(value=value, poll=poll).save()] for each of
    the instants in [times]. *)
Definition log_bad_keys (poll_id : Z) (value : string) (times : list Z)
    (w : World) : World :=
  with_db (set_bad_keys
             (bad_keys (db w) ++
                ((λ t, {| BadKey.poll := Some poll_id; BadKey.value := value;
                          BadKey.timestamp := t |}) <$> times))%list (db w)) w.

(** [BadKey.objects.filter(poll=poll).count()] of the results view. *)
Definition bad_key_count (d : DB) (poll_id : Z) : nat :=
  length (filter (λ b, BadKey.poll b = Some poll_id) (bad_keys d)).

(** The messages of [vote]. *)
Definition MSG_RECORDED : string := "Ваш голос учтён".
Definition MSG_ALREADY_VOTED : string := "Ошибка: вы уже проголовали ранее".
Definition MSG_NOT_RECOGNIZED : string := "Ответ не распознан".
Definition MSG_NO_SPOILING : string := "В данном голосовании нельзя портить бюллетень".
Definition MSG_NOT_REGISTERED : string :=
  "Данный номер бюллетеня не зарегистрирован в текущем голосовании".

(** The messages of [create_private_key_for]. *)
Definition MSG_POLL_FINISHED : string := "Голосование завершено".
Definition MSG_ALREADY_ISSUED : string := "Бюллетень уже выдан".
Definition MSG_EXHAUSTED : string :=
  "Невозможно создать приватный ключ. Было произведено 1000 попыток.".

(** The response the [try] block of [vote] reads off a set of responses:
    [None] stands for its [raise ValueError()]. *)
Definition classify (s : gset Key.Response) : option Key.Response :=
  if decide (s = {[ Key.YES; Key.NO ]}) then Some Key.SPOILED
  else if decide (size s = 1) then head (elements s)
  else None.

(** The same request served once per element of [requests], in order. *)
Fixpoint vote_each (requests : list HttpRequest) (poll_id : Z)
    (private_key : string) : M (list HttpResponse) :=
  match requests with
  | [] => mret []
  | request :: rest =>
      r ← vote request poll_id private_key;
      rs ← vote_each rest poll_id private_key;
      mret (r :: rs)
  end.

(** The three poll actions of the administrative surface. *)
Inductive Action :=
| Start (request : HttpRequest) (queryset : QuerySet)
| Finish (request : HttpRequest) (queryset : QuerySet)
| Duplicate (request : HttpRequest) (queryset : QuerySet).

Definition perform (send_mail : SendEmail.t → option string) (a : Action)
  : M (list string) :=
  match a with
  | Start request queryset => start_poll send_mail request queryset
  | Finish request queryset => end_poll request queryset
  | Duplicate request queryset => duplicate_poll request queryset
  end.

(** The store after a sequence of actions; an action that raised leaves
    whatever it had committed. *)
Fixpoint perform_all (send_mail : SendEmail.t → option string)
    (actions : list Action) (w : World) : World :=
  match actions with
  | [] => w
  | a :: rest => perform_all send_mail rest (perform send_mail a w).2
  end.

(** The lifecycle order NOT_STARTED, STARTED, FINISHED. *)
Definition rank (s : Poll.State) : nat :=
  match s with
  | Poll.NOT_STARTED => 0
  | Poll.STARTED => 1
  | Poll.FINISHED => 2
  end.

(** Every row of the poll table carries the primary key it is stored
    under. *)
Definition polls_keyed (d : DB) : Prop :=
  ∀ i p, polls d !! i = Some p → Poll.id p = i.

(** A character of [string.digits]. *)
Definition is_digit (a : Ascii.ascii) : bool :=
  ((48 <=? Ascii.nat_of_ascii a)%nat && (Ascii.nat_of_ascii a <=? 57)%nat)%bool.

Definition all_digits (s : string) : bool :=
  forallb is_digit (String.list_ascii_of_string s).

(** [m] leaves the poll table as it finds it, whatever its outcome. *)
Definition keeps_polls {A} (m : M A) : Prop :=
  ∀ w, polls (db (m w).2) = polls (db w).

(** What starting polls may do to a poll table: no row appears or
    disappears, and a row that changes was not FINISHED and is replaced by
    a STARTED row with the same primary key. *)
Definition started_only (m m' : gmap Z Poll.t) : Prop :=
  ∀ i,
    match m !! i, m' !! i with
    | None, None => True
    | Some q, Some q' =>
        q' = q ∨
        (Poll.state q ≠ Poll.FINISHED ∧ Poll.state q' = Poll.STARTED ∧
         Poll.id q' = i)
    | _, _ => False
    end.

(** One step along NOT_STARTED, STARTED, FINISHED, or none. *)
Definition stays_or_advances (s s' : Poll.State) : Prop :=
  s' = s ∨ rank s' = S (rank s).

(** Every row of the ledger carries the primary key it is stored under. *)
Definition ledger_keyed (d : DB) : Prop :=
  ∀ j s, send_emails d !! j = Some s → SendEmail.public_key s = j.

(** The ledger rows [start_sending_thread] picks up for the poll [self]. *)
Definition awaits_sending (self : Poll.t) (s : SendEmail.t) : bool :=
  bool_decide (SendEmail.poll s = Poll.id self) &&
  to_be_sent (SendEmail.status s).

(** What one turn of the sending loop saves last for [item]: the outcome of
    the transport and the time. *)
Definition dispatched (send_mail : SendEmail.t → option string) (now : Z)
    (item : SendEmail.t) : SendEmail.t :=
  let item := SendEmail.set_status SendEmail.SENDING item in
  match send_mail item with
  | Some err =>
      SendEmail.set_info
        {| SendEmail.error := Some err; SendEmail.time := Some now |}
        (SendEmail.set_status SendEmail.ERROR item)
  | None =>
      SendEmail.set_info
        {| SendEmail.error := SendEmail.error (SendEmail.info item);
           SendEmail.time := Some now |}
        (SendEmail.set_status SendEmail.SUCCESS item)
  end.

(** The counts of the results view and of the poll list ([admin.py]):
    [Key.objects.filter(poll=poll).exclude(response=NOT_RETURNED).count()],
    [SendEmail.objects.filter(poll=poll).count()],
    [SendEmail.objects.filter(poll=poll, visited=True).count()], and the
    number of rows of [Key.objects.filter(poll=poll)]. *)
Definition voted_count (d : DB) (poll_id : Z) : nat :=
  size (filter (λ vk : string * Key.t,
                  Key.poll vk.2 = Some poll_id ∧
                  Key.response vk.2 ≠ Key.NOT_RETURNED) (keys d)).

Definition attended_count (d : DB) (poll_id : Z) : nat :=
  size (filter (λ js : Z * SendEmail.t, SendEmail.poll js.2 = poll_id)
          (send_emails d)).

Definition bulletins_visited (d : DB) (poll_id : Z) : nat :=
  size (filter (λ js : Z * SendEmail.t,
                  SendEmail.poll js.2 = poll_id ∧
                  SendEmail.visited js.2 = true) (send_emails d)).

Definition keys_count (d : DB) (poll_id : Z) : nat :=
  size (filter (λ vk : string * Key.t, Key.poll vk.2 = Some poll_id) (keys d)).

(** Every poll has as many keys as ledger rows marked visited. *)
Definition ballots_balanced (d : DB) : Prop :=
  ∀ i, keys_count d i = bulletins_visited d i.

(** The books of the ballots are in order: the ledger is keyed and every
    poll has as many keys as ledger rows marked visited. *)
Definition books_kept (d : DB) : Prop := ledger_keyed d ∧ ballots_balanced d.

(** A computation that leaves the books in order, whether it returns or
    raises. *)
Definition keeps_books {A} (m : M A) : Prop :=
  ∀ w, books_kept (db w) → books_kept (db (m w).2).

(** The requests that reach the code of the repository: the routes of
    [urls.py] and [get_urls] that write to the store, and the actions of
    the poll list. *)
Inductive Visit :=
| GetBulletin (request : HttpRequest) (public_key : Z)
| CastVote (request : HttpRequest) (poll_id : Z) (private_key : string)
| PrintBulletins (request : HttpRequest) (poll_id : Z)
| AdminAction (a : Action).

(** The world after a request, whether it was answered or raised. *)
Definition serve (EMAIL_LINK_START : string)
    (send_mail : SendEmail.t → option string) (v : Visit) (w : World) : World :=
  match v with
  | GetBulletin request public_key =>
      (email_bulletin EMAIL_LINK_START request public_key w).2
  | CastVote request poll_id private_key =>
      (vote request poll_id private_key w).2
  | PrintBulletins request poll_id => (print_bulletins request poll_id w).2
  | AdminAction a => (perform send_mail a w).2
  end.

Fixpoint serve_all (EMAIL_LINK_START : string)
    (send_mail : SendEmail.t → option string) (visits : list Visit)
    (w : World) : World :=
  match visits with
  | [] => w
  | v :: rest =>
      serve_all EMAIL_LINK_START send_mail rest
        (serve EMAIL_LINK_START send_mail v w)
  end.

(** The ledger has a row for the voter in the poll, seeded by the
    secretary: what [SendEmail.objects.get(voter=, poll=, secretary=)]
    looks for. *)
Definition has_row (d : DB) (voter poll secretary : Z) : Prop :=
  ∃ j s, send_emails d !! j = Some s ∧ SendEmail.voter s = voter ∧
         SendEmail.poll s = poll ∧ SendEmail.secretary s = secretary.


(** Two versions of a ledger row: who votes in which poll, for which
    secretary, under which key, and whether the ballot was taken. *)
Definition same_voter (s s' : SendEmail.t) : Prop :=
  SendEmail.voter s' = SendEmail.voter s ∧
  SendEmail.poll s' = SendEmail.poll s ∧
  SendEmail.secretary s' = SendEmail.secretary s ∧
  SendEmail.public_key s' = SendEmail.public_key s ∧
  SendEmail.visited s' = SendEmail.visited s.

(** What seeding by the secretary [u] may do to a store: every row stays,
    for the same voter; a row that appears is keyed, not visited, of [u],
    for a voter and poll allowed by [Q] that had no row; keys and the log of
    invalid attempts are untouched. *)
Definition seeded_from (Q : Z → Z → Prop) (u : Z) (d d' : DB) : Prop :=
  (∀ j s, send_emails d !! j = Some s →
     ∃ s', send_emails d' !! j = Some s' ∧ same_voter s s') ∧
  (∀ j s', send_emails d' !! j = Some s' → send_emails d !! j = None →
     SendEmail.public_key s' = j ∧ SendEmail.visited s' = false ∧
     SendEmail.secretary s' = u ∧
     Q (SendEmail.voter s') (SendEmail.poll s') ∧
     ¬ has_row d (SendEmail.voter s') (SendEmail.poll s') u) ∧
  keys d' = keys d ∧ bad_keys d' = bad_keys d.

(** A computation that takes the store along the relation [R], whether it
    returns or raises. *)
Definition moves_by (R : DB → DB → Prop) {A} (m : M A) : Prop :=
  ∀ w, R (db w) (db (m w).2).

Definition same_keys (d d' : DB) : Prop := keys d' = keys d.

(** What may happen to the key table: a key stays as it is, or, having no
    response yet, receives one. *)
Definition keys_settle (d d' : DB) : Prop :=
  ∀ v k, keys d !! v = Some k →
    keys d' !! v = Some k ∨
    (Key.response k = Key.NOT_RETURNED ∧
     ∃ r, keys d' !! v = Some (Key.set_response r k)).

(** What may happen to the ledger: a row stays under its key, for the same
    voter, poll and secretary, and once marked visited stays so; a row that
    appears carries its key. *)
Definition ledger_stays (d d' : DB) : Prop :=
  (∀ j s, send_emails d !! j = Some s →
     ∃ s', send_emails d' !! j = Some s' ∧
           SendEmail.voter s' = SendEmail.voter s ∧
           SendEmail.poll s' = SendEmail.poll s ∧
           SendEmail.secretary s' = SendEmail.secretary s ∧
           SendEmail.public_key s' = SendEmail.public_key s ∧
           (SendEmail.visited s = true → SendEmail.visited s' = true)) ∧
  (∀ j s', send_emails d' !! j = Some s' → send_emails d !! j = None →
     SendEmail.public_key s' = j).

(** The same, for a ledger whose rows carry their keys. *)
Definition keyed_ledger_stays (d d' : DB) : Prop :=
  ledger_keyed d → ledger_stays d d'.

(** What the results view reads of the poll [i]: its row, its keys, its
    ledger rows and the invalid attempts logged for it. *)
Definition poll_record (d : DB) (i : Z) :=
  (polls d !! i,
   filter (λ vk : string * Key.t, Key.poll vk.2 = Some i) (keys d),
   filter (λ js : Z * SendEmail.t, SendEmail.poll js.2 = i) (send_emails d),
   filter (λ b, BadKey.poll b = Some i) (bad_keys d)).

(** The ledger stays and the record of the poll [i] is as it was. *)
Definition stays_frozen (i : Z) (d d' : DB) : Prop :=
  ledger_stays d d' ∧ poll_record d' i = poll_record d i.

Definition keyed_stays_frozen (i : Z) (d d' : DB) : Prop :=
  ledger_keyed d → stays_frozen i d d'.

(** The poll [i] is FINISHED, in a store whose polls and ledger rows carry
    their keys. *)
Definition settled (i : Z) (d : DB) : Prop :=
  polls_keyed d ∧ ledger_keyed d ∧
  ∃ p, polls d !! i = Some p ∧ Poll.state p = Poll.FINISHED.

(** ** Example stores

    Polls 1 and 2 are STARTED (1 allows spoiling, 2 does not), poll 3 is
    FINISHED, poll 4 is NOT_STARTED.  Poll 1 has two in-room ledger rows
    without a ballot and the key "123456"; poll 2 has one such row and owns
    the key "000000"; poll 3 has one ledger row with a ballot issued and one
    without. *)

Definition ex_poll (i : Z) (allow : bool) (st : Poll.State) : Poll.t :=
  {| Poll.id := i; Poll.title := "candidate"; Poll.text := "thesis";
     Poll.allow_spoiling := allow; Poll.date := 0%Z;
     Poll.voter_local := [1; 2]%Z; Poll.voter_remote := [3]%Z;
     Poll.secretary := 7%Z; Poll.private_key_method := Poll.SIX_DIGITS;
     Poll.state := st |}.

Definition ex_send_email (pk voter poll : Z) (visited : bool) : SendEmail.t :=
  {| SendEmail.info := {| SendEmail.error := None; SendEmail.time := None |};
     SendEmail.voter := voter; SendEmail.poll := poll;
     SendEmail.public_key := pk; SendEmail.visited := visited;
     SendEmail.secretary := 7%Z; SendEmail.status := SendEmail.LOCAL |}.

Definition ex_key (poll : Z) (value : string) (r : Key.Response) : Key.t :=
  {| Key.poll := Some poll; Key.value := value; Key.response := r |}.

Definition ex_db : DB :=
  {| polls :=
       <[1%Z := ex_poll 1 true Poll.STARTED]>
         (<[2%Z := ex_poll 2 false Poll.STARTED]>
            (<[3%Z := ex_poll 3 false Poll.FINISHED]>
               (<[4%Z := ex_poll 4 false Poll.NOT_STARTED]> ∅)));
     send_emails :=
       <[100%Z := ex_send_email 100 1 1 false]>
         (<[101%Z := ex_send_email 101 2 1 false]>
            (<[200%Z := ex_send_email 200 3 2 false]>
               (<[300%Z := ex_send_email 300 1 3 true]>
                  (<[301%Z := ex_send_email 301 2 3 false]> ∅))));
     keys :=
       <["000000" := ex_key 2 "000000" Key.NOT_RETURNED]>
         (<["123456" := ex_key 1 "123456" Key.NOT_RETURNED]> ∅);
     bad_keys := [] |}.

(** A random source that returns [x] at every draw: every candidate key is
    the digit [x mod 10] six times. *)
Definition ex_world (x : nat) : World :=
  {| db := ex_db; rng := {| entropy := λ _, x; cursor := 0 |} |}.

(** A random source whose draws are all different. *)
Definition ex_world_counting : World :=
  {| db := ex_db; rng := {| entropy := λ i, i; cursor := 0 |} |}.

Definition ex_request (method : string) (responses : list string) (now : Z)
  : HttpRequest :=
  {| method := method; POST := {[ "response" := responses ]};
     user := 7%Z; now := now |}.

Definition ex_send_mail : SendEmail.t → option string := λ _, None.

(** A store in which some votes are in: in poll 2 the key "000000" is YES and
    "222222" has no response yet; in poll 1 the key "123456" is SPOILED. *)
Definition ex_db_voted : DB :=
  set_keys
    (<["000000" := ex_key 2 "000000" Key.YES]>
       (<["222222" := ex_key 2 "222222" Key.NOT_RETURNED]>
          (<["123456" := ex_key 1 "123456" Key.SPOILED]> ∅)))
    ex_db.

Definition ex_world_voted : World :=
  {| db := ex_db_voted; rng := {| entropy := λ _, 0; cursor := 0 |} |}.

(** A store whose only key, "000000", belongs to poll 2. *)
Definition ex_db_own : DB :=
  set_keys {[ "000000" := ex_key 2 "000000" Key.NOT_RETURNED ]} ex_db.

Definition ex_world_own : World :=
  {| db := ex_db_own; rng := {| entropy := λ _, 0; cursor := 0 |} |}.

(** Poll 5 is STARTED with a key method the code does not know; 500 is a
    ledger row of it. *)
Definition ex_poll_T : Poll.t :=
  {| Poll.id := 5%Z; Poll.title := "candidate"; Poll.text := "thesis";
     Poll.allow_spoiling := false; Poll.date := 0%Z;
     Poll.voter_local := [1]%Z; Poll.voter_remote := []%Z;
     Poll.secretary := 7%Z; Poll.private_key_method := "T";
     Poll.state := Poll.STARTED |}.

Definition ex_db_T : DB :=
  set_send_emails (<[500%Z := ex_send_email 500 1 5 false]> (send_emails ex_db))
    (set_polls (<[5%Z := ex_poll_T]> (polls ex_db)) ex_db).

Definition ex_world_T : World :=
  {| db := ex_db_T; rng := {| entropy := λ _, 0; cursor := 0 |} |}.





(** The polls and the ledger of [ex_db] before any ballot was issued: no
    key, no ledger row marked visited. *)
Definition ex_db_fresh : DB :=
  set_keys ∅
    (set_send_emails
       (<[300%Z := ex_send_email 300 1 3 false]> (send_emails ex_db)) ex_db).

Definition ex_world_fresh : World :=
  {| db := ex_db_fresh; rng := {| entropy := λ i, i; cursor := 0 |} |}.

(** * Properties *)

Ltac munfold :=
  unfold mbind, M_bind, mret, M_ret, raise, get_db, put_db, try_except,
    atomic in *.

(** ** Lookups leave the store alone *)

Lemma world_eta (w : World) : {| db := db w; rng := rng w |} = w.
Proof. by destruct w. Qed.

Lemma Poll_objects_get_frame i w :
  Poll_objects_get i w = ((Poll_objects_get i w).1, w).
Proof.
  unfold Poll_objects_get. munfold. simpl.
  destruct (polls (db w) !! i) as [p|]; [|done].
  by destruct (decide (Poll.id p = i)).
Qed.

Lemma Poll_objects_get_result i w :
  (Poll_objects_get i w).1 = Raise (DoesNotExist "Poll") ∨
  ∃ p, (Poll_objects_get i w).1 = Ok p ∧ polls (db w) !! i = Some p ∧ Poll.id p = i.
Proof.
  unfold Poll_objects_get. munfold. simpl.
  destruct (polls (db w) !! i) as [p|]; [|by left].
  destruct (decide (Poll.id p = i)); [right; eauto|by left].
Qed.

Lemma poll_is_inv w i p :
  poll_is w i p →
  Poll_objects_get i w = (Ok p, w) ∧ polls (db w) !! i = Some p ∧ Poll.id p = i.
Proof.
  unfold poll_is. intros H. split; [by rewrite Poll_objects_get_frame, H|].
  destruct (Poll_objects_get_result i w) as [E|(q & E & ? & ?)];
    rewrite E in H; [done|]. by injection H as <-.
Qed.

Lemma poll_is_intro w i p :
  polls (db w) !! i = Some p → Poll.id p = i → poll_is w i p.
Proof.
  intros H1 H2. unfold poll_is, Poll_objects_get. munfold. simpl.
  rewrite H1. by destruct (decide (Poll.id p = i)).
Qed.

Lemma Key_objects_get_frame v i w :
  Key_objects_get v i w = ((Key_objects_get v i w).1, w).
Proof.
  unfold Key_objects_get. munfold. simpl.
  destruct (keys (db w) !! v) as [k|]; [|done].
  by destruct (decide (Key.value k = v ∧ Key.poll k = Some i)).
Qed.

Lemma Key_objects_get_result v i w :
  (Key_objects_get v i w).1 = Raise (DoesNotExist "Key") ∨
  ∃ k, (Key_objects_get v i w).1 = Ok k ∧ keys (db w) !! v = Some k ∧
       Key.value k = v ∧ Key.poll k = Some i.
Proof.
  unfold Key_objects_get. munfold. simpl.
  destruct (keys (db w) !! v) as [k|]; [|by left].
  destruct (decide (Key.value k = v ∧ Key.poll k = Some i)) as [[? ?]|];
    [right; eauto|by left].
Qed.

Lemma key_is_inv w v i k :
  key_is w v i k →
  Key_objects_get v i w = (Ok k, w) ∧ keys (db w) !! v = Some k ∧
  Key.value k = v ∧ Key.poll k = Some i.
Proof.
  unfold key_is. intros H. split; [by rewrite Key_objects_get_frame, H|].
  destruct (Key_objects_get_result v i w) as [E|(q & E & ? & ? & ?)];
    rewrite E in H; [done|]. injection H as <-. auto.
Qed.

Lemma key_is_intro w v i k :
  keys (db w) !! v = Some k → Key.value k = v → Key.poll k = Some i →
  key_is w v i k.
Proof.
  intros H1 H2 H3. unfold key_is, Key_objects_get. munfold. simpl.
  rewrite H1. destruct (decide (Key.value k = v ∧ Key.poll k = Some i)); tauto.
Qed.

Lemma key_unregistered_inv w v i :
  key_unregistered w v i →
  Key_objects_get v i w = (Raise (DoesNotExist "Key"), w).
Proof. unfold key_unregistered. intros H. by rewrite Key_objects_get_frame, H. Qed.

(** The queries read one table each. *)
Lemma poll_is_same_polls w w' i p :
  polls (db w') = polls (db w) → poll_is w i p → poll_is w' i p.
Proof.
  unfold poll_is, Poll_objects_get. munfold. simpl. intros E. rewrite E.
  destruct (polls (db w) !! i) as [q|]; [destruct (decide _)|]; done.
Qed.

Lemma key_unregistered_same_keys w w' v i :
  keys (db w') = keys (db w) → key_unregistered w v i → key_unregistered w' v i.
Proof.
  unfold key_unregistered, Key_objects_get. munfold. simpl. intros E. rewrite E.
  destruct (keys (db w) !! v) as [q|]; [destruct (decide _)|]; done.
Qed.

(** ** Parsing the submitted response list *)

Lemma Response_by_value_Some s r :
  Response_by_value s = Some r ↔ s = Key.Response_value r.
Proof.
  unfold Response_by_value. split.
  - repeat case_decide; intros [= <-]; by subst.
  - intros ->. by destruct r.
Qed.

Lemma Response_of_value_frame s w :
  Response_of_value s w = ((Response_of_value s w).1, w).
Proof. unfold Response_of_value. munfold. by destruct (Response_by_value s). Qed.

(** [Response_set] either raises [ValueError], at a token that is no
    response value, or returns the set of the responses named in the
    list. *)
Lemma Response_set_spec rl w :
  (∃ m, Response_set rl w = (Raise (ValueError m), w) ∧
        ∃ t, t ∈ rl ∧ Response_by_value t = None) ∨
  (∃ s, Response_set rl w = (Ok s, w) ∧
        (∀ t, t ∈ rl → is_Some (Response_by_value t)) ∧
        ∀ r, r ∈ s ↔ Key.Response_value r ∈ rl).
Proof.
  induction rl as [|t rl IH]; simpl.
  - right. exists ∅. split; [done|]. split; [by intros ? ?%elem_of_nil|].
    intros r. rewrite elem_of_nil. set_solver.
  - unfold Response_of_value. munfold.
    destruct (Response_by_value t) as [r0|] eqn:Et.
    + destruct IH as [(m & -> & t' & ? & ?)|(s & -> & Hall & Hs)].
      * left. exists m. split; [done|]. exists t'. split; [by right|done].
      * right. exists ({[r0]} ∪ s). split; [done|]. split.
        -- intros t' [->|?]%elem_of_cons; [by rewrite Et|by apply Hall].
        -- intros r. rewrite elem_of_union, elem_of_singleton, elem_of_cons, Hs.
           apply Response_by_value_Some in Et. subst t.
           split; (intros [?|?]; [left|by right]).
           ++ by subst.
           ++ by destruct r, r0.
    + left. eexists. split; [done|]. exists t. split; [by left|done].
Qed.

Lemma Response_set_frame rl w :
  Response_set rl w = ((Response_set rl w).1, w).
Proof.
  destruct (Response_set_spec rl w) as [(m & -> & _)|(s & -> & _)]; done.
Qed.

Lemma classify_singleton r : classify {[ r ]} = Some r.
Proof.
  unfold classify. case_decide as E.
  - exfalso. destruct r; set_solver.
  - rewrite size_singleton. case_decide; [|done]. by rewrite elements_singleton.
Qed.

Lemma classify_yes_no : classify {[ Key.YES; Key.NO ]} = Some Key.SPOILED.
Proof. unfold classify. by case_decide. Qed.

Lemma classify_empty : classify ∅ = None.
Proof.
  unfold classify. case_decide as E; [set_solver|].
  rewrite size_empty. by case_decide.
Qed.

Lemma classify_two_others (s : gset Key.Response) r1 r2 r3 :
  r1 ∈ s → r2 ∈ s → r1 ≠ r2 → r3 ∈ s → r3 ≠ Key.YES → r3 ≠ Key.NO →
  classify s = None.
Proof.
  intros H1 H2 Hne H3 Hy Hn. unfold classify. case_decide as E.
  - rewrite E in H3.
    apply elem_of_union in H3 as [?%elem_of_singleton|?%elem_of_singleton];
      congruence.
  - case_decide as Es; [|done]. apply size_1_elem_of in Es as [x Hx].
    assert (r1 = x) by set_solver. assert (r2 = x) by set_solver. congruence.
Qed.

Lemma parse_response_spec request poll rl w :
  parse_response request poll rl w =
    (match (Response_set rl w).1 with
     | Raise e => Raise e
     | Ok s =>
         match classify s with
         | None => Raise (ValueError "")
         | Some r =>
             if negb (Poll.allow_spoiling poll) && bool_decide (r = Key.SPOILED)
             then Ok (inl (message request MSG_NO_SPOILING []))
             else Ok (inr r)
         end
     end, w).
Proof.
  unfold parse_response. munfold. rewrite Response_set_frame.
  destruct (Response_set rl w).1 as [s|e]; simpl; [|done].
  unfold classify, set_pop. munfold.
  destruct (decide (s = {[Key.YES; Key.NO]})).
  - by destruct (negb _ && _).
  - destruct (decide (size s = 1)) as [Es|]; [|done].
    apply size_1_elem_of in Es as [x Hx]. apply leibniz_equiv in Hx. subst s.
    rewrite elements_singleton. simpl. by destruct (negb _ && _).
Qed.

(** ** [vote], branch by branch *)

Lemma vote_not_started request poll_id private_key w p :
  poll_is w poll_id p → Poll.state p ≠ Poll.STARTED →
  vote request poll_id private_key w =
    (Ok (message request
           ("Данное голосование " ++ Poll.label_lower (Poll.state p)) []), w).
Proof.
  intros Hp Hs. apply poll_is_inv in Hp as (Hg & _ & _).
  unfold vote. munfold. rewrite Hg.
  destruct (decide (Poll.state p ≠ Poll.STARTED)); [done|contradiction].
Qed.

Lemma vote_unregistered request poll_id private_key w p :
  poll_is w poll_id p → Poll.state p = Poll.STARTED →
  key_unregistered w private_key poll_id →
  vote request poll_id private_key w =
    (Ok (message request MSG_NOT_REGISTERED []),
     log_bad_keys poll_id private_key [now request] w).
Proof.
  intros Hp Hs Hk. apply poll_is_inv in Hp as (Hg & _ & Hid).
  apply key_unregistered_inv in Hk.
  unfold vote. munfold. rewrite Hg.
  destruct (decide (Poll.state p ≠ Poll.STARTED)); [congruence|].
  rewrite Hk. unfold BadKey_save. munfold. simpl. by rewrite Hid.
Qed.

Lemma vote_registered request poll_id private_key w p k :
  poll_is w poll_id p → Poll.state p = Poll.STARTED →
  key_is w private_key poll_id k →
  vote request poll_id private_key w =
    if decide (method request = "POST") then
      match (parse_response request p (getlist "response" (POST request)) w).1 with
      | Raise (ValueError _) => (Ok (message request MSG_NOT_RECOGNIZED []), w)
      | Raise e => (Raise e, w)
      | Ok (inl response) => (Ok response, w)
      | Ok (inr r) =>
          if decide (Key.response k = Key.NOT_RETURNED)
          then (Ok (message request MSG_RECORDED []), record_response r k w)
          else (Ok (message request MSG_ALREADY_VOTED []), w)
      end
    else if decide (Key.response k = Key.NOT_RETURNED)
         then (Ok (render "polls/vote.html" [("key", AKey k); ("poll", APoll p)]), w)
         else (Ok (message request MSG_ALREADY_VOTED []), w).
Proof.
  intros Hp Hs Hk. apply poll_is_inv in Hp as (Hg & _ & Hid).
  apply key_is_inv in Hk as (Hkg & _ & _ & _).
  unfold vote. munfold. rewrite Hg.
  destruct (decide (Poll.state p ≠ Poll.STARTED)); [congruence|].
  rewrite Hkg.
  destruct (decide (method request = "POST")).
  - rewrite parse_response_spec. simpl.
    destruct (Response_set _ w).1 as [s|e0]; simpl.
    + destruct (classify s) as [r|]; simpl; [|done].
      destruct (negb _ && _); [done|].
      destruct (decide (Key.response k = Key.NOT_RETURNED)); [|done].
      unfold Key_save. munfold. done.
    + destruct e0; by rewrite ?world_eta.
  - by destruct (decide (Key.response k = Key.NOT_RETURNED)).
Qed.

Lemma vote_no_poll request poll_id private_key w :
  (Poll_objects_get poll_id w).1 = Raise (DoesNotExist "Poll") →
  vote request poll_id private_key w =
    (Ok (message request "Данного голосования не существует" []), w).
Proof.
  intros H. unfold vote. munfold. by rewrite Poll_objects_get_frame, H.
Qed.

(** Whatever the request, [vote] leaves the key table as it was or writes
    one response into a key that had none. *)
Lemma vote_keys request poll_id private_key w :
  keys (db (vote request poll_id private_key w).2) = keys (db w) ∨
  ∃ k r, key_is w private_key poll_id k ∧ Key.response k = Key.NOT_RETURNED ∧
         keys (db (vote request poll_id private_key w).2)
           = <[private_key := Key.set_response r k]> (keys (db w)).
Proof.
  destruct (Poll_objects_get_result poll_id w) as [E|(p & E & _ & _)].
  { left. by rewrite vote_no_poll. }
  destruct (decide (Poll.state p = Poll.STARTED)) as [Hs|Hs];
    [|left; by rewrite (vote_not_started _ _ _ _ p)].
  destruct (Key_objects_get_result private_key poll_id w)
    as [Ek|(k & Ek & _ & Hv & _)].
  { left. by rewrite (vote_unregistered _ _ _ _ p). }
  rewrite (vote_registered _ _ _ _ p k) by done.
  destruct (decide (method request = "POST")).
  - destruct (parse_response _ _ _ w).1 as [[?|r]|e0]; [by left| |destruct e0; by left].
    destruct (decide (Key.response k = Key.NOT_RETURNED)); [|by left].
    right. exists k, r. split; [done|]. split; [done|]. simpl. by rewrite Hv.
  - destruct (decide (Key.response k = Key.NOT_RETURNED)); by left.
Qed.

Lemma log_bad_keys_cons poll_id value t ts w :
  log_bad_keys poll_id value ts (log_bad_keys poll_id value [t] w)
  = log_bad_keys poll_id value (t :: ts) w.
Proof.
  unfold log_bad_keys, with_db, set_bad_keys. simpl.
  by rewrite <- app_assoc.
Qed.

Lemma log_bad_keys_nil poll_id value w : log_bad_keys poll_id value [] w = w.
Proof.
  unfold log_bad_keys, with_db, set_bad_keys. simpl. rewrite app_nil_r.
  by destruct w as [[] ?].
Qed.

Lemma bad_key_count_log poll_id value ts w :
  bad_key_count (db (log_bad_keys poll_id value ts w)) poll_id
  = bad_key_count (db w) poll_id + length ts.
Proof.
  unfold bad_key_count. simpl. rewrite filter_app, length_app. f_equal.
  induction ts as [|t ts IH]; [done|].
  rewrite fmap_cons, filter_cons_True by done. simpl. by rewrite IH.
Qed.

Lemma vote_each_unregistered requests poll_id private_key w p :
  poll_is w poll_id p → Poll.state p = Poll.STARTED →
  key_unregistered w private_key poll_id →
  vote_each requests poll_id private_key w =
    (Ok ((λ r, message r MSG_NOT_REGISTERED []) <$> requests),
     log_bad_keys poll_id private_key (now <$> requests) w).
Proof.
  revert w. induction requests as [|request rest IH]; intros w Hp Hs Hk.
  - simpl. munfold. by rewrite log_bad_keys_nil.
  - simpl. munfold. rewrite (vote_unregistered _ _ _ _ p) by done.
    rewrite IH; [by rewrite log_bad_keys_cons| | |]; try done.
    + by apply (poll_is_same_polls w).
    + by apply (key_unregistered_same_keys w).
Qed.

(** ** The claims about [vote] *)

(** C9. When the poll exists and is not STARTED, [vote] answers with the
    message naming the poll's state and changes nothing: the whole store is
    as before, so no invalid attempt is logged, whatever the submitted key,
    and no key response is written. *)
Theorem vote_outside_started_changes_nothing request poll_id private_key w p :
  poll_is w poll_id p → Poll.state p ≠ Poll.STARTED →
  vote request poll_id private_key w =
    (Ok (message request
           ("Данное голосование " ++ Poll.label_lower (Poll.state p)) []), w)
  ∧ bad_keys (db (vote request poll_id private_key w).2) = bad_keys (db w)
  ∧ keys (db (vote request poll_id private_key w).2) = keys (db w).
Proof.
  intros Hp Hs. by rewrite (vote_not_started _ _ _ _ p).
Qed.

Lemma vote_outside_started_changes_nothing_witness :
  poll_is (ex_world 0) 3 (ex_poll 3 false Poll.FINISHED) ∧
  Poll.state (ex_poll 3 false Poll.FINISHED) ≠ Poll.STARTED ∧
  key_unregistered (ex_world 0) "999999" 3 ∧
  vote (ex_request "POST" ["Y"] 5) 3 "999999" (ex_world 0) =
    (Ok (message (ex_request "POST" ["Y"] 5) "Данное голосование завершено" []),
     ex_world 0).
Proof.
  split; [reflexivity|]. split; [discriminate|]. split; [reflexivity|].
  apply (vote_outside_started_changes_nothing
           (ex_request "POST" ["Y"] 5) 3 "999999" (ex_world 0)
           (ex_poll 3 false Poll.FINISHED)); [reflexivity|discriminate].
Defined.

(** C7. On a STARTED poll, a key value that is not registered for the poll
    gets the "not registered" message and exactly one [BadKey] row for that
    poll and value, appended to the log; the attempt repeated [n] times
    appends [n] rows, one per attempt, and the invalid-attempt count of the
    poll grows by [n]. *)
Theorem vote_unregistered_logs_every_attempt requests poll_id private_key w p :
  poll_is w poll_id p → Poll.state p = Poll.STARTED →
  key_unregistered w private_key poll_id →
  (∀ request,
     vote request poll_id private_key w =
       (Ok (message request MSG_NOT_REGISTERED []),
        with_db (set_bad_keys
                   (bad_keys (db w) ++
                      [{| BadKey.poll := Some poll_id;
                          BadKey.value := private_key;
                          BadKey.timestamp := now request |}]) (db w)) w))
  ∧ vote_each requests poll_id private_key w =
      (Ok ((λ r, message r MSG_NOT_REGISTERED []) <$> requests),
       log_bad_keys poll_id private_key (now <$> requests) w)
  ∧ bad_key_count
      (db (vote_each requests poll_id private_key w).2) poll_id
    = bad_key_count (db w) poll_id + length requests.
Proof.
  intros Hp Hs Hk. split; [|split].
  - intros request. by rewrite (vote_unregistered _ _ _ _ p).
  - by apply (vote_each_unregistered _ _ _ _ p).
  - rewrite (vote_each_unregistered _ _ _ _ p) by done. cbn [snd].
    by rewrite bad_key_count_log, length_fmap.
Qed.

Lemma vote_unregistered_logs_every_attempt_witness :
  poll_is (ex_world 0) 1 (ex_poll 1 true Poll.STARTED) ∧
  key_unregistered (ex_world 0) "000000" 1 ∧
  bad_key_count
    (db (vote_each [ex_request "GET" [] 5; ex_request "POST" ["Y"] 6]
           1 "000000" (ex_world 0)).2) 1
  = bad_key_count (db (ex_world 0)) 1 + 2.
Proof.
  split; [reflexivity|]. split; [reflexivity|].
  apply (vote_unregistered_logs_every_attempt
           [ex_request "GET" [] 5; ex_request "POST" ["Y"] 6]
           1 "000000" (ex_world 0) (ex_poll 1 true Poll.STARTED));
    reflexivity.
Defined.

Lemma Response_set_one t r w :
  Response_by_value t = Some r →
  (Response_set [t] w).1 = Ok {[ r ]}.
Proof.
  intros H. simpl. unfold Response_of_value. munfold. rewrite H. simpl.
  by rewrite (right_id_L ∅ (∪)).
Qed.


(** A POST for a registered key without a response, in terms of the set of
    responses named in the submitted list. *)
Lemma vote_post_unredeemed request poll_id private_key w p k :
  poll_is w poll_id p → Poll.state p = Poll.STARTED →
  key_is w private_key poll_id k → Key.response k = Key.NOT_RETURNED →
  method request = "POST" →
  vote request poll_id private_key w =
    match (Response_set (getlist "response" (POST request)) w).1 with
    | Raise (ValueError _) => (Ok (message request MSG_NOT_RECOGNIZED []), w)
    | Raise e => (Raise e, w)
    | Ok s =>
        match classify s with
        | None => (Ok (message request MSG_NOT_RECOGNIZED []), w)
        | Some r =>
            if negb (Poll.allow_spoiling p) && bool_decide (r = Key.SPOILED)
            then (Ok (message request MSG_NO_SPOILING []), w)
            else (Ok (message request MSG_RECORDED []), record_response r k w)
        end
    end.
Proof.
  intros Hp Hs Hk Hr Hm. rewrite (vote_registered _ _ _ _ p k) by done.
  rewrite decide_True by done. rewrite parse_response_spec. cbn [fst].
  destruct (Response_set _ w).1 as [s|e0]; [|done].
  destruct (classify s) as [r|]; [|done].
  destruct (negb _ && _); [done|]. by rewrite decide_True.
Qed.

Lemma Response_set_exact rl w (s0 : gset Key.Response) :
  (∀ t, t ∈ rl → is_Some (Response_by_value t)) →
  (∀ r, r ∈ s0 ↔ Key.Response_value r ∈ rl) →
  (Response_set rl w).1 = Ok s0.
Proof.
  intros Hall Hs0.
  destruct (Response_set_spec rl w) as [(m & _ & t & Ht & Hn)|(s & -> & _ & Hs)].
  - apply Hall in Ht as [r Hr]. congruence.
  - simpl. f_equal. apply set_eq. intros r. by rewrite Hs, Hs0.
Qed.

Lemma Response_set_invalid rl w t :
  t ∈ rl → Response_by_value t = None →
  ∃ m, (Response_set rl w).1 = Raise (ValueError m).
Proof.
  intros Ht Hn.
  destruct (Response_set_spec rl w) as [(m & -> & _)|(s & _ & Hall & _)].
  - by exists m.
  - apply Hall in Ht as [r Hr]. congruence.
Qed.

Lemma all_equal_elem (rl : list string) t :
  rl ≠ [] → (∀ x, x ∈ rl → x = t) → t ∈ rl.
Proof.
  destruct rl as [|x rl]; [done|]. intros _ H.
  rewrite <- (H x) by (apply elem_of_cons; by left). apply elem_of_cons. by left.
Qed.

Lemma Response_set_all_equal rl w r :
  rl ≠ [] → (∀ x, x ∈ rl → x = Key.Response_value r) →
  (Response_set rl w).1 = Ok {[ r ]}.
Proof.
  intros Hne Hall. apply Response_set_exact.
  - intros t Ht. rewrite (Hall t Ht). exists r. by apply Response_by_value_Some.
  - intros r'. rewrite elem_of_singleton. split.
    + intros ->. by apply all_equal_elem.
    + intros Hin. apply Hall in Hin. by destruct r, r'.
Qed.

Lemma Response_set_yes_and_no rl w :
  "Y" ∈ rl → "N" ∈ rl → (∀ x, x ∈ rl → x = "Y" ∨ x = "N") →
  (Response_set rl w).1 = Ok {[ Key.YES; Key.NO ]}.
Proof.
  intros Hy Hn Hall. apply Response_set_exact.
  - intros t Ht. destruct (Hall t Ht) as [->| ->]; by eexists.
  - intros r. rewrite elem_of_union, !elem_of_singleton. split.
    + by intros [->| ->].
    + intros Hin. destruct (Hall _ Hin) as [H|H]; destruct r;
        try discriminate H; auto.
Qed.

Lemma Response_by_value_other t :
  t ∉ ["Y"; "N"; "S"; "?"] → Response_by_value t = None.
Proof.
  intros H. unfold Response_by_value.
  repeat case_decide; try done; subst; exfalso; apply H; set_solver.
Qed.

(** C1, as the code has it.  For a POST on a STARTED poll and a registered
    key without a response, the outcome depends on the set of distinct
    tokens submitted.  Tokens that are all "Y" (all "N") select YES (NO),
    which is recorded; "Y" and "N" together, and nothing else, give
    SPOILED, and so does the token "S" alone; SPOILED is recorded when the
    poll allows spoiling and refused without any change otherwise.  An
    empty list, a list with a token that is no response value, and a list
    with two distinct tokens one of which is neither "Y" nor "N" get
    "response not recognized" and change nothing. *)
Theorem vote_post_response_parsing request poll_id private_key w p k :
  poll_is w poll_id p → Poll.state p = Poll.STARTED →
  key_is w private_key poll_id k → Key.response k = Key.NOT_RETURNED →
  method request = "POST" →
  let rl := getlist "response" (POST request) in
  let outcome := vote request poll_id private_key w in
  let recorded r :=
    (Ok (message request MSG_RECORDED []), record_response r k w) in
  let spoiled :=
    if Poll.allow_spoiling p then recorded Key.SPOILED
    else (Ok (message request MSG_NO_SPOILING []), w) in
  let unrecognized := (Ok (message request MSG_NOT_RECOGNIZED []), w) in
  (rl ≠ [] → (∀ t, t ∈ rl → t = "Y") → outcome = recorded Key.YES)
  ∧ (rl ≠ [] → (∀ t, t ∈ rl → t = "N") → outcome = recorded Key.NO)
  ∧ ("Y" ∈ rl → "N" ∈ rl → (∀ t, t ∈ rl → t = "Y" ∨ t = "N") →
     outcome = spoiled)
  ∧ (rl ≠ [] → (∀ t, t ∈ rl → t = "S") → outcome = spoiled)
  ∧ (rl = [] → outcome = unrecognized)
  ∧ ((∃ t, t ∈ rl ∧ t ∉ ["Y"; "N"; "S"; "?"]) → outcome = unrecognized)
  ∧ ((∃ t1 t2 t3, t1 ∈ rl ∧ t2 ∈ rl ∧ t1 ≠ t2 ∧
                  t3 ∈ rl ∧ t3 ≠ "Y" ∧ t3 ≠ "N") →
     outcome = unrecognized).
Proof.
  intros Hp Hs Hk Hr Hm rl outcome recorded spoiled unrecognized.
  pose proof (vote_post_unredeemed _ _ _ _ _ _ Hp Hs Hk Hr Hm) as E.
  fold rl outcome in E. subst recorded spoiled unrecognized. cbv beta.
  repeat split.
  - intros Hne Hall. rewrite E.
    rewrite (Response_set_all_equal rl w Key.YES) by done.
    rewrite classify_singleton. by rewrite andb_false_r.
  - intros Hne Hall. rewrite E.
    rewrite (Response_set_all_equal rl w Key.NO) by done.
    rewrite classify_singleton. by rewrite andb_false_r.
  - intros Hy Hn Hall. rewrite E.
    rewrite Response_set_yes_and_no by done. rewrite classify_yes_no.
    by destruct (Poll.allow_spoiling p).
  - intros Hne Hall. rewrite E.
    rewrite (Response_set_all_equal rl w Key.SPOILED) by done.
    rewrite classify_singleton. by destruct (Poll.allow_spoiling p).
  - intros Hnil. rewrite E, Hnil. simpl. by rewrite classify_empty.
  - intros (t & Ht & Hno). rewrite E.
    destruct (Response_set_invalid rl w t Ht (Response_by_value_other t Hno))
      as [m ->]. done.
  - intros (t1 & t2 & t3 & H1 & H2 & Hne & H3 & Hy & Hn). rewrite E.
    destruct (Response_set_spec rl w) as [(m & -> & _)|(s & -> & Hall & Hin)];
      [done|]. cbn [fst].
    destruct (Hall _ H1) as [r1 E1%Response_by_value_Some].
    destruct (Hall _ H2) as [r2 E2%Response_by_value_Some].
    destruct (Hall _ H3) as [r3 E3%Response_by_value_Some].
    rewrite (classify_two_others s r1 r2 r3); [done|..].
    + apply Hin. by rewrite <- E1.
    + apply Hin. by rewrite <- E2.
    + congruence.
    + apply Hin. by rewrite <- E3.
    + intros ->. by apply Hy.
    + intros ->. by apply Hn.
Qed.

Lemma vote_post_response_parsing_witness :
  poll_is (ex_world 0) 2 (ex_poll 2 false Poll.STARTED) ∧
  key_is (ex_world 0) "000000" 2 (ex_key 2 "000000" Key.NOT_RETURNED) ∧
  vote (ex_request "POST" ["Y"; "N"] 5) 2 "000000" (ex_world 0) =
    (Ok (message (ex_request "POST" ["Y"; "N"] 5) MSG_NO_SPOILING []),
     ex_world 0).
Proof.
  split; [reflexivity|]. split; [reflexivity|].
  destruct (vote_post_response_parsing
              (ex_request "POST" ["Y"; "N"] 5) 2 "000000" (ex_world 0)
              (ex_poll 2 false Poll.STARTED)
              (ex_key 2 "000000" Key.NOT_RETURNED)
              eq_refl eq_refl eq_refl eq_refl eq_refl) as (_ & _ & H & _).
  apply H.
  - apply elem_of_cons. by left.
  - apply elem_of_cons. right. apply elem_of_cons. by left.
  - intros t [->|[->|[]%elem_of_nil]%elem_of_cons]%elem_of_cons; auto.
Defined.

(** C1 as stated fails: the token "S" is neither YES nor NO, yet on a poll
    that allows spoiling it is recorded as SPOILED; and three tokens "Y"
    are more than two, yet they are recorded as YES. *)
Lemma vote_post_other_tokens_counterexample :
  poll_is (ex_world 0) 1 (ex_poll 1 true Poll.STARTED) ∧
  key_is (ex_world 0) "123456" 1 (ex_key 1 "123456" Key.NOT_RETURNED) ∧
  vote (ex_request "POST" ["S"] 5) 1 "123456" (ex_world 0) =
    (Ok (message (ex_request "POST" ["S"] 5) MSG_RECORDED []),
     record_response Key.SPOILED (ex_key 1 "123456" Key.NOT_RETURNED)
       (ex_world 0)) ∧
  vote (ex_request "POST" ["Y"; "Y"; "Y"] 5) 1 "123456" (ex_world 0) =
    (Ok (message (ex_request "POST" ["Y"; "Y"; "Y"] 5) MSG_RECORDED []),
     record_response Key.YES (ex_key 1 "123456" Key.NOT_RETURNED)
       (ex_world 0)) ∧
  MSG_RECORDED ≠ MSG_NOT_RECOGNIZED ∧
  keys (db (record_response Key.SPOILED
              (ex_key 1 "123456" Key.NOT_RETURNED) (ex_world 0))) !! "123456"
    = Some (ex_key 1 "123456" Key.SPOILED) ∧
  keys (db (ex_world 0)) !! "123456"
    = Some (ex_key 1 "123456" Key.NOT_RETURNED).
Proof.
  repeat split; try reflexivity. discriminate.
Qed.

(** ** The random digits *)

Lemma randbelow_eq n w :
  randbelow n w = (Ok (entropy (rng w) (cursor (rng w)) mod n), advance 1 w).
Proof. done. Qed.

Lemma advance_advance n m w : advance n (advance m w) = advance (n + m) w.
Proof. unfold advance. simpl. do 2 f_equal. lia. Qed.

Lemma digit_substring i :
  i < 10 →
  String.length (String.substring i 1 digits) = 1 ∧
  all_digits (String.substring i 1 digits) = true.
Proof.
  intros H. do 10 (destruct i as [|i]; [done|]). lia.
Qed.

Lemma secrets_choice_digits w :
  ∃ c, secrets_choice digits w = (Ok c, advance 1 w) ∧
       String.length c = 1 ∧ all_digits c = true.
Proof.
  unfold secrets_choice. rewrite decide_False by done. munfold.
  rewrite randbelow_eq. eexists. split; [done|].
  apply digit_substring. change (String.length digits) with 10.
  apply Nat.mod_upper_bound. done.
Qed.

Lemma choices_digits k w :
  ∃ cs, choices k digits w = (Ok cs, advance k w) ∧ length cs = k ∧
        Forall (λ c, String.length c = 1 ∧ all_digits c = true) cs.
Proof.
  revert w. induction k as [|k IH]; intros w.
  - exists []. split; [|by split]. simpl. munfold. unfold advance. simpl.
    by destruct w as [? []].
  - destruct (secrets_choice_digits w) as (c & Ec & Hc).
    destruct (IH (advance 1 w)) as (cs & Ecs & Hlen & Hcs).
    exists (c :: cs). split; [|split].
    + simpl. munfold. rewrite Ec, Ecs, advance_advance.
      by replace (k + 1) with (S k) by lia.
    + simpl. by rewrite Hlen.
    + by constructor.
Qed.

Lemma string_length_app (a b : string) :
  String.length (a ++ b) = String.length a + String.length b.
Proof. induction a as [|x a IH]; [done|]. simpl. by rewrite IH. Qed.

Lemma all_digits_app a b :
  all_digits (a ++ b) = all_digits a && all_digits b.
Proof.
  unfold all_digits. induction a as [|x a IH]; [done|].
  simpl. rewrite IH. by rewrite andb_assoc.
Qed.

Lemma concat_digits cs :
  Forall (λ c, String.length c = 1 ∧ all_digits c = true) cs →
  String.length (String.concat "" cs) = length cs ∧
  all_digits (String.concat "" cs) = true.
Proof.
  induction 1 as [|c cs [Hl Hd] Hcs [IHl IHd]]; [done|].
  destruct cs as [|c' cs].
  - simpl. by rewrite Hl.
  - change (String.concat "" (c :: c' :: cs))
      with (c ++ String.concat "" (c' :: cs)).
    rewrite string_length_app, all_digits_app, Hl, IHl, Hd, IHd. done.
Qed.

(** [secure_digits(k=6)] always returns, taking six draws, and what it
    returns is six decimal digits. *)
Lemma secure_digits_six w :
  ∃ s, secure_digits 6 digits w = (Ok s, advance 6 w) ∧
       String.length s = 6 ∧ all_digits s = true.
Proof.
  destruct (choices_digits 6 w) as (cs & E & Hlen & Hcs).
  exists (String.concat "" cs). split.
  - unfold secure_digits. munfold. by rewrite E.
  - destruct (concat_digits cs Hcs) as [Hl Hd]. by rewrite Hl, Hlen.
Qed.

(** ** Minting a key *)

Lemma advance_0 w : advance 0 w = w.
Proof. unfold advance. simpl. by destruct w as [? []]. Qed.

(** The three outcomes of [Key.objects.get_or_create(poll=, value=)]: the
    value is free and the key is inserted; the poll already owns the value
    and its key is returned; another poll owns the value, the insert
    violates the primary key and the violation is re-raised. *)
Lemma Key_get_or_create_spec pid v w :
  get_or_create (Key_objects_get v pid) (Key_objects_create pid v) w =
    match keys (db w) !! v with
    | None =>
        let k := {| Key.poll := Some pid; Key.value := v;
                    Key.response := Key.NOT_RETURNED |} in
        (Ok (k, true), with_db (set_keys (<[v := k]> (keys (db w))) (db w)) w)
    | Some k =>
        if decide (Key.value k = v ∧ Key.poll k = Some pid)
        then (Ok (k, false), w)
        else (Raise (IntegrityError "UNIQUE constraint failed: polls_key.value"), w)
    end.
Proof.
  unfold get_or_create, Key_objects_get, Key_objects_create. munfold. simpl.
  destruct (keys (db w) !! v) as [k|] eqn:E; simpl.
  - destruct (decide (Key.value k = v ∧ Key.poll k = Some pid)); simpl; [done|].
    rewrite E. simpl. rewrite E.
    destruct (decide (Key.value k = v ∧ Key.poll k = Some pid)); [done|].
    simpl. by rewrite world_eta.
  - by rewrite E.
Qed.

Lemma mint_loop_spec n self w :
  match mint_loop n self w with
  | (Ok key, w') =>
      ∃ m, 0 < m ≤ n ∧
        keys (db w) !! Key.value key = None ∧
        key = {| Key.poll := Some (Poll.id self); Key.value := Key.value key;
                 Key.response := Key.NOT_RETURNED |} ∧
        String.length (Key.value key) = 6 ∧
        all_digits (Key.value key) = true ∧
        w' = with_db (set_keys (<[Key.value key := key]> (keys (db w))) (db w))
               (advance (6 * m) w)
  | (Raise e, w') =>
      db w' = db w ∧
      ((e = ValueError MSG_EXHAUSTED ∧ w' = advance (6 * n) w) ∨
       ∃ m, e = IntegrityError m)
  end.
Proof.
  revert w. induction n as [|n IH]; intros w.
  - simpl. munfold. split; [done|]. left. by rewrite advance_0.
  - simpl. munfold.
    destruct (secure_digits_six w) as (s & -> & Hlen & Hdig).
    rewrite decide_True by done.
    rewrite Key_get_or_create_spec. simpl.
    destruct (keys (db w) !! s) as [k|] eqn:E.
    + destruct (decide (Key.value k = s ∧ Key.poll k = Some (Poll.id self))).
      * specialize (IH (advance 6 w)).
        destruct (mint_loop n self (advance 6 w)) as [[key|e] w'].
        -- destruct IH as (m & Hm & Hfree & Hkey & Hl & Hd & ->).
           exists (S m). split; [lia|]. split; [done|]. split; [done|].
           split; [done|]. split; [done|].
           rewrite advance_advance. do 2 f_equal. lia.
        -- destruct IH as [Hdb [[-> ->]|[m ->]]].
           ++ split; [done|]. left. split; [done|]. rewrite advance_advance.
              f_equal. lia.
           ++ split; [done|]. right. by eexists.
      * split; [done|]. right. by eexists.
    + exists 1. split; [lia|]. done.
Qed.

Lemma SendEmail_save_visited_true se w :
  SendEmail_save_visited (SendEmail.set_visited true se) w =
    match send_emails (db w) !! SendEmail.public_key se with
    | Some row =>
        (Ok tt,
         with_db (set_send_emails
                    (<[SendEmail.public_key se := SendEmail.set_visited true row]>
                       (send_emails (db w))) (db w)) w)
    | None =>
        (Raise (DatabaseError "Save with update_fields did not affect any rows."), w)
    end.
Proof.
  unfold SendEmail_save_visited. munfold. simpl.
  by destruct (send_emails (db w) !! SendEmail.public_key se).
Qed.

Lemma create_private_key_for_spec self se w :
  match create_private_key_for self se w with
  | (Ok key, w') =>
      Poll.state self ≠ Poll.FINISHED ∧ SendEmail.visited se = false ∧
      keys (db w) !! Key.value key = None ∧
      key = {| Key.poll := Some (Poll.id self); Key.value := Key.value key;
               Key.response := Key.NOT_RETURNED |} ∧
      ∃ row, send_emails (db w) !! SendEmail.public_key se = Some row ∧
        db w' = set_send_emails
                  (<[SendEmail.public_key se := SendEmail.set_visited true row]>
                     (send_emails (db w)))
                  (set_keys (<[Key.value key := key]> (keys (db w))) (db w))
  | (Raise e, w') =>
      (∀ m, e ≠ AssertionError m) ∧
      polls (db w') = polls (db w) ∧
      send_emails (db w') = send_emails (db w) ∧
      bad_keys (db w') = bad_keys (db w) ∧
      (keys (db w') = keys (db w) ∨
       ∃ key, keys (db w) !! Key.value key = None ∧
              keys (db w') = <[Key.value key := key]> (keys (db w)))
  end.
Proof.
  unfold create_private_key_for.
  destruct (decide (Poll.state self = Poll.FINISHED)).
  { unfold raise. repeat split; try done. by left. }
  destruct (SendEmail.visited se) eqn:Ev.
  { unfold raise. repeat split; try done. by left. }
  destruct (decide (Poll.private_key_method self = Poll.SIX_DIGITS)).
  - munfold. pose proof (mint_loop_spec 1000 self w) as H.
    destruct (mint_loop 1000 self w) as [[key|e0] w1].
    + destruct H as (m & _ & Hfree & Hkey & _ & _ & ->).
      rewrite SendEmail_save_visited_true. simpl.
      destruct (send_emails (db w) !! SendEmail.public_key se) as [row|] eqn:Er.
      * repeat split; try done. by exists row.
      * repeat split; try done. right. by exists key.
    + destruct H as [-> H]. repeat split; try done; [|by left].
      intros m. by destruct H as [[-> _]|[m' ->]].
  - munfold. repeat split; try done. by left.
Qed.

(** Whatever its outcome, a mint keeps every key already in the table and
    every visited flag already set. *)
Lemma create_keeps_keys self se w v k :
  keys (db w) !! v = Some k →
  keys (db (create_private_key_for self se w).2) !! v = Some k.
Proof.
  intros Hk. pose proof (create_private_key_for_spec self se w) as H.
  destruct (create_private_key_for self se w) as [[key|e] w']; simpl.
  - destruct H as (_ & _ & Hfree & _ & row & _ & ->). simpl.
    rewrite lookup_insert_ne; [done|]. intros <-. congruence.
  - destruct H as (_ & _ & _ & _ & [->|(key & Hfree & ->)]); [done|].
    rewrite lookup_insert_ne; [done|]. intros <-. congruence.
Qed.

Lemma create_keeps_visited self se w pk row :
  send_emails (db w) !! pk = Some row → SendEmail.visited row = true →
  ∃ row', send_emails (db (create_private_key_for self se w).2) !! pk = Some row' ∧
          SendEmail.visited row' = true.
Proof.
  intros Hrow Hv. pose proof (create_private_key_for_spec self se w) as H.
  destruct (create_private_key_for self se w) as [[key|e] w']; simpl.
  - destruct H as (_ & _ & _ & _ & row0 & Hrow0 & ->). simpl.
    destruct (decide (SendEmail.public_key se = pk)) as [->|Hne].
    + rewrite lookup_insert_eq. by eexists.
    + rewrite lookup_insert_ne by done. by exists row.
  - destruct H as (_ & _ & -> & _). by exists row.
Qed.

(** C3. A key whose response is still NOT_RETURNED takes the response of
    the first POST; the POST that follows, with the other response, is
    told "already voted" and changes nothing, so the stored response is
    still YES.  And neither a call of [vote] nor a mint, whatever their
    arguments and outcome, changes a stored response other than
    NOT_RETURNED. *)
Theorem response_written_at_most_once
    request1 request2 poll_id private_key w p k :
  poll_is w poll_id p → Poll.state p = Poll.STARTED →
  key_is w private_key poll_id k → Key.response k = Key.NOT_RETURNED →
  method request1 = "POST" → getlist "response" (POST request1) = ["Y"] →
  method request2 = "POST" → getlist "response" (POST request2) = ["N"] →
  let w1 := record_response Key.YES k w in
  vote request1 poll_id private_key w =
    (Ok (message request1 MSG_RECORDED []), w1)
  ∧ vote request2 poll_id private_key w1 =
    (Ok (message request2 MSG_ALREADY_VOTED []), w1)
  ∧ keys (db w1) !! private_key = Some (Key.set_response Key.YES k)
  ∧ (∀ request' poll_id' private_key' w' value k',
       keys (db w') !! value = Some k' →
       Key.response k' ≠ Key.NOT_RETURNED →
       keys (db (vote request' poll_id' private_key' w').2) !! value = Some k'
       ∧ ∀ self send_email,
           keys (db (create_private_key_for self send_email w').2) !! value
             = Some k').
Proof.
  intros Hp Hs Hk Hr Hm1 Hl1 Hm2 Hl2 w1.
  pose proof (key_is_inv _ _ _ _ Hk) as (_ & Hlk & Hv & Hpoll).
  assert (Hlk1 : keys (db w1) !! private_key = Some (Key.set_response Key.YES k)).
  { subst w1. simpl. rewrite Hv. apply lookup_insert_eq. }
  split; [|split; [|split]]; [| |done|].
  - rewrite (vote_registered _ _ _ _ p k) by done.
    rewrite decide_True by done. rewrite parse_response_spec, Hl1. cbn [fst].
    rewrite (Response_set_one "Y" Key.YES) by done.
    rewrite classify_singleton. rewrite andb_false_r.
    by rewrite decide_True.
  - rewrite (vote_registered _ _ _ _ p (Key.set_response Key.YES k)).
    + rewrite decide_True by done. rewrite parse_response_spec, Hl2. cbn [fst].
      rewrite (Response_set_one "N" Key.NO) by done.
      rewrite classify_singleton. rewrite andb_false_r.
      by rewrite decide_False.
    + by apply (poll_is_same_polls w).
    + done.
    + by apply key_is_intro.
  - intros request' poll_id' private_key' w' value k' Hl Hne.
    split; [|intros self se; by apply create_keeps_keys].
    destruct (vote_keys request' poll_id' private_key' w')
      as [->|(k0 & r & Hk0 & Hr0 & ->)]; [done|].
    apply key_is_inv in Hk0 as (_ & Hl0 & _ & _).
    destruct (decide (private_key' = value)) as [->|Hdiff].
    + congruence.
    + by rewrite lookup_insert_ne.
Qed.

Lemma response_written_at_most_once_witness :
  poll_is (ex_world 0) 2 (ex_poll 2 false Poll.STARTED) ∧
  key_is (ex_world 0) "000000" 2 (ex_key 2 "000000" Key.NOT_RETURNED) ∧
  vote (ex_request "POST" ["N"] 6) 2 "000000"
    (record_response Key.YES (ex_key 2 "000000" Key.NOT_RETURNED) (ex_world 0))
  = (Ok (message (ex_request "POST" ["N"] 6) MSG_ALREADY_VOTED []),
     record_response Key.YES (ex_key 2 "000000" Key.NOT_RETURNED) (ex_world 0)).
Proof.
  split; [reflexivity|]. split; [reflexivity|].
  apply (response_written_at_most_once
           (ex_request "POST" ["Y"] 5) (ex_request "POST" ["N"] 6)
           2 "000000" (ex_world 0) (ex_poll 2 false Poll.STARTED)
           (ex_key 2 "000000" Key.NOT_RETURNED)); reflexivity.
Defined.

(** C8. The six-digit generator returns, at every draw, a string of exactly
    six decimal digits, so the length assertion of the minting loop never
    fails: [create_private_key_for] raises no [AssertionError], whatever
    the poll, the ledger row, the store and the random source. *)
Theorem six_digits_never_fail_the_length_check :
  (∀ w, ∃ s, secure_digits 6 digits w = (Ok s, advance 6 w) ∧
             String.length s = 6 ∧ all_digits s = true)
  ∧ (∀ self send_email w m,
       (create_private_key_for self send_email w).1 ≠ Raise (AssertionError m)).
Proof.
  split; [apply secure_digits_six|].
  intros self se w m. pose proof (create_private_key_for_spec self se w) as H.
  destruct (create_private_key_for self se w) as [[key|e] w']; [done|].
  simpl. destruct H as [H _]. intros [= ->]. by apply (H m).
Qed.

(** A successful mint leaves the poll table alone and registers the key,
    without a response, for the poll. *)
Lemma minted_key_registered self se w key w' :
  create_private_key_for self se w = (Ok key, w') →
  polls (db w') = polls (db w) ∧
  key_is w' (Key.value key) (Poll.id self) key ∧
  Key.response key = Key.NOT_RETURNED.
Proof.
  intros E. pose proof (create_private_key_for_spec self se w) as H.
  rewrite E in H. destruct H as (_ & _ & _ & Hkey & row & _ & Hdb).
  rewrite Hdb. simpl. split; [done|]. split; [|by rewrite Hkey].
  apply key_is_intro; [|done|by rewrite Hkey].
  rewrite Hdb. simpl. apply lookup_insert_eq.
Qed.

(** C6. A key minted for a STARTED poll can be redeemed at once: [vote]
    finds it registered for the poll, shows the form on GET, and on a POST
    of YES or NO records the vote. *)
Theorem minted_key_redeemable_at_once request self send_email w key w' r :
  poll_is w (Poll.id self) self → Poll.state self = Poll.STARTED →
  create_private_key_for self send_email w = (Ok key, w') →
  r = Key.YES ∨ r = Key.NO →
  key_is w' (Key.value key) (Poll.id self) key
  ∧ ¬ key_unregistered w' (Key.value key) (Poll.id self)
  ∧ (method request = "POST" →
     getlist "response" (POST request) = [Key.Response_value r] →
     vote request (Poll.id self) (Key.value key) w' =
       (Ok (message request MSG_RECORDED []), record_response r key w')
     ∧ keys (db (record_response r key w')) !! Key.value key
       = Some (Key.set_response r key))
  ∧ (method request ≠ "POST" →
     vote request (Poll.id self) (Key.value key) w' =
       (Ok (render "polls/vote.html" [("key", AKey key); ("poll", APoll self)]),
        w')).
Proof.
  intros Hp Hs E Hr.
  destruct (minted_key_registered _ _ _ _ _ E) as (Hpolls & Hk & Hresp).
  assert (Hp' : poll_is w' (Poll.id self) self)
    by by apply (poll_is_same_polls w).
  split; [done|]. split; [|split].
  - unfold key_unregistered. unfold key_is in Hk. by rewrite Hk.
  - intros Hm Hl. split; [|simpl; apply lookup_insert_eq].
    rewrite (vote_post_unredeemed _ _ _ _ self key) by done.
    rewrite Hl, (Response_set_one _ r) by by apply Response_by_value_Some.
    rewrite classify_singleton.
    replace (bool_decide (r = Key.SPOILED)) with false
      by by destruct Hr as [-> | ->].
    by rewrite andb_false_r.
  - intros Hm. rewrite (vote_registered _ _ _ _ self key) by done.
    rewrite decide_False by done. by rewrite decide_True.
Qed.

Lemma minted_key_redeemable_at_once_witness :
  poll_is (ex_world 7) 1 (ex_poll 1 true Poll.STARTED) ∧
  create_private_key_for (ex_poll 1 true Poll.STARTED)
    (ex_send_email 100 1 1 false) (ex_world 7)
  = (Ok (ex_key 1 "777777" Key.NOT_RETURNED),
     with_db
       (set_send_emails
          (<[100%Z := ex_send_email 100 1 1 true]> (send_emails ex_db))
          (set_keys
             (<["777777" := ex_key 1 "777777" Key.NOT_RETURNED]> (keys ex_db))
             ex_db))
       (advance 6 (ex_world 7))) ∧
  key_is
    (with_db
       (set_send_emails
          (<[100%Z := ex_send_email 100 1 1 true]> (send_emails ex_db))
          (set_keys
             (<["777777" := ex_key 1 "777777" Key.NOT_RETURNED]> (keys ex_db))
             ex_db))
       (advance 6 (ex_world 7)))
    "777777" 1 (ex_key 1 "777777" Key.NOT_RETURNED).
Proof.
  split; [reflexivity|]. split; [vm_compute; reflexivity|].
  apply (minted_key_redeemable_at_once
           (ex_request "POST" ["Y"] 5) (ex_poll 1 true Poll.STARTED)
           (ex_send_email 100 1 1 false) (ex_world 7)
           (ex_key 1 "777777" Key.NOT_RETURNED) _ Key.YES);
    [reflexivity|reflexivity|vm_compute; reflexivity|by left].
Defined.

(** ** The bulletin view *)

Lemma send_email_is_inv w pk se :
  send_email_is w pk se →
  SendEmail_objects_get pk w = (Ok se, w) ∧
  send_emails (db w) !! pk = Some se ∧ SendEmail.public_key se = pk.
Proof.
  unfold send_email_is, SendEmail_objects_get. munfold. simpl.
  destruct (send_emails (db w) !! pk) as [s|]; [|done].
  destruct (decide (SendEmail.public_key s = pk)); [|done].
  simpl. by intros [= ->].
Qed.

(** A mint that [create_private_key_for] refuses with a [ValueError]
    becomes a message of the bulletin page, and the store is as before. *)
Lemma email_bulletin_refused L request public_key w se p :
  send_email_is w public_key se → poll_is w (SendEmail.poll se) p →
  Poll.state p = Poll.FINISHED ∨ SendEmail.visited se = true →
  email_bulletin L request public_key w =
    (Ok (message request
           (if decide (Poll.state p = Poll.FINISHED)
            then MSG_POLL_FINISHED else MSG_ALREADY_ISSUED) []), w).
Proof.
  intros Hse Hp Hor.
  apply send_email_is_inv in Hse as (Hg & _ & _).
  apply poll_is_inv in Hp as (Hpg & _ & _).
  unfold email_bulletin, get_bulletin_common, SendEmail_poll. munfold.
  rewrite Hg, Hpg. unfold create_private_key_for.
  destruct (decide (Poll.state p = Poll.FINISHED)); [done|].
  destruct Hor as [?|Hv]; [done|]. by rewrite Hv.
Qed.

(** C5, as the code has it.  When the poll of the ledger row is FINISHED
    the bulletin view answers "poll finished"; when the poll is not
    FINISHED and the row is already visited it answers "ballot already
    issued".  Either way the store is unchanged: no key row is created and
    no visited flag is touched. *)
Theorem bulletin_refused_without_minting L request public_key w se p :
  send_email_is w public_key se → poll_is w (SendEmail.poll se) p →
  (Poll.state p = Poll.FINISHED →
   email_bulletin L request public_key w =
     (Ok (message request MSG_POLL_FINISHED []), w))
  ∧ (Poll.state p ≠ Poll.FINISHED → SendEmail.visited se = true →
     email_bulletin L request public_key w =
       (Ok (message request MSG_ALREADY_ISSUED []), w))
  ∧ (Poll.state p = Poll.FINISHED ∨ SendEmail.visited se = true →
     keys (db (email_bulletin L request public_key w).2) = keys (db w) ∧
     send_emails (db (email_bulletin L request public_key w).2)
       = send_emails (db w)).
Proof.
  intros Hse Hp. split; [|split].
  - intros Hs. rewrite (email_bulletin_refused _ _ _ _ se p) by auto.
    by rewrite decide_True.
  - intros Hs Hv. rewrite (email_bulletin_refused _ _ _ _ se p) by auto.
    by rewrite decide_False.
  - intros Hor. by rewrite (email_bulletin_refused _ _ _ _ se p).
Qed.

Lemma bulletin_refused_without_minting_witness :
  send_email_is (ex_world 0) 301 (ex_send_email 301 2 3 false) ∧
  poll_is (ex_world 0) 3 (ex_poll 3 false Poll.FINISHED) ∧
  email_bulletin "" (ex_request "GET" [] 5) 301 (ex_world 0) =
    (Ok (message (ex_request "GET" [] 5) MSG_POLL_FINISHED []), ex_world 0).
Proof.
  split; [reflexivity|]. split; [reflexivity|].
  destruct (bulletin_refused_without_minting
              "" (ex_request "GET" [] 5) 301 (ex_world 0)
              (ex_send_email 301 2 3 false) (ex_poll 3 false Poll.FINISHED)
              eq_refl eq_refl) as (H & _).
  by apply H.
Defined.

(** C5 as stated fails where its two cases overlap: the ledger row 300 is
    already visited and its poll is FINISHED; the answer is "poll
    finished", not "ballot already issued". *)
Lemma bulletin_visited_on_finished_poll_counterexample :
  send_email_is (ex_world 0) 300 (ex_send_email 300 1 3 true) ∧
  SendEmail.visited (ex_send_email 300 1 3 true) = true ∧
  email_bulletin "" (ex_request "GET" [] 5) 300 (ex_world 0) =
    (Ok (message (ex_request "GET" [] 5) MSG_POLL_FINISHED []), ex_world 0) ∧
  message (ex_request "GET" [] 5) MSG_POLL_FINISHED []
    ≠ message (ex_request "GET" [] 5) MSG_ALREADY_ISSUED [].
Proof.
  repeat split; try reflexivity. discriminate.
Qed.

(** Whenever the candidate drawn is a value that another poll owns, the
    minting loop stops at once with the constraint violation. *)
Lemma mint_loop_value_of_another_poll n self w s k :
  secure_digits 6 digits w = (Ok s, advance 6 w) →
  keys (db w) !! s = Some k →
  ¬ (Key.value k = s ∧ Key.poll k = Some (Poll.id self)) →
  mint_loop (S n) self w =
    (Raise (IntegrityError "UNIQUE constraint failed: polls_key.value"),
     advance 6 w).
Proof.
  intros Es Hk Hno. simpl. munfold. rewrite Es.
  destruct (secure_digits_six w) as (s' & Es' & Hlen & _).
  rewrite Es in Es'. injection Es' as <-.
  rewrite decide_True by done. rewrite Key_get_or_create_spec. simpl.
  rewrite Hk. by rewrite decide_False.
Qed.

(** C2 fails on the code.  With a random source that always draws 0 the
    candidate is "000000".  Poll 2 owns that value: minting for poll 2
    retries 1000 times (6000 draws) and then raises the exhaustion
    [ValueError].  Minting for poll 1 meets the same value, owned by the
    other poll, and raises [IntegrityError] at the first attempt (6 draws),
    without a retry; the bulletin view does not catch it. *)
Theorem mint_collision_with_another_poll_is_not_retried :
  key_is (ex_world 0) "000000" 2 (ex_key 2 "000000" Key.NOT_RETURNED) ∧
  create_private_key_for (ex_poll 2 false Poll.STARTED)
    (ex_send_email 200 3 2 false) (ex_world 0)
  = (Raise (ValueError MSG_EXHAUSTED), advance (6 * 1000) (ex_world 0)) ∧
  create_private_key_for (ex_poll 1 true Poll.STARTED)
    (ex_send_email 100 1 1 false) (ex_world 0)
  = (Raise (IntegrityError "UNIQUE constraint failed: polls_key.value"),
     advance 6 (ex_world 0)) ∧
  email_bulletin "" (ex_request "GET" [] 5) 100 (ex_world 0)
  = (Raise (IntegrityError "UNIQUE constraint failed: polls_key.value"),
     advance 6 (ex_world 0)).
Proof.
  repeat split; vm_compute; reflexivity.
Qed.

(** ** The batch print *)

Lemma mint_each_cons poll se rest acc w :
  mint_each poll (se :: rest) acc w =
    match create_private_key_for poll se w with
    | (Ok key, w') => mint_each poll rest (acc ++ [key]) w'
    | (Raise e, w') =>
        (Ok (inl (HttpResponse_content ("Ошибка: " ++ exn_str e))), w')
    end.
Proof.
  simpl. munfold.
  by destruct (create_private_key_for poll se w) as [[key|e] w'].
Qed.

Lemma mint_each_prefix poll pre rest acc w ks wk :
  mint_each poll pre acc w = (Ok (inr ks), wk) →
  mint_each poll (pre ++ rest) acc w = mint_each poll rest ks wk.
Proof.
  revert acc w. induction pre as [|se pre IH]; intros acc w.
  - simpl. munfold. by intros [= -> ->].
  - rewrite <- app_comm_cons, !mint_each_cons.
    destruct (create_private_key_for poll se w) as [[key|e] w']; [|done].
    apply IH.
Qed.

(** After a run of successful mints every minted key is in the table and
    every ledger row of the run is marked visited. *)
Lemma mint_each_issued poll pre acc w ks wk :
  mint_each poll pre acc w = (Ok (inr ks), wk) →
  ∃ new, ks = (acc ++ new)%list ∧ length new = length pre ∧
    (∀ k, k ∈ new → keys (db wk) !! Key.value k = Some k) ∧
    (∀ s, s ∈ pre →
       ∃ row, send_emails (db wk) !! SendEmail.public_key s = Some row ∧
              SendEmail.visited row = true) ∧
    (∀ v k, keys (db w) !! v = Some k → keys (db wk) !! v = Some k) ∧
    (∀ pk row, send_emails (db w) !! pk = Some row →
       SendEmail.visited row = true →
       ∃ row', send_emails (db wk) !! pk = Some row' ∧
               SendEmail.visited row' = true).
Proof.
  revert acc w. induction pre as [|se pre IH]; intros acc w.
  - simpl. munfold. intros [= -> ->]. exists []. rewrite app_nil_r.
    repeat split; try done.
    + by intros k ?%elem_of_nil.
    + by intros s ?%elem_of_nil.
    + intros pk row ? ?. by exists row.
  - rewrite mint_each_cons.
    pose proof (create_private_key_for_spec poll se w) as Hspec.
    pose proof (create_keeps_keys poll se w) as Hkk.
    pose proof (create_keeps_visited poll se w) as Hkv.
    destruct (create_private_key_for poll se w) as [[key|e] w'] eqn:Ec;
      [|done]. simpl in Hkk, Hkv.
    intros E. apply IH in E as (new & -> & Hlen & Hnew & Hpre & Hk & Hv).
    destruct Hspec as (_ & _ & _ & _ & row & Hrow & Hdb).
    exists (key :: new). rewrite <- app_assoc. split; [done|].
    split; [simpl; by rewrite Hlen|]. repeat split.
    + intros k [->|Hin]%elem_of_cons; [|by apply Hnew].
      apply Hk. rewrite Hdb. simpl. apply lookup_insert_eq.
    + intros s [->|Hin]%elem_of_cons; [|by apply Hpre].
      apply (Hv _ (SendEmail.set_visited true row)); [|done].
      rewrite Hdb. simpl. apply lookup_insert_eq.
    + intros v k Hl. by apply Hk, Hkk.
    + intros pk row0 Hl Hvis.
      destruct (Hkv pk row0 Hl Hvis) as (row1 & Hl1 & Hvis1).
      by apply (Hv pk row1).
Qed.

Lemma Poll_objects_get_for_frame i u w :
  Poll_objects_get_for i u w = ((Poll_objects_get_for i u w).1, w).
Proof.
  unfold Poll_objects_get_for. munfold. rewrite Poll_objects_get_frame.
  destruct (Poll_objects_get i w).1 as [p|e]; [|done].
  by destruct (decide (Poll.secretary p = u)).
Qed.

(** C10. In the batch print, when the mints for the rows [pre] succeed and
    the mint for the next row [se] fails with [e], the action answers with
    the inline error, stops there (the ledger is as the failed mint left
    it, the rows [post] are not processed), and commits: the keys minted
    for [pre] are in the key table and the rows of [pre] are marked
    visited. *)
Theorem print_batch_failure_keeps_earlier_mints
    request poll_id w poll pre se post ks wk e we :
  (Poll_objects_get_for poll_id (user request) w).1 = Ok poll →
  Poll.state poll = Poll.STARTED →
  (SendEmail_objects_filter (unvisited_local poll (user request)) w).1
    = Ok (pre ++ se :: post)%list →
  mint_each poll pre [] w = (Ok (inr ks), wk) →
  create_private_key_for poll se wk = (Raise e, we) →
  print_bulletins request poll_id w =
    (Ok (HttpResponse_content ("Ошибка: " ++ exn_str e)), we)
  ∧ length ks = length pre
  ∧ (∀ k, k ∈ ks → keys (db we) !! Key.value k = Some k)
  ∧ (∀ s, s ∈ pre →
       ∃ row, send_emails (db we) !! SendEmail.public_key s = Some row ∧
              SendEmail.visited row = true)
  ∧ send_emails (db we) = send_emails (db wk).
Proof.
  intros Hpoll Hs Hf Hpre Hfail.
  destruct (mint_each_issued _ _ _ _ _ _ Hpre)
    as (new & Eks & Hlen & Hnew & Hvis & _ & _).
  simpl in Eks. subst new.
  pose proof (create_keeps_keys poll se wk) as Hkk.
  pose proof (create_keeps_visited poll se wk) as Hkv.
  pose proof (create_private_key_for_spec poll se wk) as Hspec.
  rewrite Hfail in Hkk, Hkv, Hspec. simpl in Hkk, Hkv.
  destruct Hspec as (_ & _ & Hse & _).
  split; [|split; [done|split; [|split; [|done]]]].
  - unfold print_bulletins. munfold.
    rewrite Poll_objects_get_for_frame, Hpoll.
    rewrite decide_False by (intros H; by apply H).
    unfold SendEmail_objects_filter in *. munfold. simpl in Hf.
    injection Hf as Hf. rewrite Hf.
    rewrite (mint_each_prefix _ _ _ _ _ _ _ Hpre), mint_each_cons, Hfail.
    done.
  - intros k Hk. by apply Hkk, Hnew.
  - intros s Hin. destruct (Hvis s Hin) as (row & Hrow & Hv).
    by apply (Hkv _ row).
Qed.

Lemma print_batch_failure_keeps_earlier_mints_witness :
  (Poll_objects_get_for 1 7 (ex_world 1)).1 = Ok (ex_poll 1 true Poll.STARTED) ∧
  (SendEmail_objects_filter
     (unvisited_local (ex_poll 1 true Poll.STARTED) 7) (ex_world 1)).1
    = Ok [ex_send_email 101 2 1 false; ex_send_email 100 1 1 false] ∧
  print_bulletins (ex_request "GET" [] 5) 1 (ex_world 1) =
    (Ok (HttpResponse_content ("Ошибка: " ++ MSG_EXHAUSTED)),
     with_db
       (set_send_emails
          (<[101%Z := ex_send_email 101 2 1 true]> (send_emails ex_db))
          (set_keys
             (<["111111" := ex_key 1 "111111" Key.NOT_RETURNED]> (keys ex_db))
             ex_db))
       (advance (6 + 6 * 1000) (ex_world 1))).
Proof.
  split; [reflexivity|]. split; [vm_compute; reflexivity|].
  apply (print_batch_failure_keeps_earlier_mints
           (ex_request "GET" [] 5) 1 (ex_world 1)
           (ex_poll 1 true Poll.STARTED)
           [ex_send_email 101 2 1 false] (ex_send_email 100 1 1 false) []
           [ex_key 1 "111111" Key.NOT_RETURNED]
           (with_db
              (set_send_emails
                 (<[101%Z := ex_send_email 101 2 1 true]> (send_emails ex_db))
                 (set_keys
                    (<["111111" := ex_key 1 "111111" Key.NOT_RETURNED]>
                       (keys ex_db)) ex_db))
              (advance 6 (ex_world 1)))
           (ValueError MSG_EXHAUSTED));
    [reflexivity|reflexivity|vm_compute; reflexivity|vm_compute; reflexivity
    |vm_compute; reflexivity].
Defined.

(** ** The poll actions *)

Section KeepsPolls.
Context {A B : Type}.

Lemma keeps_polls_ret (a : A) : keeps_polls (mret a).
Proof. by intros w. Qed.

Lemma keeps_polls_raise (e : exn) : keeps_polls (raise e : M A).
Proof. by intros w. Qed.

Lemma keeps_polls_bind (m : M A) (f : A → M B) :
  keeps_polls m → (∀ a, keeps_polls (f a)) → keeps_polls (m ≫= f).
Proof.
  intros Hm Hf w. munfold. specialize (Hm w).
  destruct (m w) as [[a|e] w']; simpl in *; [|done].
  by rewrite Hf.
Qed.

Lemma keeps_polls_try_except (m : M A) (h : exn → option (M A)) :
  keeps_polls m → (∀ e k, h e = Some k → keeps_polls k) →
  keeps_polls (try_except m h).
Proof.
  intros Hm Hh w. munfold. specialize (Hm w).
  destruct (m w) as [[a|e] w']; simpl in *; [done|].
  destruct (h e) as [k|] eqn:E; [|done]. by rewrite (Hh e k E).
Qed.

Lemma keeps_polls_atomic (m : M A) : keeps_polls m → keeps_polls (atomic m).
Proof.
  intros Hm w. munfold. specialize (Hm w).
  by destruct (m w) as [[a|e] w'].
Qed.

(** Reading the store and writing back one that has the same polls. *)
Lemma keeps_polls_update (F : DB → DB) (k : DB → M A) :
  (∀ d, polls (F d) = polls d) → (∀ d, keeps_polls (k d)) →
  keeps_polls (d ← get_db; put_db (F d);; k d).
Proof.
  intros HF Hk w. munfold. simpl. rewrite Hk. simpl. apply HF.
Qed.

Lemma keeps_polls_read (k : DB → M A) :
  (∀ d, keeps_polls (k d)) → keeps_polls (d ← get_db; k d).
Proof. intros Hk w. munfold. simpl. by rewrite Hk. Qed.
End KeepsPolls.

Lemma keeps_polls_get_or_create {A} (get create : M A) :
  keeps_polls get → keeps_polls create → keeps_polls (get_or_create get create).
Proof.
  intros Hg Hc. unfold get_or_create.
  apply keeps_polls_try_except.
  { apply keeps_polls_bind; [done|]. intros a. apply keeps_polls_ret. }
  intros e k. destruct e; try done. intros [= <-].
  apply keeps_polls_try_except.
  { apply keeps_polls_bind; [by apply keeps_polls_atomic|].
    intros a. apply keeps_polls_ret. }
  intros e' k'. destruct e'; try done. intros [= <-].
  apply keeps_polls_try_except.
  { apply keeps_polls_bind; [done|]. intros a. apply keeps_polls_ret. }
  intros e'' k''. destruct e''; try done. intros [= <-].
  apply keeps_polls_raise.
Qed.

Lemma keeps_polls_filter cond : keeps_polls (SendEmail_objects_filter cond).
Proof. by intros w. Qed.

Lemma keeps_polls_get_by voter poll secretary :
  keeps_polls (SendEmail_objects_get_by voter poll secretary).
Proof.
  unfold SendEmail_objects_get_by. apply keeps_polls_bind.
  - apply keeps_polls_filter.
  - intros [|s rows]; [apply keeps_polls_raise|apply keeps_polls_ret].
Qed.

Lemma keeps_polls_create voter poll secretary status :
  keeps_polls (SendEmail_objects_create voter poll secretary status).
Proof.
  intros w. unfold SendEmail_objects_create, uuid4. munfold. simpl.
  by destruct (decide _).
Qed.

Lemma keeps_polls_save s : keeps_polls (SendEmail_save s).
Proof. by intros w. Qed.

Lemma keeps_polls_seed voters poll secretary status :
  keeps_polls (seed voters poll secretary status).
Proof.
  induction voters as [|voter rest IH]; simpl; [apply keeps_polls_ret|].
  apply keeps_polls_bind; [|done].
  apply keeps_polls_get_or_create;
    [apply keeps_polls_get_by|apply keeps_polls_create].
Qed.

Lemma keeps_polls_send_items send_mail now items :
  keeps_polls (send_items send_mail now items).
Proof.
  induction items as [|item rest IH]; simpl; [apply keeps_polls_ret|].
  apply keeps_polls_bind; [apply keeps_polls_save|]. intros _.
  apply keeps_polls_bind; [apply keeps_polls_save|]. done.
Qed.

Lemma keeps_polls_start_sending_thread send_mail now self :
  keeps_polls (start_sending_thread send_mail now self).
Proof.
  unfold start_sending_thread.
  apply keeps_polls_bind; [apply keeps_polls_filter|]. intros rows.
  simpl. destruct (decide _); [apply keeps_polls_ret|].
  apply (keeps_polls_update
           (λ d, set_send_emails
                   ((λ s, if bool_decide (SendEmail.public_key s
                                            ∈ SendEmail.public_key <$> rows)
                          then SendEmail.set_status SendEmail.QUEUEING s
                          else s) <$> send_emails d) d)); [done|].
  intros d. apply keeps_polls_bind; [apply keeps_polls_filter|].
  intros items. apply keeps_polls_send_items.
Qed.

Lemma started_only_refl m : started_only m m.
Proof. intros i. destruct (m !! i); [by left|done]. Qed.

Lemma started_only_trans m1 m2 m3 :
  started_only m1 m2 → started_only m2 m3 → started_only m1 m3.
Proof.
  intros H12 H23 i. specialize (H12 i). specialize (H23 i).
  destruct (m1 !! i) as [q1|], (m2 !! i) as [q2|], (m3 !! i) as [q3|];
    try done.
  destruct H12 as [->|(Hs1 & Hs2 & Hid2)]; [done|].
  destruct H23 as [->|(_ & Hs3 & Hid3)]; right; done.
Qed.

Lemma started_only_insert m i q q' :
  m !! i = Some q → Poll.state q ≠ Poll.FINISHED →
  Poll.state q' = Poll.STARTED → Poll.id q' = i →
  started_only m (<[i := q']> m).
Proof.
  intros Hq Hs Hs' Hid j. destruct (decide (i = j)) as [<-|Hne].
  - rewrite lookup_insert_eq, Hq. by right.
  - rewrite lookup_insert_ne by done. destruct (m !! j); [by left|done].
Qed.

(** The transaction of [start_poll] for one poll: it commits the poll as
    STARTED, or it raises and the poll table is as before. *)
Lemma start_one_spec request poll w :
  match atomic (
          seed (Poll.voter_remote poll) poll (user request) SendEmail.READY;;
          seed (Poll.voter_local poll) poll (user request) SendEmail.LOCAL;;
          let poll := Poll.set_state Poll.STARTED poll in
          Poll_save poll;;
          mret poll) w with
  | (Ok poll', w') =>
      poll' = Poll.set_state Poll.STARTED poll ∧
      polls (db w') = <[Poll.id poll := poll']> (polls (db w))
  | (Raise e, w') => polls (db w') = polls (db w)
  end.
Proof.
  munfold.
  pose proof (keeps_polls_seed (Poll.voter_remote poll) poll (user request)
                SendEmail.READY w) as H1.
  destruct (seed (Poll.voter_remote poll) _ _ _ w) as [[[]|e1] w1];
    simpl in *; [|done].
  pose proof (keeps_polls_seed (Poll.voter_local poll) poll (user request)
                SendEmail.LOCAL w1) as H2.
  destruct (seed (Poll.voter_local poll) _ _ _ w1) as [[[]|e2] w2];
    simpl in *; [|done].
  unfold Poll_save. munfold. simpl. split; [done|]. by rewrite H2, H1.
Qed.

Lemma start_each_started_only send_mail request selected w :
  (∀ p, p ∈ selected →
     ∃ q, polls (db w) !! Poll.id p = Some q ∧ Poll.state q ≠ Poll.FINISHED) →
  started_only (polls (db w))
    (polls (db (start_each send_mail request selected w).2)).
Proof.
  revert w. induction selected as [|poll rest IH]; intros w Hsel.
  - apply started_only_refl.
  - simpl. unfold mbind at 1. unfold M_bind at 1.
    pose proof (start_one_spec request poll w) as H1.
    destruct (atomic _ w) as [[poll'|e1] w1];
      [|simpl; rewrite H1; apply started_only_refl].
    destruct H1 as [-> Hw1].
    assert (S1 : started_only (polls (db w)) (polls (db w1))).
    { rewrite Hw1. destruct (Hsel poll) as (q & Hq & Hs);
        [apply elem_of_cons; by left|].
      by apply (started_only_insert _ _ q). }
    unfold mbind at 1. unfold M_bind at 1.
    pose proof (keeps_polls_start_sending_thread send_mail (now request)
                  (Poll.set_state Poll.STARTED poll) w1) as H2.
    destruct (start_sending_thread _ _ _ w1) as [[[]|e2] w2];
      simpl in H2; [|simpl; by rewrite H2].
    assert (S2 : started_only (polls (db w)) (polls (db w2)))
      by by rewrite H2.
    assert (Hrest : ∀ p, p ∈ rest →
              ∃ q, polls (db w2) !! Poll.id p = Some q ∧
                   Poll.state q ≠ Poll.FINISHED).
    { intros p Hp. destruct (Hsel p) as (q & Hq & Hs);
        [apply elem_of_cons; by right|].
      specialize (S2 (Poll.id p)). rewrite Hq in S2.
      destruct (polls (db w2) !! Poll.id p) as [q'|]; [|done].
      exists q'. split; [done|].
      destruct S2 as [->|(_ & Hs' & _)]; [done|]. by rewrite Hs'. }
    specialize (IH w2 Hrest).
    munfold.
    destruct (start_each send_mail request rest w2) as [[msgs|e3] w3];
      simpl in *; by apply (started_only_trans _ (polls (db w2))).
Qed.

Lemma evaluate_eq queryset w :
  evaluate queryset w =
    (Ok (filter (λ p, Is_true (queryset p)) (map_to_list (polls (db w))).*2), w).
Proof. done. Qed.

Lemma evaluate_elem queryset w p :
  p ∈ filter (λ p, Is_true (queryset p)) (map_to_list (polls (db w))).*2 →
  Is_true (queryset p) ∧ ∃ i, polls (db w) !! i = Some p.
Proof.
  intros [Hq Hin]%list_elem_of_filter. split; [done|].
  apply list_elem_of_fmap in Hin as ([i p'] & -> & Hin).
  exists i. by apply elem_of_map_to_list.
Qed.

Lemma start_poll_started_only send_mail request queryset w :
  polls_keyed (db w) →
  started_only (polls (db w))
    (polls (db (start_poll send_mail request queryset w).2)).
Proof.
  intros Hkeyed. unfold start_poll. munfold. rewrite evaluate_eq.
  apply start_each_started_only. intros p Hp.
  apply evaluate_elem in Hp as (Hq & i & Hi).
  exists p. rewrite (Hkeyed i p Hi). split; [done|].
  apply andb_prop_elim in Hq as [_ Hq]. apply negb_prop_elim in Hq.
  intros Hs. apply Hq. by apply bool_decide_pack.
Qed.

Lemma polls_keyed_started_only d d' :
  polls_keyed d → started_only (polls d) (polls d') → polls_keyed d'.
Proof.
  intros Hk Hs i q' Hq'. specialize (Hs i). rewrite Hq' in Hs.
  destruct (polls d !! i) as [q|] eqn:Hq; [|done].
  destruct Hs as [->|(_ & _ & ?)]; [by apply Hk|done].
Qed.

Lemma end_poll_eq request queryset w :
  end_poll request queryset w =
    (Ok ["Голосование успешно завершено"],
     with_db (set_polls
                ((λ p, if queryset p && bool_decide (Poll.state p = Poll.STARTED)
                       then Poll.set_state Poll.FINISHED p else p)
                   <$> polls (db w)) (db w)) w).
Proof. done. Qed.

Lemma foldr_max_bound (l : list Z) x : x ∈ l → (x ≤ foldr Z.max 0 l)%Z.
Proof.
  induction l as [|y l IH]; [by intros ?%elem_of_nil|].
  intros [->|Hin]%elem_of_cons; simpl; [lia|]. specialize (IH Hin). lia.
Qed.

Lemma next_id_fresh (m : gmap Z Poll.t) : m !! next_id m = None.
Proof.
  destruct (m !! next_id m) as [p|] eqn:E; [|done]. exfalso.
  assert (next_id m ∈ (map_to_list m).*1) as Hin.
  { apply list_elem_of_fmap. exists (next_id m, p).
    split; [done|]. by apply elem_of_map_to_list. }
  apply foldr_max_bound in Hin. unfold next_id in Hin at 1. lia.
Qed.

Lemma polls_keyed_insert d i p :
  polls_keyed d → Poll.id p = i → polls_keyed (set_polls (<[i := p]> (polls d)) d).
Proof.
  intros Hk Hid j q. simpl. destruct (decide (i = j)) as [<-|Hne].
  - rewrite lookup_insert_eq. by intros [= <-].
  - rewrite lookup_insert_ne by done. apply Hk.
Qed.

(** Duplicating only inserts rows under new primary keys. *)
Lemma duplicate_each_spec selected w :
  polls (db w) ⊆ polls (db (duplicate_each selected w).2) ∧
  (polls_keyed (db w) → polls_keyed (db (duplicate_each selected w).2)).
Proof.
  revert w. induction selected as [|poll rest IH]; intros w; [done|].
  simpl. unfold Poll_save. munfold. simpl.
  set (i := next_id (polls (db w))).
  set (copy := set_voters (Poll.voter_local poll) (Poll.voter_remote poll)
                 (Poll.set_id i
                    (Poll.set_state Poll.NOT_STARTED (set_voters [] [] poll)))).
  match goal with
  | |- context [duplicate_each rest ?w1] =>
      destruct (IH w1) as [Hsub Hkeyed]; set (w2 := w1) in *
  end.
  assert (E : polls (db w2) = <[i := copy]> (polls (db w))).
  { subst w2. simpl. apply insert_insert_eq. }
  assert (Hfinal :
    polls (db w) ⊆ polls (db (duplicate_each rest w2).2) ∧
    (polls_keyed (db w) → polls_keyed (db (duplicate_each rest w2).2))).
  { split.
    - etrans; [|exact Hsub]. rewrite E. apply insert_subseteq, next_id_fresh.
    - intros Hk. apply Hkeyed. intros j q. rewrite E.
      destruct (decide (i = j)) as [<-|Hne].
      + rewrite lookup_insert_eq. by intros [= <-].
      + rewrite lookup_insert_ne by done. apply Hk. }
  by destruct (duplicate_each rest w2) as [[msgs|e] w3].
Qed.

Lemma duplicate_poll_spec request queryset w :
  polls (db w) ⊆ polls (db (duplicate_poll request queryset w).2) ∧
  (polls_keyed (db w) → polls_keyed (db (duplicate_poll request queryset w).2)).
Proof.
  unfold duplicate_poll. munfold. rewrite evaluate_eq.
  match goal with
  | |- context [duplicate_each ?sel w] =>
      pose proof (duplicate_each_spec sel w) as H;
      destruct (duplicate_each sel w) as [[msgs|e] w']
  end; simpl in *; done.
Qed.

Lemma stays_or_advances_rank s s' : stays_or_advances s s' → (rank s ≤ rank s')%nat.
Proof. intros [->|H]; lia. Qed.

(** One action, seen from one row of the poll table. *)
Lemma perform_step send_mail a w :
  polls_keyed (db w) →
  polls_keyed (db (perform send_mail a w).2) ∧
  ∀ i p, polls (db w) !! i = Some p →
    ∃ p', polls (db (perform send_mail a w).2) !! i = Some p' ∧
      stays_or_advances (Poll.state p) (Poll.state p') ∧
      match a with
      | Start _ _ =>
          (Poll.state p = Poll.FINISHED → p' = p) ∧
          (p' = p ∨ Poll.state p' = Poll.STARTED)
      | Finish _ queryset =>
          p' = if queryset p && bool_decide (Poll.state p = Poll.STARTED)
               then Poll.set_state Poll.FINISHED p else p
      | Duplicate _ _ => p' = p
      end.
Proof.
  intros Hk. destruct a as [request queryset|request queryset|request queryset];
    cbn [perform].
  - pose proof (start_poll_started_only send_mail request queryset w Hk) as Hs.
    split; [by apply (polls_keyed_started_only (db w))|].
    intros i p Hp. specialize (Hs i). rewrite Hp in Hs.
    destruct (polls (db (start_poll _ _ _ w).2) !! i) as [p'|]; [|done].
    exists p'. split; [done|].
    destruct Hs as [->|(Hnf & Hst & _)].
    + split; [by left|]. split; [done|by left].
    + split; [|split; [done|by right]].
      rewrite Hst. destruct (Poll.state p); [by right|by left|done].
  - rewrite end_poll_eq. cbn [snd]. split.
    + intros i q. simpl. rewrite lookup_fmap.
      destruct (polls (db w) !! i) as [q0|] eqn:E; [|done]. simpl.
      intros [= <-]. specialize (Hk i q0 E).
      by destruct (queryset q0 && _).
    + intros i p Hp. eexists. split; [simpl; by rewrite lookup_fmap, Hp|].
      split; [|done].
      destruct (queryset p); simpl; [|by left].
      destruct (bool_decide_reflect (Poll.state p = Poll.STARTED)) as [->|];
        [by right|by left].
  - destruct (duplicate_poll_spec request queryset w) as [Hsub Hkeyed].
    split; [by apply Hkeyed|].
    intros i p Hp. exists p. split; [by apply (lookup_weaken _ _ _ _ Hp)|].
    split; [by left|done].
Qed.

Lemma perform_all_forward send_mail actions w i p :
  polls_keyed (db w) → polls (db w) !! i = Some p →
  ∃ p', polls (db (perform_all send_mail actions w)) !! i = Some p' ∧
        (rank (Poll.state p) ≤ rank (Poll.state p'))%nat.
Proof.
  revert w p. induction actions as [|a rest IH]; intros w p Hk Hp.
  - exists p. by split.
  - simpl. destruct (perform_step send_mail a w Hk) as [Hk' Hstep].
    destruct (Hstep i p Hp) as (p1 & Hp1 & Hadv & _).
    destruct (IH _ p1 Hk' Hp1) as (p2 & Hp2 & Hle).
    exists p2. split; [done|]. apply stays_or_advances_rank in Hadv. lia.
Qed.

(** C4. Under the actions start, finish and duplicate a poll's state only
    moves along NOT_STARTED, STARTED, FINISHED.  One action leaves the
    state or advances it by one step: start leaves a FINISHED poll as it is
    and can only make a poll STARTED; finish makes FINISHED exactly the
    selected polls that are STARTED and leaves every other poll as it is;
    duplicate leaves every existing poll as it is.  After any sequence of
    the actions the poll is still there and its state is not behind the
    one it had. *)
Theorem poll_state_only_moves_forward send_mail a actions w i p :
  polls_keyed (db w) → polls (db w) !! i = Some p →
  (∃ p', polls (db (perform send_mail a w).2) !! i = Some p' ∧
     stays_or_advances (Poll.state p) (Poll.state p') ∧
     match a with
     | Start _ _ =>
         (Poll.state p = Poll.FINISHED → p' = p) ∧
         (p' = p ∨ Poll.state p' = Poll.STARTED)
     | Finish _ queryset =>
         p' = if queryset p && bool_decide (Poll.state p = Poll.STARTED)
              then Poll.set_state Poll.FINISHED p else p
     | Duplicate _ _ => p' = p
     end)
  ∧ (∃ p', polls (db (perform_all send_mail actions w)) !! i = Some p' ∧
           (rank (Poll.state p) ≤ rank (Poll.state p'))%nat).
Proof.
  intros Hk Hp. split.
  - by apply (perform_step send_mail a w Hk).
  - by apply perform_all_forward.
Qed.

Lemma ex_db_keyed : polls_keyed ex_db.
Proof.
  intros i p. unfold ex_db. simpl.
  repeat (rewrite lookup_insert; case_decide; [by intros [= <-]|]).
  by rewrite lookup_empty.
Defined.

Lemma poll_state_only_moves_forward_witness :
  polls_keyed (db ex_world_counting) ∧
  polls (db ex_world_counting) !! 4%Z = Some (ex_poll 4 false Poll.NOT_STARTED) ∧
  ∃ p', polls (db (perform_all ex_send_mail
                     [Start (ex_request "POST" [] 5) (λ _, true);
                      Finish (ex_request "POST" [] 6) (λ _, true);
                      Start (ex_request "POST" [] 7) (λ _, true)]
                     ex_world_counting)) !! 4%Z = Some p' ∧
        (rank Poll.NOT_STARTED ≤ rank (Poll.state p'))%nat.
Proof.
  split; [exact ex_db_keyed|]. split; [reflexivity|].
  apply (poll_state_only_moves_forward ex_send_mail
           (Start (ex_request "POST" [] 5) (λ _, true))
           _ ex_world_counting 4%Z (ex_poll 4 false Poll.NOT_STARTED)
           ex_db_keyed eq_refl).
Defined.

(** * Further properties of the views and actions *)

(** ** [vote]: what a call can and cannot do *)

Lemma parse_response_raises_only_ValueError request poll rl w e :
  (parse_response request poll rl w).1 = Raise e → ∃ m, e = ValueError m.
Proof.
  rewrite parse_response_spec. cbn [fst].
  destruct (Response_set_spec rl w) as [(m & -> & _)|(s & -> & _)]; cbn [fst].
  - intros [= <-]. by exists m.
  - destruct (classify s) as [r|]; [|intros [= <-]; by eexists].
    by destruct (negb _ && _).
Qed.

Lemma parse_response_respects_policy request poll rl w r :
  (parse_response request poll rl w).1 = Ok (inr r) →
  Poll.allow_spoiling poll = false → r ≠ Key.SPOILED.
Proof.
  rewrite parse_response_spec. cbn [fst].
  destruct (Response_set rl w).1 as [s|e]; [|done].
  destruct (classify s) as [r'|]; [|done]. intros H Hallow.
  rewrite Hallow in H. simpl in H.
  destruct (bool_decide_reflect (r' = Key.SPOILED)); [done|].
  by injection H as <-.
Qed.

(** The three things a call of [vote] can amount to: an answer that leaves
    the world as it is; the "not registered" answer with one logged
    attempt; the "recorded" answer with one response written. *)
Lemma vote_cases request poll_id private_key w :
  (∃ response, vote request poll_id private_key w = (Ok response, w)) ∨
  (∃ p, poll_is w poll_id p ∧ Poll.state p = Poll.STARTED ∧
        key_unregistered w private_key poll_id ∧
        vote request poll_id private_key w =
          (Ok (message request MSG_NOT_REGISTERED []),
           log_bad_keys poll_id private_key [now request] w)) ∨
  (∃ p k r, poll_is w poll_id p ∧ Poll.state p = Poll.STARTED ∧
        key_is w private_key poll_id k ∧
        Key.response k = Key.NOT_RETURNED ∧ method request = "POST" ∧
        (Poll.allow_spoiling p = false → r ≠ Key.SPOILED) ∧
        vote request poll_id private_key w =
          (Ok (message request MSG_RECORDED []), record_response r k w)).
Proof.
  destruct (Poll_objects_get_result poll_id w) as [E|(p & E & _ & _)].
  { left. rewrite vote_no_poll by done. by eexists. }
  destruct (decide (Poll.state p = Poll.STARTED)) as [Hs|Hs];
    [|left; rewrite (vote_not_started _ _ _ _ p) by done; by eexists].
  destruct (Key_objects_get_result private_key poll_id w)
    as [Ek|(k & Ek & _ & _ & _)].
  { right. left. exists p. split; [done|]. split; [done|]. split; [done|].
    by apply (vote_unregistered _ _ _ _ p). }
  rewrite (vote_registered _ _ _ _ p k) by done.
  destruct (decide (method request = "POST")) as [Hm|Hm].
  - destruct (parse_response request p _ w).1 as [[resp|r]|e0] eqn:Ep.
    + left. by eexists.
    + destruct (decide (Key.response k = Key.NOT_RETURNED)) as [Hr|Hr];
        [|left; by eexists].
      right. right. exists p, k, r.
      split; [done|]. split; [done|]. split; [done|]. split; [done|].
      split; [done|]. split; [|done].
      by apply (parse_response_respects_policy _ _ _ _ _ Ep).
    + destruct (parse_response_raises_only_ValueError _ _ _ _ _ Ep) as [m ->].
      left. by eexists.
  - left. destruct (decide (Key.response k = Key.NOT_RETURNED)); by eexists.
Qed.


(** X2. On a poll that does not allow spoiling, [vote] never stores
    SPOILED: a key that is SPOILED after the call was so before. *)
Theorem vote_never_spoils_without_permission
    request poll_id private_key w p value k :
  poll_is w poll_id p → Poll.allow_spoiling p = false →
  keys (db (vote request poll_id private_key w).2) !! value = Some k →
  Key.response k = Key.SPOILED →
  keys (db w) !! value = Some k.
Proof.
  intros Hp Hallow Hk Hsp.
  destruct (vote_cases request poll_id private_key w)
    as [[resp E]|[(p' & _ & _ & _ & E)|(p' & k0 & r & Hp' & _ & Hk0 & _ & _ & Hpol & E)]];
    rewrite E in Hk; cbn [snd] in Hk; try done.
  unfold poll_is in Hp, Hp'. rewrite Hp in Hp'. injection Hp' as <-.
  apply key_is_inv in Hk0 as (_ & _ & Hv & _).
  simpl in Hk. rewrite Hv in Hk.
  destruct (decide (private_key = value)) as [->|Hne].
  - rewrite lookup_insert_eq in Hk. injection Hk as <-.
    simpl in Hsp. by destruct (Hpol Hallow).
  - by rewrite lookup_insert_ne in Hk.
Qed.

Lemma vote_never_spoils_without_permission_witness :
  poll_is ex_world_voted 2 (ex_poll 2 false Poll.STARTED) ∧
  Poll.allow_spoiling (ex_poll 2 false Poll.STARTED) = false ∧
  keys (db (vote (ex_request "POST" ["Y"; "N"] 5) 2 "222222" ex_world_voted).2)
    !! "123456" = Some (ex_key 1 "123456" Key.SPOILED) ∧
  Key.response (ex_key 1 "123456" Key.SPOILED) = Key.SPOILED ∧
  keys (db ex_world_voted) !! "123456" = Some (ex_key 1 "123456" Key.SPOILED).
Proof.
  split; [reflexivity|]. split; [reflexivity|]. split; [reflexivity|].
  split; [reflexivity|].
  apply (vote_never_spoils_without_permission
           (ex_request "POST" ["Y"; "N"] 5) 2 "222222" ex_world_voted
           (ex_poll 2 false Poll.STARTED) "123456"
           (ex_key 1 "123456" Key.SPOILED)); reflexivity.
Defined.

(** ** Minting, in full *)

(** X3. [secure_digits(k)] returns, for every [k], a string of exactly [k]
    decimal digits and takes [k] draws without touching the store; over an
    empty alphabet it raises [IndexError] as soon as one character is
    asked for. *)
Theorem secure_digits_returns_k_digits :
  (∀ k w, ∃ s, secure_digits k digits w = (Ok s, advance k w) ∧
               String.length s = k ∧ all_digits s = true)
  ∧ (∀ k w, ∃ m, secure_digits (S k) "" w = (Raise (IndexError m), w)).
Proof.
  split.
  - intros k w. destruct (choices_digits k w) as (cs & E & Hlen & Hcs).
    exists (String.concat "" cs). split.
    + unfold secure_digits. munfold. by rewrite E.
    + destruct (concat_digits cs Hcs) as [Hl Hd]. by rewrite Hl, Hlen.
  - intros k w. eexists. unfold secure_digits. simpl. munfold.
    unfold secrets_choice. by rewrite decide_True.
Qed.

(** A successful mint, with the draws it took. *)
Lemma create_private_key_for_ok self se w key w' :
  create_private_key_for self se w = (Ok key, w') →
  Poll.state self ≠ Poll.FINISHED ∧ SendEmail.visited se = false ∧
  Poll.private_key_method self = Poll.SIX_DIGITS ∧
  keys (db w) !! Key.value key = None ∧
  key = {| Key.poll := Some (Poll.id self); Key.value := Key.value key;
           Key.response := Key.NOT_RETURNED |} ∧
  String.length (Key.value key) = 6 ∧ all_digits (Key.value key) = true ∧
  ∃ row m,
    send_emails (db w) !! SendEmail.public_key se = Some row ∧ 0 < m ≤ 1000 ∧
    w' = with_db
           (set_send_emails
              (<[SendEmail.public_key se := SendEmail.set_visited true row]>
                 (send_emails (db w)))
              (set_keys (<[Key.value key := key]> (keys (db w))) (db w)))
           (advance (6 * m) w).
Proof.
  unfold create_private_key_for.
  destruct (decide (Poll.state self = Poll.FINISHED)); [done|].
  destruct (SendEmail.visited se) eqn:Ev; [done|].
  destruct (decide (Poll.private_key_method self = Poll.SIX_DIGITS)); [|done].
  munfold. pose proof (mint_loop_spec 1000 self w) as H.
  destruct (mint_loop 1000 self w) as [[key0|e0] w1]; [|done].
  destruct H as (m & Hm & Hfree & Hkey & Hlen & Hdig & ->).
  rewrite SendEmail_save_visited_true. simpl.
  destruct (send_emails (db w) !! SendEmail.public_key se) as [row|] eqn:Er;
    [|done].
  intros [= <- <-]. repeat split; try done. exists row, m.
  split; [done|]. split; [exact Hm|]. done.
Qed.

(** X4. What a successful mint does, and nothing more: the key is new to
    the whole key table (of whatever poll), is six decimal digits, belongs
    to the poll and has no response; the key table gains exactly that row
    and every other key is as before; the ledger row of the request is the
    only one changed and only its visited flag is set; polls and the log of
    invalid attempts are untouched; at most 1000 candidates were drawn. *)
Theorem mint_success_effect self send_email w key w' :
  create_private_key_for self send_email w = (Ok key, w') →
  keys (db w) !! Key.value key = None
  ∧ String.length (Key.value key) = 6 ∧ all_digits (Key.value key) = true
  ∧ Key.poll key = Some (Poll.id self)
  ∧ Key.response key = Key.NOT_RETURNED
  ∧ keys (db w') = <[Key.value key := key]> (keys (db w))
  ∧ size (keys (db w')) = S (size (keys (db w)))
  ∧ (∃ row, send_emails (db w) !! SendEmail.public_key send_email = Some row ∧
            send_emails (db w')
              = <[SendEmail.public_key send_email :=
                    SendEmail.set_visited true row]> (send_emails (db w)))
  ∧ polls (db w') = polls (db w) ∧ bad_keys (db w') = bad_keys (db w)
  ∧ (∃ m, 0 < m ≤ 1000 ∧
          cursor (rng w') = 6 * m + cursor (rng w)).
Proof.
  intros E.
  destruct (create_private_key_for_ok _ _ _ _ _ E)
    as (_ & _ & _ & Hfree & Hkey & Hlen & Hdig & row & m & Hrow & Hm & ->).
  split; [done|]. split; [done|]. split; [done|].
  split; [by rewrite Hkey|]. split; [by rewrite Hkey|].
  split; [done|]. split; [simpl; by apply map_size_insert_None|].
  split; [by exists row|]. split; [done|]. split; [done|]. by exists m.
Qed.

Lemma mint_success_effect_witness :
  create_private_key_for (ex_poll 1 true Poll.STARTED)
    (ex_send_email 100 1 1 false) (ex_world 7)
  = (Ok (ex_key 1 "777777" Key.NOT_RETURNED),
     with_db
       (set_send_emails
          (<[100%Z := ex_send_email 100 1 1 true]> (send_emails ex_db))
          (set_keys
             (<["777777" := ex_key 1 "777777" Key.NOT_RETURNED]> (keys ex_db))
             ex_db))
       (advance 6 (ex_world 7))) ∧
  keys (db (ex_world 7)) !! "777777" = None.
Proof.
  split; [vm_compute; reflexivity|].
  apply (mint_success_effect (ex_poll 1 true Poll.STARTED)
           (ex_send_email 100 1 1 false) (ex_world 7)
           (ex_key 1 "777777" Key.NOT_RETURNED)
           (with_db
              (set_send_emails
                 (<[100%Z := ex_send_email 100 1 1 true]> (send_emails ex_db))
                 (set_keys
                    (<["777777" := ex_key 1 "777777" Key.NOT_RETURNED]>
                       (keys ex_db)) ex_db))
              (advance 6 (ex_world 7)))).
  vm_compute; reflexivity.
Defined.

Lemma mint_loop_own_keys n self w :
  (∀ v k, keys (db w) !! v = Some k →
          Key.value k = v ∧ Key.poll k = Some (Poll.id self)) →
  (∃ key w', mint_loop n self w = (Ok key, w')) ∨
  mint_loop n self w = (Raise (ValueError MSG_EXHAUSTED), advance (6 * n) w).
Proof.
  intros Hown. revert w Hown. induction n as [|n IH]; intros w Hown.
  - right. simpl. munfold. by rewrite advance_0.
  - simpl. munfold.
    destruct (secure_digits_six w) as (s & -> & Hlen & _).
    rewrite decide_True by done. rewrite Key_get_or_create_spec. simpl.
    destruct (keys (db w) !! s) as [k|] eqn:E; [|left; by eexists _, _].
    rewrite decide_True by by apply Hown.
    destruct (IH (advance 6 w) Hown) as [(key & w' & ->) | ->].
    + left. by eexists _, _.
    + right. rewrite advance_advance. do 2 f_equal. lia.
Qed.

(** X5. While every key in the table belongs to the poll, the retry loop
    does what it is there for: a mint for a poll that is not FINISHED, with
    an unvisited ledger row that is in the ledger, either succeeds or, after
    exactly 1000 candidates (6000 draws), each of them already taken, raises
    the exhaustion [ValueError] and leaves the store as it was. *)
Theorem mint_among_own_keys_succeeds_or_exhausts self send_email w :
  (∀ v k, keys (db w) !! v = Some k →
          Key.value k = v ∧ Key.poll k = Some (Poll.id self)) →
  Poll.state self ≠ Poll.FINISHED → SendEmail.visited send_email = false →
  Poll.private_key_method self = Poll.SIX_DIGITS →
  is_Some (send_emails (db w) !! SendEmail.public_key send_email) →
  (∃ key w', create_private_key_for self send_email w = (Ok key, w')) ∨
  create_private_key_for self send_email w =
    (Raise (ValueError MSG_EXHAUSTED), advance (6 * 1000) w).
Proof.
  intros Hown Hs Hv Hm [row Hrow]. unfold create_private_key_for.
  rewrite decide_False by done. rewrite Hv. rewrite decide_True by done.
  munfold. pose proof (mint_loop_spec 1000 self w) as Hspec.
  destruct (mint_loop_own_keys 1000 self w Hown) as [(key & w' & E)|E];
    rewrite E in *; [|by right].
  destruct Hspec as (m & _ & _ & _ & _ & _ & ->).
  rewrite SendEmail_save_visited_true. simpl. rewrite Hrow.
  left. by eexists _, _.
Qed.

Lemma ex_db_own_keys v k :
  keys (db ex_world_own) !! v = Some k →
  Key.value k = v ∧ Key.poll k = Some (Poll.id (ex_poll 2 false Poll.STARTED)).
Proof.
  simpl. rewrite lookup_singleton. case_decide; [|done].
  intros [= <-]. by subst.
Defined.

Lemma mint_among_own_keys_succeeds_or_exhausts_witness :
  (∀ v k, keys (db ex_world_own) !! v = Some k →
          Key.value k = v ∧
          Key.poll k = Some (Poll.id (ex_poll 2 false Poll.STARTED))) ∧
  is_Some (send_emails (db ex_world_own) !! 200%Z) ∧
  ((∃ key w', create_private_key_for (ex_poll 2 false Poll.STARTED)
                (ex_send_email 200 3 2 false) ex_world_own = (Ok key, w')) ∨
   create_private_key_for (ex_poll 2 false Poll.STARTED)
     (ex_send_email 200 3 2 false) ex_world_own
   = (Raise (ValueError MSG_EXHAUSTED), advance (6 * 1000) ex_world_own)).
Proof.
  split; [exact ex_db_own_keys|]. split; [by eexists|].
  apply (mint_among_own_keys_succeeds_or_exhausts
           (ex_poll 2 false Poll.STARTED) (ex_send_email 200 3 2 false)
           ex_world_own ex_db_own_keys);
    [discriminate|reflexivity|reflexivity|by eexists].
Defined.

(** ** The bulletin view, in full *)

Lemma send_email_is_intro w pk se :
  send_emails (db w) !! pk = Some se → SendEmail.public_key se = pk →
  send_email_is w pk se.
Proof.
  intros H1 H2. unfold send_email_is, SendEmail_objects_get. munfold. simpl.
  rewrite H1. by rewrite decide_True.
Qed.

Lemma email_bulletin_eq L request public_key w se p :
  send_email_is w public_key se → poll_is w (SendEmail.poll se) p →
  email_bulletin L request public_key w =
    match create_private_key_for p se w with
    | (Ok key, w') =>
        (Ok (render "polls/get_bulletin.html"
               [("url", Str (L ++ "/vote/poll_" ++ pretty (Poll.id p) ++ "/"
                               ++ Key.value key));
                ("private_key", AKey key)]), w')
    | (Raise (ValueError m), w') => (Ok (message request m []), w')
    | (Raise e, w') => (Raise e, {| db := db w; rng := rng w' |})
    end.
Proof.
  intros Hse Hp.
  apply send_email_is_inv in Hse as (Hg & _ & _).
  apply poll_is_inv in Hp as (Hpg & _ & _).
  unfold email_bulletin, get_bulletin_common, SendEmail_poll. munfold.
  rewrite Hg, Hpg.
  destruct (create_private_key_for p se w) as [[key|e0] w']; [done|].
  by destruct e0.
Qed.

(** X6. A poll whose key method is not the six-digit one cannot issue
    ballots: for a ledger row without a ballot of such a poll, not
    FINISHED, the bulletin page shows the message naming the unknown
    method, and nothing is drawn, minted or marked. *)
Theorem unknown_key_method_is_refused L request public_key w se p :
  send_email_is w public_key se → poll_is w (SendEmail.poll se) p →
  Poll.state p ≠ Poll.FINISHED → SendEmail.visited se = false →
  Poll.private_key_method p ≠ Poll.SIX_DIGITS →
  email_bulletin L request public_key w =
    (Ok (message request
           ("Неизвестный метод получения приватного ключа: "
              ++ Poll.private_key_method p ++ ".") []), w).
Proof.
  intros Hse Hp Hs Hv Hm. rewrite (email_bulletin_eq _ _ _ _ se p) by done.
  unfold create_private_key_for. rewrite decide_False by done.
  rewrite Hv. by rewrite decide_False.
Qed.

Lemma unknown_key_method_is_refused_witness :
  send_email_is ex_world_T 500 (ex_send_email 500 1 5 false) ∧
  poll_is ex_world_T 5 ex_poll_T ∧
  email_bulletin "" (ex_request "GET" [] 5) 500 ex_world_T =
    (Ok (message (ex_request "GET" [] 5)
           "Неизвестный метод получения приватного ключа: T." []),
     ex_world_T).
Proof.
  split; [reflexivity|]. split; [reflexivity|].
  apply (unknown_key_method_is_refused "" (ex_request "GET" [] 5) 500
           ex_world_T (ex_send_email 500 1 5 false) ex_poll_T);
    [reflexivity|reflexivity|discriminate|reflexivity|discriminate].
Defined.



(** ** The batch print, in full *)

Lemma swap_Permutation {A} i j (x : list A) : swap i j x ≡ₚ x.
Proof.
  unfold swap. destruct (x !! i) as [a|] eqn:Ei; [|done].
  destruct (x !! j) as [b|] eqn:Ej; [|done].
  by apply Permutation_insert_swap.
Qed.

Lemma shuffle_from_spec {A} i (x : list A) w :
  ∃ y, shuffle_from i x w = (Ok y, advance i w) ∧ y ≡ₚ x.
Proof.
  revert x w. induction i as [|i IH]; intros x w.
  - exists x. split; [|done]. simpl. munfold. by rewrite advance_0.
  - simpl. munfold. rewrite randbelow_eq.
    destruct (IH (swap (S i) (entropy (rng w) (cursor (rng w)) mod S (S i)) x)
                (advance 1 w)) as (y & -> & Hy).
    exists y. split.
    + rewrite advance_advance. do 2 f_equal. lia.
    + by rewrite Hy, swap_Permutation.
Qed.

Lemma print_bulletins_gate request poll_id w :
  print_bulletins request poll_id w =
    match (Poll_objects_get_for poll_id (user request) w).1 with
    | Raise (DoesNotExist _) => (Raise Http404, w)
    | Raise e => (Raise e, w)
    | Ok poll =>
        if decide (Poll.state poll ≠ Poll.STARTED)
        then (Ok (HttpResponse_content "Голосование не начато"), w)
        else
          atomic (
            send_emails ← SendEmail_objects_filter
                            (unvisited_local poll (user request));
            r ← mint_each poll send_emails [];
            match r with
            | inl response => mret response
            | inr private_keys =>
                private_keys ← shuffle private_keys;
                mret (render "polls/print.html"
                        [("poll", APoll poll);
                         ("private_keys", KeyList private_keys)])
            end) w
    end.
Proof.
  unfold print_bulletins. munfold.
  rewrite (Poll_objects_get_for_frame poll_id (user request) w) at 1.
  destruct (Poll_objects_get_for poll_id (user request) w).1 as [p|e0];
    [by destruct (decide (Poll.state p ≠ Poll.STARTED))|]. by destruct e0.
Qed.


(** The keys of a run of successful mints belong to the poll, have no
    response and were not in the key table before the run. *)
Lemma mint_each_minted poll pre acc w ks wk :
  mint_each poll pre acc w = (Ok (inr ks), wk) →
  polls (db wk) = polls (db w) ∧
  ∃ new, ks = (acc ++ new)%list ∧
    ∀ k, k ∈ new →
      Key.poll k = Some (Poll.id poll) ∧ Key.response k = Key.NOT_RETURNED ∧
      keys (db w) !! Key.value k = None.
Proof.
  revert acc w. induction pre as [|se pre IH]; intros acc w.
  - simpl. munfold. intros [= -> ->]. split; [done|]. exists [].
    rewrite app_nil_r. split; [done|]. by intros k ?%elem_of_nil.
  - rewrite mint_each_cons.
    pose proof (create_keeps_keys poll se w) as Hkk.
    destruct (create_private_key_for poll se w) as [[key|e] w'] eqn:Ec;
      [|done]. simpl in Hkk.
    destruct (create_private_key_for_ok _ _ _ _ _ Ec)
      as (_ & _ & _ & Hfree & Hkey & _ & _ & row & m & _ & _ & Hw').
    intros E. apply IH in E as (Hpolls & new & -> & Hnew).
    split; [by rewrite Hpolls, Hw'|].
    exists (key :: new). rewrite <- app_assoc. split; [done|].
    intros k [->|Hin]%elem_of_cons.
    + split; [by rewrite Hkey|]. split; [by rewrite Hkey|done].
    + destruct (Hnew k Hin) as (? & ? & Hfree'). split; [done|].
      split; [done|].
      destruct (keys (db w) !! Key.value k) as [k0|] eqn:E0; [|done].
      apply Hkk in E0. congruence.
Qed.

(** After a run of mints every ledger row is marked visited or is the row
    it was. *)
Lemma mint_each_ledger poll pre acc w r wk :
  mint_each poll pre acc w = (r, wk) →
  ∀ j row, send_emails (db wk) !! j = Some row →
    SendEmail.visited row = true ∨ send_emails (db w) !! j = Some row.
Proof.
  revert acc w. induction pre as [|se pre IH]; intros acc w.
  - simpl. munfold. intros [= _ ->]. by right.
  - rewrite mint_each_cons.
    pose proof (create_private_key_for_spec poll se w) as Hspec.
    destruct (create_private_key_for poll se w) as [[key|e] w'].
    + destruct Hspec as (_ & _ & _ & _ & row0 & Hrow0 & Hdb).
      intros E j row Hrow. destruct (IH _ _ E j row Hrow) as [?|Hj]; [by left|].
      rewrite Hdb in Hj. simpl in Hj.
      destruct (decide (SendEmail.public_key se = j)) as [<-|Hne].
      * rewrite lookup_insert_eq in Hj. injection Hj as <-. by left.
      * rewrite lookup_insert_ne in Hj by done. by right.
    + destruct Hspec as (_ & _ & Hse & _). intros [= _ <-] j row.
      rewrite Hse. by right.
Qed.

Lemma filter_elem cond w s :
  s ∈ filter (λ s, Is_true (cond s)) (map_to_list (send_emails (db w))).*2 ↔
  Is_true (cond s) ∧ ∃ j, send_emails (db w) !! j = Some s.
Proof.
  rewrite list_elem_of_filter, list_elem_of_fmap. split.
  - intros (Hc & [j s'] & -> & Hin). split; [done|]. exists j.
    by apply elem_of_map_to_list.
  - intros (Hc & j & Hj). split; [done|]. exists (j, s). split; [done|].
    by apply elem_of_map_to_list.
Qed.

(** X9. When every mint of the batch succeeds, the print page shows exactly
    the minted keys, in some order: as many keys as there were in-room
    ledger rows without a ballot, each one new, registered for the poll and
    without a response; every one of those rows is marked visited; the
    polls are untouched. *)
Theorem print_shows_the_minted_keys request poll_id w poll rows minted wk :
  (Poll_objects_get_for poll_id (user request) w).1 = Ok poll →
  Poll.state poll = Poll.STARTED →
  (SendEmail_objects_filter (unvisited_local poll (user request)) w).1
    = Ok rows →
  mint_each poll rows [] w = (Ok (inr minted), wk) →
  ∃ shown,
    print_bulletins request poll_id w =
      (Ok (render "polls/print.html"
             [("poll", APoll poll); ("private_keys", KeyList shown)]),
       advance (length minted - 1) wk)
    ∧ shown ≡ₚ minted ∧ length shown = length rows
    ∧ (∀ k, k ∈ shown →
         keys (db w) !! Key.value k = None ∧
         key_is wk (Key.value k) (Poll.id poll) k ∧
         Key.response k = Key.NOT_RETURNED)
    ∧ (∀ s, s ∈ rows →
         ∃ row, send_emails (db wk) !! SendEmail.public_key s = Some row ∧
                SendEmail.visited row = true)
    ∧ polls (db wk) = polls (db w).
Proof.
  intros Hpoll Hs Hf Hmint.
  destruct (mint_each_issued _ _ _ _ _ _ Hmint)
    as (new & Eks & Hlen & Hnew & Hvis & _ & _).
  destruct (mint_each_minted _ _ _ _ _ _ Hmint)
    as (Hpolls & new' & Eks' & Hmin).
  simpl in Eks, Eks'. subst new new'.
  destruct (shuffle_from_spec (length minted - 1) minted wk) as (shown & Esh & Hperm).
  exists shown. split; [|split; [done|split; [|split; [|split; [done|done]]]]].
  - rewrite print_bulletins_gate, Hpoll.
    rewrite decide_False by (intros H; by apply H).
    unfold SendEmail_objects_filter in *. munfold. simpl in Hf.
    injection Hf as Hf. rewrite Hf, Hmint. unfold shuffle. by rewrite Esh.
  - by rewrite Hperm.
  - intros k Hk. rewrite Hperm in Hk. destruct (Hmin k Hk) as (Hp & Hr & Hfree).
    split; [done|]. split; [|done]. apply key_is_intro; [by apply Hnew|done|done].
Qed.

Lemma print_shows_the_minted_keys_witness :
  (Poll_objects_get_for 1 7 ex_world_counting).1
    = Ok (ex_poll 1 true Poll.STARTED) ∧
  (SendEmail_objects_filter
     (unvisited_local (ex_poll 1 true Poll.STARTED) 7) ex_world_counting).1
    = Ok [ex_send_email 101 2 1 false; ex_send_email 100 1 1 false] ∧
  mint_each (ex_poll 1 true Poll.STARTED)
    [ex_send_email 101 2 1 false; ex_send_email 100 1 1 false] []
    ex_world_counting
  = (Ok (inr [ex_key 1 "012345" Key.NOT_RETURNED;
              ex_key 1 "678901" Key.NOT_RETURNED]),
     with_db
       (set_send_emails
          (<[100%Z := ex_send_email 100 1 1 true]>
             (<[101%Z := ex_send_email 101 2 1 true]> (send_emails ex_db)))
          (set_keys
             (<["678901" := ex_key 1 "678901" Key.NOT_RETURNED]>
                (<["012345" := ex_key 1 "012345" Key.NOT_RETURNED]>
                   (keys ex_db))) ex_db))
       (advance 12 ex_world_counting)) ∧
  ∃ shown,
    (print_bulletins (ex_request "GET" [] 5) 1 ex_world_counting).1 =
      Ok (render "polls/print.html"
            [("poll", APoll (ex_poll 1 true Poll.STARTED));
             ("private_keys", KeyList shown)])
    ∧ shown ≡ₚ [ex_key 1 "012345" Key.NOT_RETURNED;
                 ex_key 1 "678901" Key.NOT_RETURNED].
Proof.
  split; [reflexivity|]. split; [vm_compute; reflexivity|].
  split; [vm_compute; reflexivity|].
  destruct (print_shows_the_minted_keys
              (ex_request "GET" [] 5) 1 ex_world_counting
              (ex_poll 1 true Poll.STARTED)
              [ex_send_email 101 2 1 false; ex_send_email 100 1 1 false]
              [ex_key 1 "012345" Key.NOT_RETURNED;
               ex_key 1 "678901" Key.NOT_RETURNED]
              (with_db
                 (set_send_emails
                    (<[100%Z := ex_send_email 100 1 1 true]>
                       (<[101%Z := ex_send_email 101 2 1 true]>
                          (send_emails ex_db)))
                    (set_keys
                       (<["678901" := ex_key 1 "678901" Key.NOT_RETURNED]>
                          (<["012345" := ex_key 1 "012345" Key.NOT_RETURNED]>
                             (keys ex_db))) ex_db))
                 (advance 12 ex_world_counting))
              eq_refl eq_refl)
    as (shown & E & Hperm & _);
    [vm_compute; reflexivity|vm_compute; reflexivity|].
  exists shown. split; [by rewrite E|done].
Defined.

Lemma Poll_objects_get_for_same_polls i u w w' :
  polls (db w') = polls (db w) →
  (Poll_objects_get_for i u w').1 = (Poll_objects_get_for i u w).1.
Proof.
  intros E. unfold Poll_objects_get_for, Poll_objects_get. munfold. simpl.
  rewrite E. destruct (polls (db w) !! i) as [p|]; [|done].
  destruct (decide (Poll.id p = i)); [|done]. simpl.
  by destruct (decide (Poll.secretary p = u)).
Qed.

(** After a batch in which every mint succeeded no in-room row of the poll
    is left without a ballot. *)
Lemma mint_each_leaves_none poll u w rows minted wk :
  ledger_keyed (db w) →
  (SendEmail_objects_filter (unvisited_local poll u) w).1 = Ok rows →
  mint_each poll rows [] w = (Ok (inr minted), wk) →
  (SendEmail_objects_filter (unvisited_local poll u) wk).1 = Ok [].
Proof.
  intros Hkeyed Hf Hmint. unfold SendEmail_objects_filter in *. munfold.
  simpl in *. injection Hf as Hf. f_equal.
  destruct (filter _ (map_to_list (send_emails (db wk))).*2) as [|s l] eqn:E;
    [done|]. exfalso.
  assert (Hin : s ∈ filter (λ s, Is_true (unvisited_local poll u s))
                      (map_to_list (send_emails (db wk))).*2)
    by (rewrite E; apply elem_of_cons; by left).
  apply filter_elem in Hin as (Hc & j & Hj).
  assert (Hv : SendEmail.visited s = false).
  { unfold unvisited_local in Hc.
    apply andb_prop_elim in Hc as [Hc _]. apply andb_prop_elim in Hc as [Hc _].
    apply andb_prop_elim in Hc as [Hc _]. apply negb_prop_elim in Hc.
    destruct (SendEmail.visited s); [by destruct Hc|done]. }
  destruct (mint_each_ledger _ _ _ _ _ _ Hmint j s Hj) as [?|Hj0]; [congruence|].
  assert (Hrows : s ∈ rows).
  { rewrite <- Hf. apply filter_elem. split; [done|]. by exists j. }
  destruct (mint_each_issued _ _ _ _ _ _ Hmint) as (_ & _ & _ & _ & Hvis & _).
  destruct (Hvis s Hrows) as (row & Hrow & Hvrow).
  rewrite (Hkeyed j s Hj0) in Hrow. congruence.
Qed.

(** X10. Printing twice issues nothing twice: when the ledger rows carry
    their own keys and every mint of a batch succeeded, no in-room row of
    the poll is left without a ballot, and the next print by the same
    secretary shows an empty page, mints nothing and draws nothing. *)
Theorem print_again_issues_nothing
    request request' poll_id w poll rows minted wk :
  ledger_keyed (db w) →
  (Poll_objects_get_for poll_id (user request) w).1 = Ok poll →
  Poll.state poll = Poll.STARTED →
  (SendEmail_objects_filter (unvisited_local poll (user request)) w).1
    = Ok rows →
  mint_each poll rows [] w = (Ok (inr minted), wk) →
  user request' = user request →
  (print_bulletins request poll_id w).2 = advance (length minted - 1) wk
  ∧ print_bulletins request' poll_id (advance (length minted - 1) wk) =
      (Ok (render "polls/print.html"
             [("poll", APoll poll); ("private_keys", KeyList [])]),
       advance (length minted - 1) wk).
Proof.
  intros Hkeyed Hpoll Hs Hf Hmint Hu.
  destruct (mint_each_minted _ _ _ _ _ _ Hmint) as (Hpolls & _).
  pose proof (mint_each_leaves_none _ _ _ _ _ _ Hkeyed Hf Hmint) as Hnone.
  split.
  - rewrite print_bulletins_gate, Hpoll.
    rewrite decide_False by (intros H; by apply H).
    unfold SendEmail_objects_filter in Hf |- *. munfold. simpl in Hf.
    injection Hf as Hf. simpl. rewrite Hf, Hmint. unfold shuffle.
    destruct (shuffle_from_spec (length minted - 1) minted wk) as (y & -> & _).
    done.
  - set (w1 := advance (length minted - 1) wk).
    rewrite print_bulletins_gate, Hu.
    rewrite (Poll_objects_get_for_same_polls _ _ w w1) by done.
    rewrite Hpoll. rewrite decide_False by (intros H; by apply H).
    unfold SendEmail_objects_filter in Hnone |- *. munfold. simpl in Hnone.
    injection Hnone as Hnone. simpl. rewrite Hnone. simpl. done.
Qed.

Lemma ex_db_ledger_keyed : ledger_keyed ex_db.
Proof.
  intros j s. unfold ex_db. simpl.
  repeat (rewrite lookup_insert; case_decide; [by intros [= <-]|]).
  by rewrite lookup_empty.
Defined.

Lemma print_again_issues_nothing_witness :
  ledger_keyed (db ex_world_counting) ∧
  (Poll_objects_get_for 1 7 ex_world_counting).1
    = Ok (ex_poll 1 true Poll.STARTED) ∧
  print_bulletins (ex_request "GET" [] 6) 1
    (print_bulletins (ex_request "GET" [] 5) 1 ex_world_counting).2
  = (Ok (render "polls/print.html"
            [("poll", APoll (ex_poll 1 true Poll.STARTED));
             ("private_keys", KeyList [])]),
     (print_bulletins (ex_request "GET" [] 5) 1 ex_world_counting).2).
Proof.
  split; [exact ex_db_ledger_keyed|]. split; [reflexivity|].
  destruct (print_again_issues_nothing
              (ex_request "GET" [] 5) (ex_request "GET" [] 6) 1
              ex_world_counting (ex_poll 1 true Poll.STARTED)
              [ex_send_email 101 2 1 false; ex_send_email 100 1 1 false]
              [ex_key 1 "012345" Key.NOT_RETURNED;
               ex_key 1 "678901" Key.NOT_RETURNED]
              (with_db
                 (set_send_emails
                    (<[100%Z := ex_send_email 100 1 1 true]>
                       (<[101%Z := ex_send_email 101 2 1 true]>
                          (send_emails ex_db)))
                    (set_keys
                       (<["678901" := ex_key 1 "678901" Key.NOT_RETURNED]>
                          (<["012345" := ex_key 1 "012345" Key.NOT_RETURNED]>
                             (keys ex_db))) ex_db))
                 (advance 12 ex_world_counting))
              ex_db_ledger_keyed eq_refl eq_refl)
    as (E1 & E2);
    [vm_compute; reflexivity|vm_compute; reflexivity|reflexivity|].
  rewrite E1. exact E2.
Defined.

(** ** Finishing and duplicating polls *)

(** X11. Finishing closes a poll for good.  After [end_poll] on a selection
    that contains a STARTED poll, the poll is FINISHED and nothing else in
    the store has changed; from then on every [vote] on it, whatever the
    key and the response, is answered "poll finished" and changes nothing,
    and every bulletin request for one of its ledger rows is refused with
    "poll finished" and mints nothing. *)
Theorem finished_poll_is_closed L request queryset w poll_id p :
  poll_is w poll_id p → Poll.state p = Poll.STARTED →
  queryset p = true →
  ∃ w1,
    end_poll request queryset w = (Ok ["Голосование успешно завершено"], w1)
    ∧ poll_is w1 poll_id (Poll.set_state Poll.FINISHED p)
    ∧ keys (db w1) = keys (db w) ∧ send_emails (db w1) = send_emails (db w)
    ∧ bad_keys (db w1) = bad_keys (db w) ∧ rng w1 = rng w
    ∧ (∀ request' private_key,
         vote request' poll_id private_key w1 =
           (Ok (message request' "Данное голосование завершено" []), w1))
    ∧ (∀ request' token se,
         send_email_is w1 token se → SendEmail.poll se = poll_id →
         email_bulletin L request' token w1 =
           (Ok (message request' MSG_POLL_FINISHED []), w1)).
Proof.
  intros Hp Hs Hq. pose proof (poll_is_inv _ _ _ Hp) as (_ & Hl & Hid).
  eexists. split; [apply end_poll_eq|].
  assert (Hp1 : poll_is
                  (with_db (set_polls
                     ((λ p, if queryset p && bool_decide (Poll.state p = Poll.STARTED)
                            then Poll.set_state Poll.FINISHED p else p)
                        <$> polls (db w)) (db w)) w)
                  poll_id (Poll.set_state Poll.FINISHED p)).
  { apply poll_is_intro; [|done]. simpl. rewrite lookup_fmap, Hl. simpl.
    rewrite Hq, Hs. by rewrite bool_decide_true. }
  split; [done|]. repeat split.
  - intros request' private_key.
    by rewrite (vote_not_started _ _ _ _ (Poll.set_state Poll.FINISHED p)).
  - intros request' token se Hse Hpoll.
    rewrite (email_bulletin_refused _ _ _ _ se (Poll.set_state Poll.FINISHED p));
      [done|done|by rewrite Hpoll|by left].
Qed.

Lemma finished_poll_is_closed_witness :
  poll_is (ex_world 0) 1 (ex_poll 1 true Poll.STARTED) ∧
  ∃ w1,
    end_poll (ex_request "POST" [] 5) (λ _, true) (ex_world 0)
      = (Ok ["Голосование успешно завершено"], w1)
    ∧ vote (ex_request "POST" ["Y"] 6) 1 "123456" w1 =
        (Ok (message (ex_request "POST" ["Y"] 6)
               "Данное голосование завершено" []), w1).
Proof.
  split; [reflexivity|].
  destruct (finished_poll_is_closed "" (ex_request "POST" [] 5) (λ _, true)
              (ex_world 0) 1 (ex_poll 1 true Poll.STARTED)
              eq_refl eq_refl eq_refl) as (w1 & E & _ & _ & _ & _ & _ & Hv & _).
  exists w1. split; [exact E|apply Hv].
Defined.

Lemma set_voters_restore i s p :
  set_voters (Poll.voter_local p) (Poll.voter_remote p)
    (Poll.set_id i (Poll.set_state s (set_voters [] [] p)))
  = Poll.set_id i (Poll.set_state s p).
Proof. by destruct p. Qed.

(** [duplicate_each], row by row: it never fails, reports one message per
    poll, inserts one row per poll under a primary key that was free, and
    the row is the poll in state NOT_STARTED under the new key. *)
Lemma duplicate_each_full selected w :
  ∃ msgs w',
    duplicate_each selected w = (Ok msgs, w') ∧
    length msgs = length selected ∧
    size (polls (db w')) = size (polls (db w)) + length selected ∧
    (∀ i q, polls (db w') !! i = Some q →
       polls (db w) !! i = Some q ∨
       (polls (db w) !! i = None ∧
        ∃ p, p ∈ selected ∧
             q = Poll.set_id i (Poll.set_state Poll.NOT_STARTED p))) ∧
    send_emails (db w') = send_emails (db w) ∧ keys (db w') = keys (db w) ∧
    bad_keys (db w') = bad_keys (db w) ∧ rng w' = rng w.
Proof.
  revert w. induction selected as [|poll rest IH]; intros w.
  - exists [], w. simpl. munfold. repeat split; try done; try lia.
    intros i q Hq. by left.
  - simpl. unfold Poll_save. munfold. simpl. rewrite set_voters_restore.
    set (i := next_id (polls (db w))).
    set (copy := Poll.set_id i (Poll.set_state Poll.NOT_STARTED poll)).
    match goal with
    | |- context [duplicate_each rest ?w1] =>
        destruct (IH w1) as (msgs & w' & E & Hlen & Hsize & Hrows & Hse & Hk & Hb & Hr);
        set (w2 := w1) in *
    end.
    assert (Ep : polls (db w2) = <[i := copy]> (polls (db w))).
    { subst w2. simpl. apply insert_insert_eq. }
    rewrite E. eexists _, w'. split; [done|].
    split; [simpl; by rewrite Hlen|].
    split; [rewrite Hsize, Ep, map_size_insert_None by apply next_id_fresh;
            simpl; lia|].
    split; [|done].
    intros j q Hq. destruct (Hrows j q Hq) as [Hj|(Hj & p & Hp & ->)].
    + rewrite Ep in Hj. destruct (decide (i = j)) as [<-|Hne].
      * rewrite lookup_insert_eq in Hj. injection Hj as <-. right.
        split; [apply next_id_fresh|]. exists poll.
        split; [apply elem_of_cons; by left|done].
      * rewrite lookup_insert_ne in Hj by done. by left.
    + right. rewrite Ep in Hj. split.
      * destruct (decide (i = j)) as [<-|Hne];
          [by rewrite lookup_insert_eq in Hj|by rewrite lookup_insert_ne in Hj].
      * exists p. split; [apply elem_of_cons; by right|done].
Qed.


(** ** Sending the ballots' links *)

Lemma values_filter_elem {A} (P : A → Prop) `{!∀ x, Decision (P x)}
    (m : gmap Z A) (x : A) :
  x ∈ filter P (map_to_list m).*2 ↔ P x ∧ ∃ j, m !! j = Some x.
Proof.
  rewrite list_elem_of_filter, list_elem_of_fmap. split.
  - intros (Hc & [j y] & -> & Hin). split; [done|]. exists j.
    by apply elem_of_map_to_list.
  - intros (Hc & j & Hj). split; [done|]. exists (j, x). split; [done|].
    by apply elem_of_map_to_list.
Qed.

Lemma send_items_eq send_mail now items w :
  send_items send_mail now items w =
    (Ok tt,
     with_db (set_send_emails
                (foldl (λ T item,
                          <[SendEmail.public_key item :=
                              dispatched send_mail now item]> T)
                   (send_emails (db w)) items) (db w)) w).
Proof.
  revert w. induction items as [|item rest IH]; intros w.
  - simpl. munfold. unfold with_db, set_send_emails. by destruct w as [[] ?].
  - simpl. unfold SendEmail_save. munfold. simpl. rewrite IH. simpl.
    f_equal. unfold with_db. simpl. f_equal. unfold set_send_emails. simpl.
    f_equal. f_equal. unfold dispatched.
    destruct (send_mail _); simpl; by rewrite insert_insert_eq.
Qed.

Lemma foldl_insert_other {A} (key : A → Z) (f : A → A) (l : list A)
    (T : gmap Z A) j :
  j ∉ key <$> l →
  foldl (λ T x, <[key x := f x]> T) T l !! j = T !! j.
Proof.
  revert T. induction l as [|x l IH]; intros T Hj; [done|].
  simpl. rewrite IH.
  - apply lookup_insert_ne. intros <-. apply Hj. simpl. apply elem_of_cons.
    by left.
  - intros Hin. apply Hj. simpl. apply elem_of_cons. by right.
Qed.

Lemma foldl_insert_elem {A} (key : A → Z) (f : A → A) (l : list A)
    (T : gmap Z A) x :
  (∀ a b, a ∈ l → b ∈ l → key a = key b → a = b) →
  x ∈ l →
  foldl (λ T x, <[key x := f x]> T) T l !! key x = Some (f x).
Proof.
  revert T. induction l as [|y l IH]; intros T Huniq Hx;
    [by apply elem_of_nil in Hx|].
  simpl. destruct (decide (key x ∈ key <$> l)) as [Hin|Hnin].
  - apply list_elem_of_fmap in Hin as (z & Hk & Hz).
    assert (x = z) as ->.
    { apply Huniq; [done|apply elem_of_cons; by right|done]. }
    apply IH; [|done]. intros a b Ha Hb. apply Huniq; apply elem_of_cons; by right.
  - rewrite foldl_insert_other by done.
    apply elem_of_cons in Hx as [->|Hx]; [apply lookup_insert_eq|].
    exfalso. apply Hnin. apply list_elem_of_fmap. by exists x.
Qed.

Lemma start_sending_thread_eq send_mail now self w :
  start_sending_thread send_mail now self w =
    let rows := filter (λ s, Is_true (awaits_sending self s))
                  (map_to_list (send_emails (db w))).*2 in
    let pks := SendEmail.public_key <$> rows in
    if decide (pks = []) then (Ok tt, w)
    else
      let T1 := (λ s, if bool_decide (SendEmail.public_key s ∈ pks)
                      then SendEmail.set_status SendEmail.QUEUEING s else s)
                  <$> send_emails (db w) in
      send_items send_mail now
        (filter (λ s, Is_true (bool_decide (SendEmail.public_key s ∈ pks)))
           (map_to_list T1).*2)
        (with_db (set_send_emails T1 (db w)) w).
Proof.
  unfold start_sending_thread, SendEmail_objects_filter. munfold. cbv zeta.
  cbn [db fst snd]. unfold awaits_sending.
  by destruct (decide _).
Qed.

(** The ledger after the sending loop, row by row. *)
Lemma start_sending_thread_table send_mail now self w :
  ledger_keyed (db w) →
  ∃ w',
    start_sending_thread send_mail now self w = (Ok tt, w') ∧
    send_emails (db w') =
      (λ s, if awaits_sending self s then dispatched send_mail now s else s)
        <$> send_emails (db w) ∧
    polls (db w') = polls (db w) ∧ keys (db w') = keys (db w) ∧
    bad_keys (db w') = bad_keys (db w) ∧ rng w' = rng w.
Proof.
  intros Hkeyed.
  set (T := send_emails (db w)).
  set (fin := λ s, if awaits_sending self s then dispatched send_mail now s else s).
  assert (Hpk : ∀ s, SendEmail.public_key (fin s) = SendEmail.public_key s).
  { intros s. unfold fin, dispatched. destruct (awaits_sending self s); [|done].
    by destruct (send_mail _). }
  rewrite start_sending_thread_eq. cbv zeta. fold T.
  set (rows := filter (λ s, Is_true (awaits_sending self s)) (map_to_list T).*2).
  set (pks := SendEmail.public_key <$> rows).
  assert (Hsel : ∀ j s, T !! j = Some s →
            (SendEmail.public_key s ∈ pks ↔ Is_true (awaits_sending self s))).
  { intros j s Hs. split.
    - intros (r & Hk & Hr)%list_elem_of_fmap.
      apply values_filter_elem in Hr as (Hc & j' & Hj').
      rewrite (Hkeyed j s Hs), (Hkeyed j' r Hj') in Hk. subst j'.
      fold T in Hj'. congruence.
    - intros Hc. apply list_elem_of_fmap. exists s. split; [done|].
      apply values_filter_elem. split; [done|]. by exists j. }
  destruct (decide (pks = [])) as [Hnil|Hnn].
  { exists w. split; [done|]. split; [|done].
    apply map_eq. intros j. rewrite lookup_fmap.
    destruct (T !! j) as [s|] eqn:Hs; [|done]. simpl. f_equal.
    unfold fin. destruct (awaits_sending self s) eqn:Ea; [|done].
    exfalso. assert (SendEmail.public_key s ∈ pks) as Hin
      by (apply (Hsel j s Hs); by rewrite Ea).
    rewrite Hnil in Hin. by apply elem_of_nil in Hin. }
  set (g := λ s, if bool_decide (SendEmail.public_key s ∈ pks)
                 then SendEmail.set_status SendEmail.QUEUEING s else s).
  set (T1 := g <$> T).
  set (items := filter (λ s, Is_true (bool_decide (SendEmail.public_key s ∈ pks)))
                  (map_to_list T1).*2).
  fold g. fold T1. fold items.
  rewrite send_items_eq. eexists. split; [done|]. split; [|done].
  cbn [db with_db send_emails set_send_emails].
  assert (Hg : ∀ s, SendEmail.public_key (g s) = SendEmail.public_key s).
  { intros s. unfold g. by destruct (bool_decide _). }
  assert (Hitems : ∀ x, x ∈ items ↔
            ∃ j s, T !! j = Some s ∧ Is_true (awaits_sending self s) ∧
                   x = SendEmail.set_status SendEmail.QUEUEING s).
  { intros x. unfold items. rewrite values_filter_elem. split.
    - intros (Hc & j & Hj). unfold T1 in Hj. rewrite lookup_fmap in Hj.
      destruct (T !! j) as [s|] eqn:Hs; [|done]. simpl in Hj.
      injection Hj as <-. rewrite Hg in Hc. apply bool_decide_unpack in Hc.
      exists j, s. split; [done|]. split; [by apply (Hsel j s Hs)|].
      unfold g. by rewrite bool_decide_true.
    - intros (j & s & Hs & Hc & ->). simpl.
      assert (SendEmail.public_key s ∈ pks) as Hin by by apply (Hsel j s Hs).
      split; [by apply bool_decide_pack|]. exists j.
      unfold T1. rewrite lookup_fmap, Hs. simpl. unfold g.
      by rewrite bool_decide_true. }
  assert (Huniq : ∀ a b, a ∈ items → b ∈ items →
            SendEmail.public_key a = SendEmail.public_key b → a = b).
  { intros a b (ja & sa & Ha & _ & ->)%Hitems (jb & sb & Hb & _ & ->)%Hitems.
    simpl. rewrite (Hkeyed ja sa Ha), (Hkeyed jb sb Hb). intros ->.
    fold T in Ha, Hb. congruence. }
  apply map_eq. intros j. rewrite lookup_fmap.
  destruct (T !! j) as [s|] eqn:Hs; simpl.
  - destruct (awaits_sending self s) eqn:Ea.
    + assert (Hin : SendEmail.set_status SendEmail.QUEUEING s ∈ items).
      { apply Hitems. exists j, s. by rewrite Ea. }
      pose proof (foldl_insert_elem SendEmail.public_key
                    (dispatched send_mail now) items T1 _ Huniq Hin) as Hl.
      simpl in Hl. rewrite (Hkeyed j s Hs) in Hl. rewrite Hl.
      unfold fin. by rewrite Ea.
    + rewrite foldl_insert_other.
      * unfold T1. rewrite lookup_fmap, Hs. simpl. f_equal. unfold g, fin.
        rewrite Ea. rewrite bool_decide_false; [done|].
        intros Hin. apply (Hsel j s Hs) in Hin. by rewrite Ea in Hin.
      * intros (x & Hk & (jx & sx & Hx & Hc & ->)%Hitems)%list_elem_of_fmap.
        simpl in Hk. rewrite (Hkeyed jx sx Hx) in Hk. subst jx.
        fold T in Hx. assert (sx = s) as -> by congruence.
        by rewrite Ea in Hc.
  - rewrite foldl_insert_other; [by unfold T1; rewrite lookup_fmap, Hs|].
    intros (x & Hk & (jx & sx & Hx & Hc & ->)%Hitems)%list_elem_of_fmap.
    simpl in Hk. rewrite (Hkeyed jx sx Hx) in Hk. subst jx.
    fold T in Hx. congruence.
Qed.




(** ** Counting ballots and votes *)

Section CountInsert.
Context {K A : Type} `{Countable K}.
Context (P : K * A → Prop) `{!∀ x, Decision (P x)}.

Lemma size_filter_insert_gain (m : gmap K A) i x :
  P (i, x) → (∀ y, m !! i = Some y → ¬ P (i, y)) →
  size (filter P (<[i := x]> m)) = S (size (filter P m)).
Proof.
  intros Hx Hold. rewrite map_filter_insert_True by done.
  apply map_size_insert_None. apply map_lookup_filter_None.
  destruct (m !! i) as [y|] eqn:E; [right|by left].
  intros y' [= <-]. by apply Hold.
Qed.

Lemma size_filter_insert_out (m : gmap K A) i x :
  ¬ P (i, x) → (∀ y, m !! i = Some y → ¬ P (i, y)) →
  size (filter P (<[i := x]> m)) = size (filter P m).
Proof.
  intros Hx Hold. rewrite map_filter_insert_False by done.
  rewrite map_filter_delete, delete_id; [done|].
  apply map_lookup_filter_None.
  destruct (m !! i) as [y|] eqn:E; [right|by left].
  intros y' [= <-]. by apply Hold.
Qed.

Lemma size_filter_insert_in (m : gmap K A) i x y :
  P (i, x) → m !! i = Some y → P (i, y) →
  size (filter P (<[i := x]> m)) = size (filter P m).
Proof.
  intros Hx Hy HPy. rewrite map_filter_insert_True by done.
  apply map_size_insert_Some. exists y. by apply map_lookup_filter_Some.
Qed.
End CountInsert.

Lemma voted_count_record r k w i :
  keys (db w) !! Key.value k = Some k → Key.response k = Key.NOT_RETURNED →
  voted_count (db (record_response r k w)) i =
    if bool_decide (Key.poll k = Some i ∧ r ≠ Key.NOT_RETURNED)
    then S (voted_count (db w) i) else voted_count (db w) i.
Proof.
  intros Hk Hr. unfold voted_count. simpl.
  destruct (bool_decide_reflect (Key.poll k = Some i ∧ r ≠ Key.NOT_RETURNED))
    as [[Hp Hne]|Hno].
  - apply size_filter_insert_gain; [done|].
    intros y Hy [_ Hy']. simpl in *. congruence.
  - apply size_filter_insert_out; [done|].
    intros y Hy [_ Hy']. simpl in *. congruence.
Qed.

Lemma keys_count_record r k w i :
  keys (db w) !! Key.value k = Some k →
  keys_count (db (record_response r k w)) i = keys_count (db w) i.
Proof.
  intros Hk. unfold keys_count. simpl.
  destruct (decide (Key.poll k = Some i)) as [Hp|Hp].
  - by apply (size_filter_insert_in _ _ _ _ k).
  - apply size_filter_insert_out; [done|]. intros y Hy. simpl. congruence.
Qed.

(** X14. The count of votes follows the votes.  Whatever the request, a
    call of [vote] never lowers the count of returned ballots of any poll,
    raises that of its own poll by at most one and leaves those of the
    other polls alone; a POST of YES or of NO for a registered key without
    a response raises the count of the poll by exactly one; and a poll
    never has more returned ballots than keys. *)
Theorem voted_count_follows_votes request poll_id private_key w :
  (∀ i, voted_count (db w) i
          ≤ voted_count (db (vote request poll_id private_key w).2) i
        ∧ voted_count (db (vote request poll_id private_key w).2) i
          ≤ S (voted_count (db w) i))%nat
  ∧ (∀ i, i ≠ poll_id →
       voted_count (db (vote request poll_id private_key w).2) i
         = voted_count (db w) i)
  ∧ (∀ p k r, poll_is w poll_id p → Poll.state p = Poll.STARTED →
       key_is w private_key poll_id k → Key.response k = Key.NOT_RETURNED →
       method request = "POST" → r = Key.YES ∨ r = Key.NO →
       getlist "response" (POST request) = [Key.Response_value r] →
       voted_count (db (vote request poll_id private_key w).2) poll_id
         = S (voted_count (db w) poll_id))
  ∧ (∀ i, voted_count (db w) i ≤ keys_count (db w) i)%nat.
Proof.
  assert (Hcases :
    (vote request poll_id private_key w).2 = w ∨
    (vote request poll_id private_key w).2
      = log_bad_keys poll_id private_key [now request] w ∨
    ∃ k r, key_is w private_key poll_id k ∧
           Key.response k = Key.NOT_RETURNED ∧
           (vote request poll_id private_key w).2 = record_response r k w).
  { destruct (vote_cases request poll_id private_key w)
      as [[resp ->]|[(p & _ & _ & _ & ->)|(p & k & r & _ & _ & Hk & Hr & _ & _ & ->)]];
      [by left|right; by left|right; right; by exists k, r]. }
  split; [|split; [|split]].
  - intros i. destruct Hcases as [->|[->|(k & r & Hk & Hr & ->)]];
      [lia|unfold voted_count; simpl; lia|].
    apply key_is_inv in Hk as (_ & Hl & Hv & _). rewrite <- Hv in Hl.
    rewrite voted_count_record by done. destruct (bool_decide _); lia.
  - intros i Hi. destruct Hcases as [->|[->|(k & r & Hk & Hr & ->)]];
      [done|done|].
    apply key_is_inv in Hk as (_ & Hl & Hv & Hp). rewrite <- Hv in Hl.
    rewrite voted_count_record by done.
    rewrite bool_decide_false; [done|]. intros [Hp' _]. congruence.
  - intros p k r Hp Hs Hk Hr Hm Hyn Hl.
    rewrite (vote_post_unredeemed _ _ _ _ p k) by done.
    rewrite Hl, (Response_set_one _ r) by by apply Response_by_value_Some.
    rewrite classify_singleton.
    replace (bool_decide (r = Key.SPOILED)) with false
      by by destruct Hyn as [-> | ->].
    rewrite andb_false_r. cbn [snd].
    apply key_is_inv in Hk as (_ & Hlk & Hv & Hpk). rewrite <- Hv in Hlk.
    rewrite voted_count_record by done.
    rewrite bool_decide_true; [done|].
    split; [done|]. by destruct Hyn as [-> | ->].
  - intros i. unfold voted_count, keys_count. apply map_subseteq_size.
    apply map_subseteq_spec. intros v k [Hk [Hp _]]%map_lookup_filter_Some.
    by apply map_lookup_filter_Some.
Qed.

(** ** The books of the ballots *)

Lemma books_kept_same d d' :
  send_emails d' = send_emails d → keys d' = keys d →
  books_kept d → books_kept d'.
Proof.
  intros Hs Hk [Hl Hb]. split.
  - unfold ledger_keyed. by rewrite Hs.
  - intros i. unfold keys_count, bulletins_visited. rewrite Hs, Hk. apply Hb.
Qed.

Section KeepsBooks.
Context {A B : Type}.

Lemma keeps_books_ret (a : A) : keeps_books (mret a).
Proof. by intros w. Qed.

Lemma keeps_books_raise (e : exn) : keeps_books (raise e : M A).
Proof. by intros w. Qed.

Lemma keeps_books_bind (m : M A) (f : A → M B) :
  keeps_books m → (∀ a, keeps_books (f a)) → keeps_books (m ≫= f).
Proof.
  intros Hm Hf w Hw. munfold. specialize (Hm w Hw).
  destruct (m w) as [[a|e] w']; simpl in *; [|done].
  by apply Hf.
Qed.

Lemma keeps_books_try_except (m : M A) (h : exn → option (M A)) :
  keeps_books m → (∀ e k, h e = Some k → keeps_books k) →
  keeps_books (try_except m h).
Proof.
  intros Hm Hh w Hw. munfold. specialize (Hm w Hw).
  destruct (m w) as [[a|e] w']; simpl in *; [done|].
  destruct (h e) as [k|] eqn:E; [|done]. by apply (Hh e k E).
Qed.

Lemma keeps_books_atomic (m : M A) : keeps_books m → keeps_books (atomic m).
Proof.
  intros Hm w Hw. munfold. specialize (Hm w Hw).
  by destruct (m w) as [[a|e] w'].
Qed.

(** A computation that leaves ledger and keys as they are. *)
Lemma keeps_books_frame (m : M A) :
  (∀ w, send_emails (db (m w).2) = send_emails (db w) ∧
        keys (db (m w).2) = keys (db w)) →
  keeps_books m.
Proof. intros Hm w Hw. destruct (Hm w). by apply (books_kept_same (db w)). Qed.
End KeepsBooks.

Lemma keeps_books_get_or_create {A} (get create : M A) :
  keeps_books get → keeps_books create → keeps_books (get_or_create get create).
Proof.
  intros Hg Hc. unfold get_or_create.
  apply keeps_books_try_except.
  { apply keeps_books_bind; [done|]. intros a. apply keeps_books_ret. }
  intros e k. destruct e; try done. intros [= <-].
  apply keeps_books_try_except.
  { apply keeps_books_bind; [by apply keeps_books_atomic|].
    intros a. apply keeps_books_ret. }
  intros e' k'. destruct e'; try done. intros [= <-].
  apply keeps_books_try_except.
  { apply keeps_books_bind; [done|]. intros a. apply keeps_books_ret. }
  intros e'' k''. destruct e''; try done. intros [= <-].
  apply keeps_books_raise.
Qed.

Lemma keeps_books_get_by voter poll secretary :
  keeps_books (SendEmail_objects_get_by voter poll secretary).
Proof.
  apply keeps_books_frame. intros w.
  unfold SendEmail_objects_get_by, SendEmail_objects_filter. munfold. simpl.
  by destruct (filter _ _).
Qed.

(** A new ledger row has no ballot: the counts stay. *)
Lemma keeps_books_create voter poll secretary status :
  keeps_books (SendEmail_objects_create voter poll secretary status).
Proof.
  intros w [Hl Hb]. unfold SendEmail_objects_create, uuid4. munfold. simpl.
  destruct (decide _) as [Hin|Hfree]; [done|]. simpl.
  apply eq_None_not_Some in Hfree. split.
  - intros j s. simpl. destruct (decide (j = (Z.of_nat
        (entropy (rng w) (cursor (rng w))) mod 2 ^ 128)%Z)) as [->|Hne].
    + rewrite lookup_insert_eq. by intros [= <-].
    + rewrite lookup_insert_ne by done. apply Hl.
  - intros i. specialize (Hb i). unfold keys_count, bulletins_visited in *.
    simpl. rewrite Hb. symmetry. apply size_filter_insert_out.
    + simpl. by intros [_ ?].
    + intros y Hy. congruence.
Qed.

Lemma keeps_books_seed voters poll secretary status :
  keeps_books (seed voters poll secretary status).
Proof.
  induction voters as [|voter rest IH]; simpl; [apply keeps_books_ret|].
  apply keeps_books_bind; [|done].
  apply keeps_books_get_or_create;
    [apply keeps_books_get_by|apply keeps_books_create].
Qed.

Lemma keeps_books_Poll_save p : keeps_books (Poll_save p).
Proof. apply keeps_books_frame. by intros w. Qed.

(** A mint that raises although the ledger row is there has stored
    nothing. *)
Lemma create_raise_unchanged self se w e w' :
  is_Some (send_emails (db w) !! SendEmail.public_key se) →
  create_private_key_for self se w = (Raise e, w') → db w' = db w.
Proof.
  intros [row Hrow]. unfold create_private_key_for.
  destruct (decide (Poll.state self = Poll.FINISHED)); [by intros [= _ <-]|].
  destruct (SendEmail.visited se); [by intros [= _ <-]|].
  destruct (decide (Poll.private_key_method self = Poll.SIX_DIGITS));
    [|munfold; by intros [= _ <-]].
  munfold. pose proof (mint_loop_spec 1000 self w) as H.
  destruct (mint_loop 1000 self w) as [[key0|ee] w1].
  - destruct H as (m & _ & _ & _ & _ & _ & ->).
    rewrite SendEmail_save_visited_true. simpl. by rewrite Hrow.
  - destruct H as [Hdb _]. by intros [= _ <-].
Qed.

(** One mint for a ledger row of the poll: a key more and a visited row
    more, or nothing. *)
Lemma create_keeps_books self se w :
  send_emails (db w) !! SendEmail.public_key se = Some se →
  SendEmail.poll se = Poll.id self →
  books_kept (db w) → books_kept (db (create_private_key_for self se w).2).
Proof.
  intros Hrow Hpoll [Hl Hb].
  destruct (create_private_key_for self se w) as [[key|e] w'] eqn:E.
  - destruct (create_private_key_for_ok _ _ _ _ _ E)
      as (_ & Hv & _ & Hfree & Hkey & _ & _ & row & m & Hrow' & _ & ->).
    rewrite Hrow in Hrow'. injection Hrow' as <-. simpl. split.
    + intros j s. simpl.
      destruct (decide (j = SendEmail.public_key se)) as [->|Hne].
      * rewrite lookup_insert_eq. by intros [= <-].
      * rewrite lookup_insert_ne by done. apply Hl.
    + intros i. specialize (Hb i). unfold keys_count, bulletins_visited in *.
      simpl. destruct (decide (i = Poll.id self)) as [->|Hi].
      * rewrite size_filter_insert_gain; [|by rewrite Hkey|intros y; congruence].
        rewrite size_filter_insert_gain; [by rewrite Hb|done|].
        intros y Hy [_ Hvy]. simpl in Hvy. congruence.
      * rewrite size_filter_insert_out;
          [|rewrite Hkey; simpl; congruence|intros y; congruence].
        rewrite size_filter_insert_out; [done| |].
        -- simpl. intros [Hp _]. congruence.
        -- intros y Hy [Hp _]. simpl in Hp. congruence.
  - simpl. rewrite (create_raise_unchanged self se w e w'); [done| |done].
    by exists se.
Qed.

Lemma mint_each_keeps_books poll rows acc w :
  (∀ se, se ∈ rows →
     send_emails (db w) !! SendEmail.public_key se = Some se ∧
     SendEmail.poll se = Poll.id poll) →
  NoDup (SendEmail.public_key <$> rows) →
  books_kept (db w) → books_kept (db (mint_each poll rows acc w).2).
Proof.
  revert acc w. induction rows as [|se rows IH]; intros acc w Hrows Hnd Hw;
    [done|].
  rewrite mint_each_cons.
  destruct (Hrows se) as [Hse Hpoll]; [apply elem_of_cons; by left|].
  pose proof (create_keeps_books poll se w Hse Hpoll Hw) as Hw'.
  destruct (create_private_key_for poll se w) as [[key|e] w'] eqn:E;
    [|done].
  simpl in Hw'. apply NoDup_cons in Hnd as [Hnin Hnd].
  apply IH; [|done|done].
  intros se' Hin. destruct (Hrows se') as [Hse' Hpoll'];
    [apply elem_of_cons; by right|]. split; [|done].
  destruct (create_private_key_for_ok _ _ _ _ _ E)
    as (_ & _ & _ & _ & _ & _ & _ & row & m & _ & _ & ->).
  simpl. rewrite lookup_insert_ne; [done|].
  intros Heq. apply Hnin. rewrite Heq. apply list_elem_of_fmap. by exists se'.
Qed.

(** The rows a query returns have different primary keys. *)
Lemma filter_rows_NoDup cond w :
  ledger_keyed (db w) →
  NoDup (SendEmail.public_key <$>
           filter (λ s, Is_true (cond s)) (map_to_list (send_emails (db w))).*2).
Proof.
  intros Hl.
  apply (sublist_NoDup _ (SendEmail.public_key <$> (map_to_list (send_emails (db w))).*2)).
  - replace (SendEmail.public_key <$> (map_to_list (send_emails (db w))).*2)
      with ((map_to_list (send_emails (db w))).*1);
      [apply NoDup_fst_map_to_list|].
    rewrite <- list_fmap_compose. apply list_fmap_ext.
    intros _ [j s] Hjs%list_elem_of_lookup_2%elem_of_map_to_list. simpl.
    symmetry. by apply Hl.
  - apply fmap_sublist, sublist_filter.
Qed.

Lemma print_bulletins_keeps_books request poll_id :
  keeps_books (print_bulletins request poll_id).
Proof.
  intros w Hw. rewrite print_bulletins_gate.
  pose proof (Poll_objects_get_for_frame poll_id (user request) w) as Hf.
  destruct (Poll_objects_get_for poll_id (user request) w).1 as [poll|e];
    [|by destruct e].
  destruct (decide (Poll.state poll ≠ Poll.STARTED)); [done|].
  apply keeps_books_atomic; [|done]. clear w Hw Hf. intros w Hw.
  unfold SendEmail_objects_filter. munfold. simpl.
  set (rows := filter _ _).
  assert (Hm : books_kept (db (mint_each poll rows [] w).2)).
  { apply mint_each_keeps_books; [|by apply filter_rows_NoDup; destruct Hw|done].
    intros se (Hc & j & Hj)%filter_elem. destruct Hw as [Hl _].
    rewrite (Hl j se Hj). split; [done|].
    unfold unvisited_local in Hc.
    apply andb_prop_elim in Hc as [Hc _]. apply andb_prop_elim in Hc as [Hc _].
    apply andb_prop_elim in Hc as [_ Hc]. by apply bool_decide_unpack in Hc. }
  destruct (mint_each poll rows [] w) as [[[resp|ks]|e] w']; simpl in *;
    [done| |done].
  unfold shuffle.
  destruct (shuffle_from_spec (length ks - 1) ks w') as (y & -> & _).
  done.
Qed.

Lemma email_bulletin_keeps_books L request public_key :
  keeps_books (email_bulletin L request public_key).
Proof.
  intros w Hw.
  destruct (SendEmail_objects_get public_key w).1 as [se|e] eqn:Ese.
  - pose proof (send_email_is_inv w public_key se Ese) as (Hget & Hrow & Hpk).
    destruct (Poll_objects_get (SendEmail.poll se) w).1 as [p|e] eqn:Ep.
    + rewrite (email_bulletin_eq L request public_key w se p) by done.
      apply poll_is_inv in Ep as (_ & _ & Hid).
      rewrite <- Hpk in Hrow.
      pose proof (create_keeps_books p se w Hrow (eq_sym Hid) Hw) as H.
      destruct (create_private_key_for p se w) as [[key|e] w']; simpl in *;
        [done|]. by destruct e.
    + unfold email_bulletin, get_bulletin_common, SendEmail_poll. munfold.
      rewrite Hget, Poll_objects_get_frame, Ep. done.
  - unfold email_bulletin. munfold.
    unfold SendEmail_objects_get in *. munfold. simpl in *.
    destruct (send_emails (db w) !! public_key) as [s|].
    + destruct (decide (SendEmail.public_key s = public_key)); [done|].
      simpl in *. done.
    + simpl in *. done.
Qed.

Lemma vote_keeps_books request poll_id private_key :
  keeps_books (vote request poll_id private_key).
Proof.
  intros w Hw.
  destruct (vote_cases request poll_id private_key w)
    as [[resp ->]|[(p & _ & _ & _ & ->)|(p & k & r & _ & _ & Hk & _ & _ & _ & ->)]];
    [done|by apply (books_kept_same (db w))|].
  apply key_is_inv in Hk as (_ & Hl & Hv & _). rewrite <- Hv in Hl.
  destruct Hw as [Hkeyed Hb]. cbn [snd]. split; [done|].
  intros i. rewrite keys_count_record by done. apply Hb.
Qed.

(** The sending loop changes neither the poll nor the visited flag of a
    row. *)
Lemma keeps_books_start_sending_thread send_mail now self :
  keeps_books (start_sending_thread send_mail now self).
Proof.
  intros w [Hl Hb].
  destruct (start_sending_thread_table send_mail now self w Hl)
    as (w' & -> & HT & _ & Hk & _). simpl.
  set (fin := λ s, if awaits_sending self s then dispatched send_mail now s else s)
    in HT.
  assert (Hfin : ∀ s, SendEmail.public_key (fin s) = SendEmail.public_key s ∧
                      SendEmail.poll (fin s) = SendEmail.poll s ∧
                      SendEmail.visited (fin s) = SendEmail.visited s).
  { intros s. unfold fin, dispatched. destruct (awaits_sending self s); [|done].
    by destruct (send_mail _). }
  split.
  - intros j s'. rewrite HT, lookup_fmap.
    destruct (send_emails (db w) !! j) as [s|] eqn:Hs; [|done]. simpl.
    intros [= <-]. destruct (Hfin s) as (-> & _). by apply Hl.
  - intros i. specialize (Hb i). unfold keys_count, bulletins_visited in *.
    rewrite Hk, HT, Hb, map_filter_fmap, map_size_fmap. f_equal.
    apply map_filter_ext. intros j s _. simpl.
    destruct (Hfin s) as (_ & -> & ->). done.
Qed.

Lemma keeps_books_start_each send_mail request selected :
  keeps_books (start_each send_mail request selected).
Proof.
  induction selected as [|poll rest IH]; simpl; [apply keeps_books_ret|].
  apply keeps_books_bind.
  { apply keeps_books_atomic.
    apply keeps_books_bind; [apply keeps_books_seed|]. intros _.
    apply keeps_books_bind; [apply keeps_books_seed|]. intros _.
    apply keeps_books_bind; [apply keeps_books_Poll_save|]. intros _.
    apply keeps_books_ret. }
  intros poll'.
  apply keeps_books_bind; [apply keeps_books_start_sending_thread|]. intros _.
  apply keeps_books_bind; [done|]. intros msgs. apply keeps_books_ret.
Qed.

Lemma perform_keeps_books send_mail a : keeps_books (perform send_mail a).
Proof.
  destruct a as [request queryset|request queryset|request queryset]; simpl.
  - unfold start_poll. apply keeps_books_bind.
    + apply keeps_books_frame. by intros w.
    + intros selected. apply keeps_books_start_each.
  - apply keeps_books_frame. intros w. by rewrite end_poll_eq.
  - apply keeps_books_frame. intros w. unfold duplicate_poll. munfold.
    rewrite evaluate_eq.
    match goal with
    | |- context [duplicate_each ?sel w] =>
        destruct (duplicate_each_full sel w)
          as (msgs & w' & -> & _ & _ & _ & Hs & Hk & _)
    end. done.
Qed.

Lemma serve_keeps_books L send_mail v w :
  books_kept (db w) → books_kept (db (serve L send_mail v w)).
Proof.
  destruct v as [request public_key|request poll_id private_key
                |request poll_id|a]; simpl.
  - apply email_bulletin_keeps_books.
  - apply vote_keeps_books.
  - apply print_bulletins_keeps_books.
  - apply perform_keeps_books.
Qed.

Lemma visited_le_attended d i : (bulletins_visited d i ≤ attended_count d i)%nat.
Proof.
  unfold bulletins_visited, attended_count. apply map_subseteq_size.
  apply map_subseteq_spec. intros j s [Hs [Hp _]]%map_lookup_filter_Some.
  by apply map_lookup_filter_Some.
Qed.

Lemma voted_le_keys d i : (voted_count d i ≤ keys_count d i)%nat.
Proof.
  unfold voted_count, keys_count. apply map_subseteq_size.
  apply map_subseteq_spec. intros v k [Hk [Hp _]]%map_lookup_filter_Some.
  by apply map_lookup_filter_Some.
Qed.

(** X15. The books of the ballots stay in order.  Starting from a store
    whose ledger rows carry their own keys and in which every poll has as
    many keys as ledger rows marked visited, after any sequence of bulletin
    requests, votes, prints and admin actions (start, finish, duplicate),
    answered or failed, the same holds again; so for every poll the keys
    issued are as many as the ledger rows marked visited, the returned
    ballots are at most that many, and the rows marked visited are at most
    the rows of the ledger. *)
Theorem ballots_stay_accounted L send_mail visits w :
  books_kept (db w) →
  books_kept (db (serve_all L send_mail visits w)) ∧
  ∀ i,
    keys_count (db (serve_all L send_mail visits w)) i
      = bulletins_visited (db (serve_all L send_mail visits w)) i ∧
    (voted_count (db (serve_all L send_mail visits w)) i
       ≤ bulletins_visited (db (serve_all L send_mail visits w)) i)%nat ∧
    (bulletins_visited (db (serve_all L send_mail visits w)) i
       ≤ attended_count (db (serve_all L send_mail visits w)) i)%nat.
Proof.
  intros Hw.
  assert (H : books_kept (db (serve_all L send_mail visits w))).
  { revert w Hw. induction visits as [|v rest IH]; intros w Hw; [done|].
    simpl. apply IH. by apply serve_keeps_books. }
  split; [done|]. intros i. destruct H as [_ Hb].
  split; [apply Hb|]. split; [|apply visited_le_attended].
  rewrite <- Hb. apply voted_le_keys.
Qed.

Lemma ex_db_fresh_books_kept : books_kept ex_db_fresh.
Proof.
  split.
  - intros j s. unfold ex_db_fresh, ex_db. simpl.
    repeat (rewrite lookup_insert; case_decide; [by intros [= <-]|]).
    by rewrite lookup_empty.
  - intros i. unfold keys_count, bulletins_visited, ex_db_fresh, ex_db. simpl.
    rewrite map_filter_empty, map_size_empty. symmetry.
    apply map_size_empty_iff, map_empty. intros j.
    apply map_lookup_filter_None. right. intros s Hs [_ Hv]. revert Hs.
    repeat (rewrite lookup_insert; case_decide;
            [intros [= <-]; simpl in Hv; congruence|]).
    by rewrite lookup_empty.
Defined.

Lemma ballots_stay_accounted_witness :
  books_kept (db ex_world_fresh) ∧
  let w' := serve_all "https://vote" ex_send_mail
              [PrintBulletins (ex_request "GET" [] 5) 1;
               GetBulletin (ex_request "GET" [] 6) 200;
               CastVote (ex_request "POST" ["Y"] 7) 1 "012345";
               AdminAction (Finish (ex_request "POST" [] 8) (λ _, true))]
              ex_world_fresh in
  books_kept (db w') ∧
  ∀ i, keys_count (db w') i = bulletins_visited (db w') i ∧
       (voted_count (db w') i ≤ bulletins_visited (db w') i)%nat ∧
       (bulletins_visited (db w') i ≤ attended_count (db w') i)%nat.
Proof.
  split; [exact ex_db_fresh_books_kept|].
  apply (ballots_stay_accounted "https://vote" ex_send_mail
           [PrintBulletins (ex_request "GET" [] 5) 1;
            GetBulletin (ex_request "GET" [] 6) 200;
            CastVote (ex_request "POST" ["Y"] 7) 1 "012345";
            AdminAction (Finish (ex_request "POST" [] 8) (λ _, true))]
           ex_world_fresh).
  exact ex_db_fresh_books_kept.
Defined.

(** ** Seeding the ledger *)



Lemma same_voter_refl s : same_voter s s.
Proof. done. Qed.








(** The sending loop keeps every row for its voter and adds none. *)
Lemma start_sending_thread_seeded send_mail now self Q u w :
  ledger_keyed (db w) →
  ∃ w', start_sending_thread send_mail now self w = (Ok tt, w') ∧
        seeded_from Q u (db w) (db w').
Proof.
  intros Hl.
  destruct (start_sending_thread_table send_mail now self w Hl)
    as (w' & E & HT & _ & Hk & Hb & _).
  exists w'. split; [done|]. split; [|split; [|done]].
  - intros j s Hj. rewrite HT, lookup_fmap, Hj. simpl. eexists. split; [done|].
    unfold dispatched. destruct (awaits_sending self s); [|done].
    by destruct (send_mail _).
  - intros j s'. rewrite HT, lookup_fmap. intros H1 H2. by rewrite H2 in H1.
Qed.




(** ** Votes are final *)

Section MovesBy.
Context (R : DB → DB → Prop).
Hypothesis R_refl : ∀ d, R d d.
Hypothesis R_trans : ∀ d1 d2 d3, R d1 d2 → R d2 d3 → R d1 d3.
Context {A B : Type}.

Lemma moves_by_frame (m : M A) : (∀ w, db (m w).2 = db w) → moves_by R m.
Proof. intros Hm w. by rewrite Hm. Qed.

Lemma moves_by_ret (a : A) : moves_by R (mret a).
Proof. by apply moves_by_frame. Qed.

Lemma moves_by_raise (e : exn) : moves_by R (raise e : M A).
Proof. by apply moves_by_frame. Qed.

Lemma moves_by_bind (m : M A) (f : A → M B) :
  moves_by R m → (∀ a, moves_by R (f a)) → moves_by R (m ≫= f).
Proof.
  intros Hm Hf w. munfold. specialize (Hm w).
  destruct (m w) as [[a|e] w']; simpl in *; [|done].
  apply (R_trans _ (db w')); [done|apply Hf].
Qed.

Lemma moves_by_try_except (m : M A) (h : exn → option (M A)) :
  moves_by R m → (∀ e k, h e = Some k → moves_by R k) →
  moves_by R (try_except m h).
Proof.
  intros Hm Hh w. munfold. specialize (Hm w).
  destruct (m w) as [[a|e] w']; simpl in *; [done|].
  destruct (h e) as [k|] eqn:E; [|done].
  apply (R_trans _ (db w')); [done|]. by apply (Hh e k E).
Qed.

Lemma moves_by_atomic (m : M A) : moves_by R m → moves_by R (atomic m).
Proof.
  intros Hm w. munfold. specialize (Hm w).
  by destruct (m w) as [[a|e] w'].
Qed.
End MovesBy.

Lemma moves_by_weaken (R R' : DB → DB → Prop) {A} (m : M A) :
  (∀ d d', R d d' → R' d d') → moves_by R m → moves_by R' m.
Proof. intros H Hm w. apply H, Hm. Qed.

Lemma same_keys_refl d : same_keys d d.
Proof. done. Qed.

Lemma same_keys_trans d1 d2 d3 :
  same_keys d1 d2 → same_keys d2 d3 → same_keys d1 d3.
Proof. unfold same_keys. congruence. Qed.

Lemma keys_settle_refl d : keys_settle d d.
Proof. intros v k Hk. by left. Qed.

Lemma keys_settle_trans d1 d2 d3 :
  keys_settle d1 d2 → keys_settle d2 d3 → keys_settle d1 d3.
Proof.
  intros H12 H23 v k Hk.
  destruct (H12 v k Hk) as [Hk2|(Hr & r & Hk2)].
  - apply (H23 v k Hk2).
  - right. split; [done|].
    destruct (H23 v _ Hk2) as [Hk3|(_ & r' & Hk3)]; [by exists r|].
    exists r'. by rewrite Hk3.
Qed.

Lemma same_keys_settle d d' : same_keys d d' → keys_settle d d'.
Proof. intros H v k Hk. left. by rewrite H. Qed.

Lemma same_keys_get_or_create {A} (get create : M A) :
  moves_by same_keys get → moves_by same_keys create →
  moves_by same_keys (get_or_create get create).
Proof.
  intros Hg Hc. unfold get_or_create.
  eapply (moves_by_try_except same_keys same_keys_trans); [ |].
  { eapply (moves_by_bind same_keys same_keys_trans); [done|].
    intros a. eapply (moves_by_ret same_keys same_keys_refl). }
  intros e k. destruct e; try done. intros [= <-].
  eapply (moves_by_try_except same_keys same_keys_trans); [ |].
  { eapply (moves_by_bind same_keys same_keys_trans); [by apply moves_by_atomic|].
    intros a. eapply (moves_by_ret same_keys same_keys_refl). }
  intros e' k'. destruct e'; try done. intros [= <-].
  eapply (moves_by_try_except same_keys same_keys_trans); [ |].
  { eapply (moves_by_bind same_keys same_keys_trans); [done|].
    intros a. eapply (moves_by_ret same_keys same_keys_refl). }
  intros e'' k''. destruct e''; try done. intros [= <-].
  eapply (moves_by_raise same_keys same_keys_refl).
Qed.

Lemma same_keys_seed voters poll secretary status :
  moves_by same_keys (seed voters poll secretary status).
Proof.
  induction voters as [|voter rest IH]; simpl; [eapply (moves_by_ret same_keys same_keys_refl)|].
  eapply (moves_by_bind same_keys same_keys_trans); [ |done].
  apply same_keys_get_or_create.
  - eapply (moves_by_frame same_keys same_keys_refl). intros w.
    unfold SendEmail_objects_get_by, SendEmail_objects_filter. munfold. simpl.
    by destruct (filter _ _).
  - intros w. unfold SendEmail_objects_create, uuid4. munfold. simpl.
    by destruct (decide _).
Qed.

Lemma same_keys_send_items send_mail now items :
  moves_by same_keys (send_items send_mail now items).
Proof. intros w. by rewrite send_items_eq. Qed.

Lemma same_keys_start_sending_thread send_mail now self :
  moves_by same_keys (start_sending_thread send_mail now self).
Proof.
  intros w. rewrite start_sending_thread_eq. cbv zeta.
  destruct (decide _); [done|]. by rewrite send_items_eq.
Qed.

Lemma same_keys_start_each send_mail request selected :
  moves_by same_keys (start_each send_mail request selected).
Proof.
  induction selected as [|poll rest IH]; simpl; [eapply (moves_by_ret same_keys same_keys_refl)|].
  eapply (moves_by_bind same_keys same_keys_trans); [ |].
  { apply (moves_by_atomic same_keys same_keys_refl).
    eapply (moves_by_bind same_keys same_keys_trans); [apply same_keys_seed|].
    intros _.
    eapply (moves_by_bind same_keys same_keys_trans); [apply same_keys_seed|].
    intros _. cbv zeta.
    eapply (moves_by_bind same_keys same_keys_trans); [by intros w|].
    intros _. eapply (moves_by_ret same_keys same_keys_refl). }
  intros poll'.
  eapply (moves_by_bind same_keys same_keys_trans); [apply same_keys_start_sending_thread|].
  intros _. eapply (moves_by_bind same_keys same_keys_trans); [done|].
  intros msgs. eapply (moves_by_ret same_keys same_keys_refl).
Qed.

Lemma same_keys_perform send_mail a : moves_by same_keys (perform send_mail a).
Proof.
  destruct a as [request queryset|request queryset|request queryset]; simpl.
  - unfold start_poll. eapply (moves_by_bind same_keys same_keys_trans); [ |].
    + by intros w.
    + intros selected. apply same_keys_start_each.
  - intros w. by rewrite end_poll_eq.
  - intros w. unfold duplicate_poll. munfold. rewrite evaluate_eq.
    match goal with
    | |- context [duplicate_each ?sel w] =>
        destruct (duplicate_each_full sel w)
          as (msgs & w' & -> & _ & _ & _ & _ & Hk & _)
    end. done.
Qed.

Lemma email_bulletin_keeps_keys L request public_key w v k :
  keys (db w) !! v = Some k →
  keys (db (email_bulletin L request public_key w).2) !! v = Some k.
Proof.
  intros Hk.
  destruct (SendEmail_objects_get public_key w).1 as [se|e] eqn:Ese.
  - pose proof (send_email_is_inv w public_key se Ese) as (Hget & _).
    destruct (Poll_objects_get (SendEmail.poll se) w).1 as [p|e] eqn:Ep.
    + rewrite (email_bulletin_eq L request public_key w se p) by done.
      pose proof (create_keeps_keys p se w v k Hk) as H.
      destruct (create_private_key_for p se w) as [[key|e] w']; simpl in *;
        [done|]. by destruct e.
    + unfold email_bulletin, get_bulletin_common, SendEmail_poll. munfold.
      rewrite Hget, Poll_objects_get_frame, Ep. done.
  - unfold email_bulletin. munfold.
    unfold SendEmail_objects_get in *. munfold. simpl in *.
    destruct (send_emails (db w) !! public_key) as [s|].
    + destruct (decide (SendEmail.public_key s = public_key)); [done|].
      simpl in *. done.
    + simpl in *. done.
Qed.

Lemma mint_each_keeps_keys poll rows acc w v k :
  keys (db w) !! v = Some k →
  keys (db (mint_each poll rows acc w).2) !! v = Some k.
Proof.
  revert acc w. induction rows as [|se rows IH]; intros acc w Hk; [done|].
  rewrite mint_each_cons.
  pose proof (create_keeps_keys poll se w v k Hk) as H.
  destruct (create_private_key_for poll se w) as [[key|e] w']; [|done].
  by apply IH.
Qed.

Lemma print_bulletins_keeps_keys request poll_id w v k :
  keys (db w) !! v = Some k →
  keys (db (print_bulletins request poll_id w).2) !! v = Some k.
Proof.
  intros Hk. rewrite print_bulletins_gate.
  destruct (Poll_objects_get_for poll_id (user request) w).1 as [poll|e];
    [|by destruct e].
  destruct (decide (Poll.state poll ≠ Poll.STARTED)); [done|].
  unfold SendEmail_objects_filter. munfold. simpl.
  set (rows := filter _ _).
  pose proof (mint_each_keeps_keys poll rows [] w v k Hk) as Hm.
  destruct (mint_each poll rows [] w) as [[[resp|ks]|e] w']; simpl in *;
    [done| |done].
  unfold shuffle.
  destruct (shuffle_from_spec (length ks - 1) ks w') as (y & -> & _).
  done.
Qed.

Lemma serve_settles L send_mail v w :
  keys_settle (db w) (db (serve L send_mail v w)).
Proof.
  destruct v as [request public_key|request poll_id private_key
                |request poll_id|a]; simpl.
  - intros v k Hk. left. by apply email_bulletin_keeps_keys.
  - destruct (vote_cases request poll_id private_key w)
      as [[resp ->]|[(p & _ & _ & _ & ->)
                    |(p & k & r & _ & _ & Hk & Hr & _ & _ & ->)]];
      [apply keys_settle_refl|by apply same_keys_settle|].
    apply key_is_inv in Hk as (_ & Hl & Hv & _). rewrite <- Hv in Hl.
    intros v k0 Hk0. cbn [snd]. simpl.
    destruct (decide (v = Key.value k)) as [->|Hne].
    + right. assert (k0 = k) as -> by congruence. split; [done|].
      exists r. apply lookup_insert_eq.
    + left. by rewrite lookup_insert_ne.
  - intros v k Hk. left. by apply print_bulletins_keeps_keys.
  - apply same_keys_settle, same_keys_perform.
Qed.

Lemma serve_all_settles L send_mail visits w :
  keys_settle (db w) (db (serve_all L send_mail visits w)).
Proof.
  revert w. induction visits as [|v rest IH]; intros w;
    [apply keys_settle_refl|].
  simpl. apply (keys_settle_trans _ (db (serve L send_mail v w)));
    [apply serve_settles|apply IH].
Qed.

(** X17. Votes are final.  Whatever requests follow (bulletins, votes,
    prints, starts, finishes, duplications), answered or failed, a key that
    is in the table stays in the table, with its value and its poll; a key
    that has a response keeps exactly that response; so the count of
    returned ballots and the count of keys of a poll never go down. *)
Theorem votes_are_final L send_mail visits w :
  (∀ v k, keys (db w) !! v = Some k →
     ∃ k', keys (db (serve_all L send_mail visits w)) !! v = Some k' ∧
           Key.value k' = Key.value k ∧ Key.poll k' = Key.poll k ∧
           (Key.response k ≠ Key.NOT_RETURNED → k' = k))
  ∧ (∀ i, voted_count (db w) i
            ≤ voted_count (db (serve_all L send_mail visits w)) i)%nat
  ∧ (∀ i, keys_count (db w) i
            ≤ keys_count (db (serve_all L send_mail visits w)) i)%nat.
Proof.
  pose proof (serve_all_settles L send_mail visits w) as H.
  set (w' := serve_all L send_mail visits w) in *.
  split; [|split].
  - intros v k Hk. destruct (H v k Hk) as [Hk'|(Hr & r & Hk')].
    + by exists k.
    + exists (Key.set_response r k). split; [done|]. split; [done|].
      split; [done|]. congruence.
  - intros i. unfold voted_count. apply map_subseteq_size.
    apply map_subseteq_spec. intros v k [Hk [Hp Hr]]%map_lookup_filter_Some.
    simpl in *. apply map_lookup_filter_Some. split; [|done].
    destruct (H v k Hk) as [Hk'|(Hr' & _)]; [done|congruence].
  - intros i. unfold keys_count. rewrite <- !size_dom.
    apply subseteq_size. intros v [k [Hk Hp]%map_lookup_filter_Some]%elem_of_dom.
    simpl in *. apply elem_of_dom.
    destruct (H v k Hk) as [Hk'|(_ & r & Hk')].
    + exists k. by apply map_lookup_filter_Some.
    + exists (Key.set_response r k). by apply map_lookup_filter_Some.
Qed.

(** ** A ballot is issued once *)

Lemma moves_by_get_or_create (R : DB → DB → Prop) {A} (get create : M A) :
  (∀ d, R d d) → (∀ d1 d2 d3, R d1 d2 → R d2 d3 → R d1 d3) →
  moves_by R get → moves_by R create → moves_by R (get_or_create get create).
Proof.
  intros Hrefl Htrans Hg Hc. unfold get_or_create.
  eapply (moves_by_try_except R Htrans).
  { eapply (moves_by_bind R Htrans); [done|].
    intros a. apply (moves_by_ret R Hrefl). }
  intros e k. destruct e; try done. intros [= <-].
  eapply (moves_by_try_except R Htrans).
  { eapply (moves_by_bind R Htrans); [by apply (moves_by_atomic R Hrefl)|].
    intros a. apply (moves_by_ret R Hrefl). }
  intros e' k'. destruct e'; try done. intros [= <-].
  eapply (moves_by_try_except R Htrans).
  { eapply (moves_by_bind R Htrans); [done|].
    intros a. apply (moves_by_ret R Hrefl). }
  intros e'' k''. destruct e''; try done. intros [= <-].
  apply (moves_by_raise R Hrefl).
Qed.

Lemma ledger_stays_same d d' :
  send_emails d' = send_emails d → ledger_stays d d'.
Proof.
  intros Hs. split.
  - intros j s Hj. exists s. by rewrite Hs.
  - intros j s'. rewrite Hs. congruence.
Qed.

Lemma ledger_stays_trans d1 d2 d3 :
  ledger_stays d1 d2 → ledger_stays d2 d3 → ledger_stays d1 d3.
Proof.
  intros [Ha1 Hb1] [Ha2 Hb2]. split.
  - intros j s Hj.
    destruct (Ha1 j s Hj) as (s2 & Hj2 & ? & ? & ? & ? & Hv2).
    destruct (Ha2 j s2 Hj2) as (s3 & Hj3 & ? & ? & ? & ? & Hv3).
    exists s3. split; [done|]. repeat split; try congruence. auto.
  - intros j s3 Hj3 Hj1.
    destruct (send_emails d2 !! j) as [s2|] eqn:Hj2.
    + destruct (Ha2 j s2 Hj2) as (s3' & Hj3' & _ & _ & _ & Hpk & _).
      assert (s3' = s3) as -> by congruence.
      rewrite Hpk. by apply Hb1.
    + by apply Hb2.
Qed.

Lemma ledger_stays_keyed d d' :
  ledger_keyed d → ledger_stays d d' → ledger_keyed d'.
Proof.
  intros Hl [Ha Hb] j s' Hj'.
  destruct (send_emails d !! j) as [s|] eqn:Hj.
  - destruct (Ha j s Hj) as (s2 & Hj2 & _ & _ & _ & Hpk & _).
    assert (s2 = s') as -> by congruence. rewrite Hpk. by apply Hl.
  - by apply Hb.
Qed.

Lemma keyed_ledger_stays_refl d : keyed_ledger_stays d d.
Proof. intros _. by apply ledger_stays_same. Qed.

Lemma keyed_ledger_stays_trans d1 d2 d3 :
  keyed_ledger_stays d1 d2 → keyed_ledger_stays d2 d3 →
  keyed_ledger_stays d1 d3.
Proof.
  intros H12 H23 Hl. specialize (H12 Hl).
  apply (ledger_stays_trans _ d2); [done|].
  apply H23. by apply (ledger_stays_keyed d1).
Qed.

Lemma seeded_from_stays Q u d d' : seeded_from Q u d d' → ledger_stays d d'.
Proof.
  intros (Ha & Hb & _). split.
  - intros j s Hj. destruct (Ha j s Hj) as (s' & Hj' & ? & ? & ? & ? & Hv).
    exists s'. repeat split; try done. congruence.
  - intros j s' Hj' Hj. by destruct (Hb j s' Hj' Hj) as [? _].
Qed.

(** A mint marks the row of its request and touches no other. *)
Lemma create_ledger_stays self se w :
  ledger_stays (db w) (db (create_private_key_for self se w).2).
Proof.
  pose proof (create_private_key_for_spec self se w) as H.
  destruct (create_private_key_for self se w) as [[key|e] w']; simpl.
  - destruct H as (_ & _ & _ & _ & row & Hrow & ->). simpl. split.
    + intros j s Hj. simpl.
      destruct (decide (j = SendEmail.public_key se)) as [->|Hne].
      * rewrite lookup_insert_eq. eexists. split; [done|].
        assert (s = row) as -> by congruence. done.
      * rewrite lookup_insert_ne by done. by exists s.
    + intros j s'. simpl.
      destruct (decide (j = SendEmail.public_key se)) as [->|Hne].
      * congruence.
      * rewrite lookup_insert_ne by done. congruence.
  - destruct H as (_ & _ & Hs & _). by apply ledger_stays_same.
Qed.

Lemma mint_each_ledger_stays poll rows acc w :
  ledger_stays (db w) (db (mint_each poll rows acc w).2).
Proof.
  revert acc w. induction rows as [|se rows IH]; intros acc w;
    [by apply ledger_stays_same|].
  rewrite mint_each_cons.
  pose proof (create_ledger_stays poll se w) as H.
  destruct (create_private_key_for poll se w) as [[key|e] w']; [|done].
  apply (ledger_stays_trans _ (db w')); [done|apply IH].
Qed.

Lemma email_bulletin_ledger_stays L request public_key w :
  ledger_stays (db w) (db (email_bulletin L request public_key w).2).
Proof.
  destruct (SendEmail_objects_get public_key w).1 as [se|e] eqn:Ese.
  - pose proof (send_email_is_inv w public_key se Ese) as (Hget & _).
    destruct (Poll_objects_get (SendEmail.poll se) w).1 as [p|e] eqn:Ep.
    + rewrite (email_bulletin_eq L request public_key w se p) by done.
      pose proof (create_ledger_stays p se w) as H.
      destruct (create_private_key_for p se w) as [[key|e] w']; simpl in *;
        [done|]. destruct e; try done; by apply ledger_stays_same.
    + unfold email_bulletin, get_bulletin_common, SendEmail_poll. munfold.
      rewrite Hget, Poll_objects_get_frame, Ep. by apply ledger_stays_same.
  - unfold email_bulletin. munfold.
    unfold SendEmail_objects_get in *. munfold. simpl in *.
    destruct (send_emails (db w) !! public_key) as [s|].
    + destruct (decide (SendEmail.public_key s = public_key)); [done|].
      simpl in *. by apply ledger_stays_same.
    + simpl in *. by apply ledger_stays_same.
Qed.

Lemma print_bulletins_ledger_stays request poll_id w :
  ledger_stays (db w) (db (print_bulletins request poll_id w).2).
Proof.
  rewrite print_bulletins_gate.
  destruct (Poll_objects_get_for poll_id (user request) w).1 as [poll|e];
    [|destruct e; by apply ledger_stays_same].
  destruct (decide (Poll.state poll ≠ Poll.STARTED));
    [by apply ledger_stays_same|].
  unfold SendEmail_objects_filter. munfold. simpl.
  set (rows := filter _ _).
  pose proof (mint_each_ledger_stays poll rows [] w) as Hm.
  destruct (mint_each poll rows [] w) as [[[resp|ks]|e] w']; simpl in *;
    [done| |by apply ledger_stays_same].
  unfold shuffle.
  destruct (shuffle_from_spec (length ks - 1) ks w') as (y & -> & _).
  done.
Qed.

Lemma ledger_stays_refl d : ledger_stays d d.
Proof. by apply ledger_stays_same. Qed.

Lemma ledger_stays_seed voters poll secretary status :
  moves_by ledger_stays (seed voters poll secretary status).
Proof.
  induction voters as [|voter rest IH]; simpl;
    [apply (moves_by_ret ledger_stays ledger_stays_refl)|].
  eapply (moves_by_bind ledger_stays ledger_stays_trans); [|done].
  apply moves_by_get_or_create;
    [apply ledger_stays_refl|apply ledger_stays_trans| |].
  - apply (moves_by_frame ledger_stays ledger_stays_refl). intros w.
    unfold SendEmail_objects_get_by, SendEmail_objects_filter. munfold. simpl.
    by destruct (filter _ _).
  - intros w. unfold SendEmail_objects_create, uuid4. munfold. simpl.
    destruct (decide _) as [Hin|Hfree]; [by apply ledger_stays_same|].
    apply eq_None_not_Some in Hfree. simpl. split.
    + intros j s Hj. exists s. split; [|done]. simpl.
      rewrite lookup_insert_ne; [done|]. intros <-. congruence.
    + intros j s'. simpl.
      destruct (decide (j = (Z.of_nat
          (entropy (rng w) (cursor (rng w))) mod 2 ^ 128)%Z)) as [->|Hne].
      * rewrite lookup_insert_eq. by intros [= <-].
      * rewrite lookup_insert_ne by done. congruence.
Qed.

Lemma keyed_ledger_stays_start_sending_thread send_mail now self :
  moves_by keyed_ledger_stays (start_sending_thread send_mail now self).
Proof.
  intros w Hl.
  destruct (start_sending_thread_seeded send_mail now self (λ _ _, True) 0%Z
              w Hl) as (w' & -> & Hs).
  by apply (seeded_from_stays _ _ _ _ Hs).
Qed.

Lemma keyed_ledger_stays_start_each send_mail request selected :
  moves_by keyed_ledger_stays (start_each send_mail request selected).
Proof.
  induction selected as [|poll rest IH]; simpl;
    [apply (moves_by_ret keyed_ledger_stays keyed_ledger_stays_refl)|].
  eapply (moves_by_bind keyed_ledger_stays keyed_ledger_stays_trans).
  { apply (moves_by_weaken ledger_stays); [by intros d d' H _|].
    apply (moves_by_atomic ledger_stays ledger_stays_refl).
    eapply (moves_by_bind ledger_stays ledger_stays_trans);
      [apply ledger_stays_seed|]. intros _.
    eapply (moves_by_bind ledger_stays ledger_stays_trans);
      [apply ledger_stays_seed|]. intros _. cbv zeta.
    eapply (moves_by_bind ledger_stays ledger_stays_trans);
      [intros w; by apply ledger_stays_same|]. intros _.
    apply (moves_by_ret ledger_stays ledger_stays_refl). }
  intros poll'.
  eapply (moves_by_bind keyed_ledger_stays keyed_ledger_stays_trans);
    [apply keyed_ledger_stays_start_sending_thread|].
  intros _.
  eapply (moves_by_bind keyed_ledger_stays keyed_ledger_stays_trans); [done|].
  intros msgs. apply (moves_by_ret keyed_ledger_stays keyed_ledger_stays_refl).
Qed.

Lemma keyed_ledger_stays_perform send_mail a :
  moves_by keyed_ledger_stays (perform send_mail a).
Proof.
  destruct a as [request queryset|request queryset|request queryset]; simpl.
  - unfold start_poll.
    eapply (moves_by_bind keyed_ledger_stays keyed_ledger_stays_trans).
    + intros w _. by apply ledger_stays_same.
    + intros selected. apply keyed_ledger_stays_start_each.
  - intros w _. rewrite end_poll_eq. by apply ledger_stays_same.
  - intros w _. unfold duplicate_poll. munfold. rewrite evaluate_eq.
    match goal with
    | |- context [duplicate_each ?sel w] =>
        destruct (duplicate_each_full sel w)
          as (msgs & w' & -> & _ & _ & _ & Hs & _)
    end. by apply ledger_stays_same.
Qed.

Lemma serve_ledger_stays L send_mail v w :
  keyed_ledger_stays (db w) (db (serve L send_mail v w)).
Proof.
  destruct v as [request public_key|request poll_id private_key
                |request poll_id|a]; simpl.
  - intros _. apply email_bulletin_ledger_stays.
  - intros _. apply ledger_stays_same.
    destruct (vote_cases request poll_id private_key w)
      as [[resp ->]|[(p & _ & _ & _ & ->)
                    |(p & k & r & _ & _ & _ & _ & _ & _ & ->)]]; done.
  - intros _. apply print_bulletins_ledger_stays.
  - apply keyed_ledger_stays_perform.
Qed.

Lemma serve_all_ledger_stays L send_mail visits w :
  keyed_ledger_stays (db w) (db (serve_all L send_mail visits w)).
Proof.
  revert w. induction visits as [|v rest IH]; intros w;
    [apply keyed_ledger_stays_refl|].
  simpl. apply (keyed_ledger_stays_trans _ (db (serve L send_mail v w)));
    [apply serve_ledger_stays|apply IH].
Qed.

(** A bulletin request for a row already marked visited changes nothing,
    whatever it answers. *)
Lemma email_bulletin_visited_unchanged L request public_key w s :
  send_emails (db w) !! public_key = Some s →
  SendEmail.visited s = true →
  (email_bulletin L request public_key w).2 = w.
Proof.
  intros Hs Hv.
  destruct (decide (SendEmail.public_key s = public_key)) as [Hpk|Hpk].
  - pose proof (send_email_is_intro w public_key s Hs Hpk) as Hse.
    destruct (Poll_objects_get (SendEmail.poll s) w).1 as [p|e] eqn:Ep.
    + rewrite (email_bulletin_refused L request public_key w s p); try done.
      by right.
    + apply send_email_is_inv in Hse as (Hget & _).
      unfold email_bulletin, get_bulletin_common, SendEmail_poll. munfold.
      rewrite Hget, Poll_objects_get_frame, Ep. simpl. apply world_eta.
  - unfold email_bulletin, SendEmail_objects_get. munfold. simpl.
    rewrite Hs. by rewrite decide_False.
Qed.

(** X18. A ballot is issued once.  With a ledger whose rows carry their own
    keys, whatever requests follow (bulletins, votes, prints, starts,
    finishes, duplications), answered or failed, every ledger row stays
    under its key, for the same voter, poll and secretary, and a row marked
    visited stays marked; so the number of ledger rows of a poll never goes
    down, and a bulletin request for a row once marked visited, at any later
    time, mints nothing, draws nothing and changes nothing. *)
Theorem issued_ballot_is_never_reissued L send_mail visits w :
  ledger_keyed (db w) →
  (∀ j s, send_emails (db w) !! j = Some s →
     ∃ s', send_emails (db (serve_all L send_mail visits w)) !! j = Some s' ∧
           SendEmail.voter s' = SendEmail.voter s ∧
           SendEmail.poll s' = SendEmail.poll s ∧
           SendEmail.secretary s' = SendEmail.secretary s ∧
           SendEmail.public_key s' = j ∧
           (SendEmail.visited s = true →
            SendEmail.visited s' = true ∧
            ∀ request,
              (email_bulletin L request j (serve_all L send_mail visits w)).2
                = serve_all L send_mail visits w))
  ∧ (∀ i, attended_count (db w) i
            ≤ attended_count (db (serve_all L send_mail visits w)) i)%nat
  ∧ ledger_keyed (db (serve_all L send_mail visits w)).
Proof.
  intros Hl.
  pose proof (serve_all_ledger_stays L send_mail visits w Hl) as H.
  set (w' := serve_all L send_mail visits w) in *.
  pose proof H as [Ha Hb].
  split; [|split; [|by apply (ledger_stays_keyed (db w))]].
  - intros j s Hj. destruct (Ha j s Hj) as (s' & Hj' & ? & ? & ? & Hpk & Hv).
    exists s'. split; [done|]. split; [done|]. split; [done|].
    split; [done|]. split; [by rewrite Hpk; apply Hl|].
    intros Hvis. split; [by apply Hv|]. intros request.
    apply (email_bulletin_visited_unchanged _ _ _ _ s'); [done|by apply Hv].
  - intros i. unfold attended_count. rewrite <- !size_dom.
    apply subseteq_size.
    intros j [s [Hj Hp]%map_lookup_filter_Some]%elem_of_dom.
    simpl in *. apply elem_of_dom.
    destruct (Ha j s Hj) as (s' & Hj' & _ & Hp' & _).
    exists s'. apply map_lookup_filter_Some. split; [done|]. simpl. congruence.
Qed.

Lemma issued_ballot_is_never_reissued_witness :
  ledger_keyed (db ex_world_counting) ∧
  let w' := serve_all "https://vote" ex_send_mail
              [GetBulletin (ex_request "GET" [] 5) 100;
               AdminAction (Start (ex_request "POST" [] 6) (λ _, true));
               PrintBulletins (ex_request "GET" [] 7) 1]
              ex_world_counting in
  ∃ s', send_emails (db w') !! 300%Z = Some s' ∧
        SendEmail.visited s' = true ∧
        (email_bulletin "https://vote" (ex_request "GET" [] 8) 300 w').2 = w'.
Proof.
  split; [exact ex_db_ledger_keyed|]. intros w'.
  destruct (issued_ballot_is_never_reissued "https://vote" ex_send_mail
              [GetBulletin (ex_request "GET" [] 5) 100;
               AdminAction (Start (ex_request "POST" [] 6) (λ _, true));
               PrintBulletins (ex_request "GET" [] 7) 1]
              ex_world_counting ex_db_ledger_keyed) as (H & _).
  destruct (H 300%Z (ex_send_email 300 1 3 true) eq_refl)
    as (s' & Hs' & _ & _ & _ & _ & Hv).
  destruct (Hv eq_refl) as [Hvis Hb].
  exists s'. split; [exact Hs'|]. split; [exact Hvis|]. apply Hb.
Defined.

(** ** The results of a finished poll *)

Section FilterInsert.
Context {K A : Type} `{Countable K}.
Context (P : K * A → Prop) `{!∀ x, Decision (P x)}.

Lemma filter_insert_out (m : gmap K A) i x :
  ¬ P (i, x) → (∀ y, m !! i = Some y → ¬ P (i, y)) →
  filter P (<[i := x]> m) = filter P m.
Proof.
  intros Hx Hold. rewrite map_filter_insert_False by done.
  rewrite map_filter_delete. apply delete_id.
  apply map_lookup_filter_None.
  destruct (m !! i) as [y|] eqn:E; [right|by left].
  intros y' [= <-]. by apply Hold.
Qed.
End FilterInsert.

Lemma poll_record_same d d' i :
  polls d' !! i = polls d !! i → keys d' = keys d →
  send_emails d' = send_emails d → bad_keys d' = bad_keys d →
  poll_record d' i = poll_record d i.
Proof. intros H1 H2 H3 H4. unfold poll_record. by rewrite H1, H2, H3, H4. Qed.

Lemma stays_frozen_refl i d : stays_frozen i d d.
Proof. split; [apply ledger_stays_refl|done]. Qed.

Lemma stays_frozen_trans i d1 d2 d3 :
  stays_frozen i d1 d2 → stays_frozen i d2 d3 → stays_frozen i d1 d3.
Proof.
  intros [H1 E1] [H2 E2]. split; [by apply (ledger_stays_trans _ d2)|].
  congruence.
Qed.

Lemma keyed_stays_frozen_refl i d : keyed_stays_frozen i d d.
Proof. intros _. apply stays_frozen_refl. Qed.

Lemma keyed_stays_frozen_trans i d1 d2 d3 :
  keyed_stays_frozen i d1 d2 → keyed_stays_frozen i d2 d3 →
  keyed_stays_frozen i d1 d3.
Proof.
  intros H12 H23 Hl. specialize (H12 Hl).
  apply (stays_frozen_trans _ _ d2); [done|].
  apply H23. destruct H12 as [Hs _]. by apply (ledger_stays_keyed d1).
Qed.

(** A mint for another poll, or a refused one. *)
Lemma create_frozen self se w i row :
  send_emails (db w) !! SendEmail.public_key se = Some row →
  (Poll.state self ≠ Poll.FINISHED →
   Poll.id self ≠ i ∧ SendEmail.poll row ≠ i) →
  poll_record (db (create_private_key_for self se w).2) i
    = poll_record (db w) i.
Proof.
  intros Hrow Hne.
  destruct (create_private_key_for self se w) as [[key|e] w'] eqn:E.
  - destruct (create_private_key_for_ok _ _ _ _ _ E)
      as (Hs & _ & _ & Hfree & Hkey & _ & _ & row' & m & Hrow' & _ & ->).
    destruct (Hne Hs) as [Hid Hp].
    rewrite Hrow in Hrow'. injection Hrow' as <-.
    unfold poll_record. simpl.
    rewrite (filter_insert_out _ (keys (db w)));
      [|rewrite Hkey; simpl; congruence|intros y; congruence].
    rewrite (filter_insert_out _ (send_emails (db w)));
      [done|done|simpl; intros y; congruence].
  - simpl. by rewrite (create_raise_unchanged self se w e w').
Qed.

Lemma Poll_objects_get_for_inv poll_id u w poll :
  (Poll_objects_get_for poll_id u w).1 = Ok poll →
  polls (db w) !! poll_id = Some poll ∧ Poll.id poll = poll_id.
Proof.
  unfold Poll_objects_get_for, Poll_objects_get. munfold. simpl.
  destruct (polls (db w) !! poll_id) as [q|]; [|done].
  destruct (decide (Poll.id q = poll_id)); [|done]. simpl.
  destruct (decide (Poll.secretary q = u)); [|done]. simpl.
  by intros [= <-].
Qed.

Lemma vote_frozen request poll_id private_key w i :
  settled i (db w) →
  poll_record (db (vote request poll_id private_key w).2) i
    = poll_record (db w) i.
Proof.
  intros (_ & _ & p & Hp & Hfin).
  assert (Hne : ∀ p', poll_is w poll_id p' → Poll.state p' = Poll.STARTED →
                      poll_id ≠ i).
  { intros p' (_ & Hl & _)%poll_is_inv Hs ->. rewrite Hp in Hl.
    injection Hl as ->. congruence. }
  destruct (vote_cases request poll_id private_key w)
    as [[resp ->]|[(p' & Hp' & Hs & _ & ->)
                  |(p' & k & r & Hp' & Hs & Hk & _ & _ & _ & ->)]];
    [done| |]; specialize (Hne p' Hp' Hs); cbn [snd].
  - unfold poll_record, log_bad_keys. simpl. rewrite filter_app.
    rewrite filter_cons_False; [by rewrite filter_nil, app_nil_r|].
    simpl. congruence.
  - apply key_is_inv in Hk as (_ & Hl & Hv & Hkp). rewrite <- Hv in Hl.
    unfold poll_record, record_response. simpl.
    rewrite (filter_insert_out _ (keys (db w))); [done| |].
    + simpl. congruence.
    + intros y. simpl. congruence.
Qed.

Lemma email_bulletin_frozen L request public_key w i :
  settled i (db w) →
  poll_record (db (email_bulletin L request public_key w).2) i
    = poll_record (db w) i.
Proof.
  intros (_ & _ & p & Hp & Hfin).
  destruct (SendEmail_objects_get public_key w).1 as [se|e] eqn:Ese.
  - pose proof (send_email_is_inv w public_key se Ese) as (Hget & Hrow & Hpk).
    destruct (Poll_objects_get (SendEmail.poll se) w).1 as [p'|e] eqn:Ep.
    + rewrite (email_bulletin_eq L request public_key w se p') by done.
      apply poll_is_inv in Ep as (_ & Hl & Hid).
      rewrite <- Hpk in Hrow.
      pose proof (create_frozen p' se w i se Hrow) as H.
      assert (Hne : Poll.state p' ≠ Poll.FINISHED →
                    Poll.id p' ≠ i ∧ SendEmail.poll se ≠ i).
      { intros Hs. rewrite Hid. split; intros Hi; rewrite Hi, Hp in Hl;
          injection Hl as ->; congruence. }
      specialize (H Hne).
      destruct (create_private_key_for p' se w) as [[key|e] w']; simpl in *;
        [done|]. by destruct e.
    + unfold email_bulletin, get_bulletin_common, SendEmail_poll. munfold.
      rewrite Hget, Poll_objects_get_frame, Ep. done.
  - unfold email_bulletin. munfold.
    unfold SendEmail_objects_get in *. munfold. simpl in *.
    destruct (send_emails (db w) !! public_key) as [s|].
    + destruct (decide (SendEmail.public_key s = public_key)); [done|].
      simpl in *. done.
    + simpl in *. done.
Qed.

Lemma mint_each_frozen poll rows acc w i :
  Poll.id poll ≠ i →
  (∀ se, se ∈ rows →
     ∃ row, send_emails (db w) !! SendEmail.public_key se = Some row ∧
            SendEmail.poll row ≠ i) →
  poll_record (db (mint_each poll rows acc w).2) i = poll_record (db w) i.
Proof.
  intros Hid. revert acc w.
  induction rows as [|se rows IH]; intros acc w Hrows; [done|].
  rewrite mint_each_cons.
  destruct (Hrows se) as (row & Hrow & Hp); [apply elem_of_cons; by left|].
  pose proof (create_frozen poll se w i row Hrow (λ _, conj Hid Hp)) as H.
  pose proof (create_ledger_stays poll se w) as [Ha _].
  destruct (create_private_key_for poll se w) as [[key|e] w']; [|done].
  simpl in *. rewrite <- H. apply IH.
  intros se' Hin. destruct (Hrows se') as (row' & Hrow' & Hp');
    [apply elem_of_cons; by right|].
  destruct (Ha _ _ Hrow') as (s' & Hs' & _ & Hpoll & _).
  exists s'. split; [done|]. congruence.
Qed.

Lemma print_bulletins_frozen request poll_id w i :
  settled i (db w) →
  poll_record (db (print_bulletins request poll_id w).2) i
    = poll_record (db w) i.
Proof.
  intros (_ & Hl & p & Hp & Hfin). rewrite print_bulletins_gate.
  destruct (Poll_objects_get_for poll_id (user request) w).1 as [poll|e] eqn:Eg;
    [|by destruct e].
  destruct (decide (Poll.state poll ≠ Poll.STARTED)) as [|Hs]; [done|].
  apply Poll_objects_get_for_inv in Eg as [Hpoll Hid].
  assert (Hne : Poll.id poll ≠ i).
  { rewrite Hid. intros ->. rewrite Hp in Hpoll. injection Hpoll as ->.
    apply Hs. congruence. }
  unfold SendEmail_objects_filter. munfold. simpl.
  set (rows := filter _ _).
  assert (Hm : poll_record (db (mint_each poll rows [] w).2) i
               = poll_record (db w) i).
  { apply mint_each_frozen; [done|].
    intros se (Hc & j & Hj)%filter_elem. exists se.
    rewrite (Hl j se Hj). split; [done|].
    unfold unvisited_local in Hc.
    apply andb_prop_elim in Hc as [Hc _]. apply andb_prop_elim in Hc as [Hc _].
    apply andb_prop_elim in Hc as [_ Hc]. apply bool_decide_unpack in Hc.
    congruence. }
  destruct (mint_each poll rows [] w) as [[[resp|ks]|e] w']; simpl in *;
    [done| |done].
  unfold shuffle.
  destruct (shuffle_from_spec (length ks - 1) ks w') as (y & -> & _).
  done.
Qed.

Lemma moves_by_and (R1 R2 : DB → DB → Prop) {A} (m : M A) :
  moves_by R1 m → moves_by R2 m → moves_by (λ d d', R1 d d' ∧ R2 d d') m.
Proof. intros H1 H2 w. split; [apply H1|apply H2]. Qed.

Lemma seed_frozen voters poll secretary status i :
  Poll.id poll ≠ i →
  moves_by (stays_frozen i) (seed voters poll secretary status).
Proof.
  intros Hid. apply moves_by_and; [apply ledger_stays_seed|].
  set (R := λ d d', poll_record d' i = poll_record d i).
  assert (Hrefl : ∀ d, R d d) by done.
  assert (Htrans : ∀ d1 d2 d3, R d1 d2 → R d2 d3 → R d1 d3)
    by (unfold R; congruence).
  induction voters as [|voter rest IH]; simpl;
    [apply (moves_by_ret R Hrefl)|].
  eapply (moves_by_bind R Htrans); [|done].
  apply moves_by_get_or_create; [done|done| |].
  - apply (moves_by_frame R Hrefl). intros w.
    unfold SendEmail_objects_get_by, SendEmail_objects_filter. munfold. simpl.
    by destruct (filter _ _).
  - intros w. unfold SendEmail_objects_create, uuid4. munfold. simpl.
    destruct (decide _) as [Hin|Hfree]; [done|].
    apply eq_None_not_Some in Hfree. unfold R, poll_record. simpl.
    rewrite (filter_insert_out _ (send_emails (db w))); [done|done|].
    intros y. congruence.
Qed.

Lemma start_sending_thread_frozen send_mail now self i :
  Poll.id self ≠ i →
  moves_by (keyed_stays_frozen i) (start_sending_thread send_mail now self).
Proof.
  intros Hid w Hl.
  split; [by apply keyed_ledger_stays_start_sending_thread|].
  destruct (start_sending_thread_table send_mail now self w Hl)
    as (w' & -> & HT & Hp & Hk & Hb & _). simpl.
  unfold poll_record. rewrite Hp, Hk, Hb. do 2 f_equal.
  rewrite HT. apply map_eq. intros j. apply option_eq. intros s'.
  rewrite !map_lookup_filter_Some, lookup_fmap. simpl.
  assert (Hfin : ∀ s, SendEmail.poll s = i →
            (if awaits_sending self s then dispatched send_mail now s else s) = s).
  { intros s Hs. unfold awaits_sending.
    rewrite bool_decide_false; [done|]. congruence. }
  assert (Hpoll : ∀ s, SendEmail.poll
            (if awaits_sending self s then dispatched send_mail now s else s)
            = SendEmail.poll s).
  { intros s. unfold dispatched. destruct (awaits_sending self s); [|done].
    by destruct (send_mail _). }
  split.
  - intros [Hf Hs']. destruct (send_emails (db w) !! j) as [s|]; [|done].
    simpl in Hf. injection Hf as <-. rewrite Hpoll in Hs'.
    rewrite Hfin by done. done.
  - intros [Hs Hs']. rewrite Hs. simpl. by rewrite Hfin.
Qed.

Lemma start_each_frozen send_mail request selected i :
  (∀ p, p ∈ selected → Poll.id p ≠ i) →
  moves_by (keyed_stays_frozen i) (start_each send_mail request selected).
Proof.
  induction selected as [|poll rest IH]; intros Hsel; simpl;
    [apply (moves_by_ret _ (keyed_stays_frozen_refl i))|].
  assert (Hid : Poll.id poll ≠ i) by (apply Hsel, elem_of_cons; by left).
  assert (Hone : moves_by (stays_frozen i) (atomic (
            seed (Poll.voter_remote poll) poll (user request) SendEmail.READY;;
            seed (Poll.voter_local poll) poll (user request) SendEmail.LOCAL;;
            let poll := Poll.set_state Poll.STARTED poll in
            Poll_save poll;;
            mret poll))).
  { apply (moves_by_atomic _ (stays_frozen_refl i)).
    eapply (moves_by_bind _ (stays_frozen_trans i));
      [by apply seed_frozen|]. intros _.
    eapply (moves_by_bind _ (stays_frozen_trans i));
      [by apply seed_frozen|]. intros _. cbv zeta.
    eapply (moves_by_bind _ (stays_frozen_trans i)).
    - intros w. split; [by apply ledger_stays_same|].
      apply poll_record_same; try done. simpl.
      by rewrite lookup_insert_ne.
    - intros _. apply (moves_by_ret _ (stays_frozen_refl i)). }
  intros w Hl. unfold mbind at 1. unfold M_bind at 1.
  pose proof (start_one_spec request poll w) as H1.
  specialize (Hone w).
  destruct (atomic _ w) as [[poll'|e1] w1]; [|done].
  destruct H1 as [-> _]. simpl in Hone.
  assert (Hl1 : ledger_keyed (db w1))
    by (destruct Hone as [Hs _]; by apply (ledger_stays_keyed (db w))).
  unfold mbind at 1. unfold M_bind at 1.
  pose proof (start_sending_thread_frozen send_mail (now request)
                (Poll.set_state Poll.STARTED poll) i Hid w1 Hl1) as H2.
  destruct (start_sending_thread _ _ _ w1) as [[[]|e2] w2]; simpl in H2;
    [|by apply (stays_frozen_trans _ _ (db w1))].
  assert (H12 : stays_frozen i (db w) (db w2))
    by by apply (stays_frozen_trans _ _ (db w1)).
  assert (Hl2 : ledger_keyed (db w2))
    by (destruct H2 as [Hs _]; by apply (ledger_stays_keyed (db w1))).
  assert (Hrest : ∀ p, p ∈ rest → Poll.id p ≠ i)
    by (intros p Hp; apply Hsel, elem_of_cons; by right).
  specialize (IH Hrest w2 Hl2). munfold.
  destruct (start_each send_mail request rest w2) as [[msgs|e3] w3];
    simpl in *; by apply (stays_frozen_trans _ _ (db w2)).
Qed.

Lemma perform_frozen send_mail a w i :
  settled i (db w) →
  poll_record (db (perform send_mail a w).2) i = poll_record (db w) i.
Proof.
  intros (Hk & Hl & p & Hp & Hfin).
  destruct a as [request queryset|request queryset|request queryset];
    cbn [perform].
  - unfold start_poll. munfold. rewrite evaluate_eq.
    apply start_each_frozen; [|done].
    intros q Hq. apply evaluate_elem in Hq as (Hqs & j & Hj).
    rewrite (Hk j q Hj). intros ->. rewrite Hp in Hj. injection Hj as ->.
    apply andb_prop_elim in Hqs as [_ Hqs]. apply negb_prop_elim in Hqs.
    apply Hqs. by apply bool_decide_pack.
  - rewrite end_poll_eq. apply poll_record_same; try done. simpl.
    rewrite lookup_fmap, Hp. simpl. f_equal.
    rewrite bool_decide_false; [|congruence]. by rewrite andb_false_r.
  - pose proof (duplicate_poll_spec request queryset w) as [Hsub _].
    assert (Hrest :
      keys (db (duplicate_poll request queryset w).2) = keys (db w) ∧
      send_emails (db (duplicate_poll request queryset w).2)
        = send_emails (db w) ∧
      bad_keys (db (duplicate_poll request queryset w).2) = bad_keys (db w)).
    { unfold duplicate_poll. munfold. rewrite evaluate_eq.
      match goal with
      | |- context [duplicate_each ?sel w] =>
          destruct (duplicate_each_full sel w)
            as (msgs & w' & -> & _ & _ & _ & Hs & Hk' & Hb & _)
      end. done. }
    destruct Hrest as (H1 & H2 & H3). apply poll_record_same; try done.
    rewrite Hp. by apply (lookup_weaken _ _ _ _ Hp).
Qed.

Lemma create_same_polls self se w :
  polls (db (create_private_key_for self se w).2) = polls (db w).
Proof.
  pose proof (create_private_key_for_spec self se w) as H.
  destruct (create_private_key_for self se w) as [[key|e] w']; simpl.
  - by destruct H as (_ & _ & _ & _ & row & _ & ->).
  - by destruct H as (_ & -> & _).
Qed.

Lemma email_bulletin_same_polls L request public_key w :
  polls (db (email_bulletin L request public_key w).2) = polls (db w).
Proof.
  destruct (SendEmail_objects_get public_key w).1 as [se|e] eqn:Ese.
  - pose proof (send_email_is_inv w public_key se Ese) as (Hget & _).
    destruct (Poll_objects_get (SendEmail.poll se) w).1 as [p|e] eqn:Ep.
    + rewrite (email_bulletin_eq L request public_key w se p) by done.
      pose proof (create_same_polls p se w) as H.
      destruct (create_private_key_for p se w) as [[key|e] w']; simpl in *;
        [done|]. by destruct e.
    + unfold email_bulletin, get_bulletin_common, SendEmail_poll. munfold.
      rewrite Hget, Poll_objects_get_frame, Ep. done.
  - unfold email_bulletin. munfold.
    unfold SendEmail_objects_get in *. munfold. simpl in *.
    destruct (send_emails (db w) !! public_key) as [s|].
    + destruct (decide (SendEmail.public_key s = public_key)); [done|].
      simpl in *. done.
    + simpl in *. done.
Qed.

Lemma mint_each_same_polls poll rows acc w :
  polls (db (mint_each poll rows acc w).2) = polls (db w).
Proof.
  revert acc w. induction rows as [|se rows IH]; intros acc w; [done|].
  rewrite mint_each_cons.
  pose proof (create_same_polls poll se w) as H.
  destruct (create_private_key_for poll se w) as [[key|e] w']; [|done].
  simpl in H. by rewrite IH.
Qed.

Lemma print_bulletins_same_polls request poll_id w :
  polls (db (print_bulletins request poll_id w).2) = polls (db w).
Proof.
  rewrite print_bulletins_gate.
  destruct (Poll_objects_get_for poll_id (user request) w).1 as [poll|e];
    [|by destruct e].
  destruct (decide (Poll.state poll ≠ Poll.STARTED)); [done|].
  unfold SendEmail_objects_filter. munfold. simpl.
  set (rows := filter _ _).
  pose proof (mint_each_same_polls poll rows [] w) as Hm.
  destruct (mint_each poll rows [] w) as [[[resp|ks]|e] w']; simpl in *;
    [done| |done].
  unfold shuffle.
  destruct (shuffle_from_spec (length ks - 1) ks w') as (y & -> & _).
  done.
Qed.

Lemma serve_polls_keyed L send_mail v w :
  polls_keyed (db w) → polls_keyed (db (serve L send_mail v w)).
Proof.
  intros Hk.
  destruct v as [request public_key|request poll_id private_key
                |request poll_id|a]; simpl.
  - unfold polls_keyed. by rewrite email_bulletin_same_polls.
  - destruct (vote_cases request poll_id private_key w)
      as [[resp ->]|[(p & _ & _ & _ & ->)
                    |(p & k & r & _ & _ & _ & _ & _ & _ & ->)]]; done.
  - unfold polls_keyed. by rewrite print_bulletins_same_polls.
  - by destruct (perform_step send_mail a w Hk).
Qed.

Lemma serve_frozen L send_mail v w i :
  settled i (db w) →
  settled i (db (serve L send_mail v w)) ∧
  poll_record (db (serve L send_mail v w)) i = poll_record (db w) i.
Proof.
  intros Hs.
  assert (E : poll_record (db (serve L send_mail v w)) i = poll_record (db w) i).
  { destruct v as [request public_key|request poll_id private_key
                  |request poll_id|a]; simpl.
    - by apply email_bulletin_frozen.
    - by apply vote_frozen.
    - by apply print_bulletins_frozen.
    - by apply perform_frozen. }
  split; [|done]. destruct Hs as (Hk & Hl & p & Hp & Hfin).
  split; [by apply serve_polls_keyed|]. split.
  - apply (ledger_stays_keyed (db w)); [done|]. by apply serve_ledger_stays.
  - exists p. split; [|done]. unfold poll_record in E.
    injection E as -> _ _ _. done.
Qed.

Lemma serve_all_frozen L send_mail visits w i :
  settled i (db w) →
  poll_record (db (serve_all L send_mail visits w)) i = poll_record (db w) i.
Proof.
  revert w. induction visits as [|v rest IH]; intros w Hs; [done|].
  simpl. destruct (serve_frozen L send_mail v w i Hs) as [Hs' E].
  by rewrite IH.
Qed.

Lemma filter_sub_eq {K A} `{Countable K} (P Q : K * A → Prop)
    `{!∀ x, Decision (P x)} `{!∀ x, Decision (Q x)} (m1 m2 : gmap K A) :
  (∀ x, Q x → P x) → filter P m1 = filter P m2 → filter Q m1 = filter Q m2.
Proof.
  intros HQP E. apply map_filter_strong_ext. intros j x.
  assert (HP : P (j, x) → (m1 !! j = Some x ↔ m2 !! j = Some x)).
  { intros Hp. split; intros Hm.
    - assert (filter P m1 !! j = Some x) as Hf
        by by apply map_lookup_filter_Some.
      rewrite E in Hf. by apply map_lookup_filter_Some in Hf as [? _].
    - assert (filter P m2 !! j = Some x) as Hf
        by by apply map_lookup_filter_Some.
      rewrite <- E in Hf. by apply map_lookup_filter_Some in Hf as [? _]. }
  split; intros [HQ Hm]; (split; [done|]); by apply (HP (HQP _ HQ)).
Qed.

(** X19. The results of a finished poll are frozen.  In a store whose
    polls and ledger rows carry their keys, once a poll is FINISHED,
    whatever requests follow (bulletins, votes, prints, starts, finishes,
    duplications), answered or failed, the poll row, the keys of the poll
    with their responses, the ledger rows of the poll and the invalid
    attempts logged for it are exactly as they were; so every count the
    results view shows for it (ledger rows, ballots issued, ballots
    returned, invalid attempts) stays the same. *)
Theorem finished_results_are_frozen L send_mail visits w i p :
  polls_keyed (db w) → ledger_keyed (db w) →
  polls (db w) !! i = Some p → Poll.state p = Poll.FINISHED →
  let w' := serve_all L send_mail visits w in
  poll_record (db w') i = poll_record (db w) i
  ∧ attended_count (db w') i = attended_count (db w) i
  ∧ bulletins_visited (db w') i = bulletins_visited (db w) i
  ∧ keys_count (db w') i = keys_count (db w) i
  ∧ voted_count (db w') i = voted_count (db w) i
  ∧ bad_key_count (db w') i = bad_key_count (db w) i.
Proof.
  intros Hk Hl Hp Hfin w'.
  assert (E : poll_record (db w') i = poll_record (db w) i).
  { apply serve_all_frozen. split; [done|]. split; [done|]. by exists p. }
  split; [done|]. unfold poll_record in E. injection E as E1 E2 E3 E4.
  unfold attended_count, bulletins_visited, keys_count, voted_count,
    bad_key_count.
  rewrite E2, E3, E4. split; [done|]. split; [|split; [done|split; [|done]]].
  - f_equal.
    eapply (filter_sub_eq (λ js : Z * SendEmail.t, SendEmail.poll js.2 = i));
      [by intros ? [? _]|done].
  - f_equal.
    eapply (filter_sub_eq (λ vk : string * Key.t, Key.poll vk.2 = Some i));
      [by intros ? [? _]|done].
Qed.

Lemma finished_results_are_frozen_witness :
  polls_keyed (db ex_world_counting) ∧ ledger_keyed (db ex_world_counting) ∧
  polls (db ex_world_counting) !! 3%Z = Some (ex_poll 3 false Poll.FINISHED) ∧
  let w' := serve_all "https://vote" ex_send_mail
              [GetBulletin (ex_request "GET" [] 5) 301;
               CastVote (ex_request "POST" ["Y"] 6) 3 "000000";
               AdminAction (Start (ex_request "POST" [] 7) (λ _, true));
               PrintBulletins (ex_request "GET" [] 8) 3]
              ex_world_counting in
  poll_record (db w') 3 = poll_record (db ex_world_counting) 3 ∧
  bulletins_visited (db w') 3 = bulletins_visited (db ex_world_counting) 3.
Proof.
  split; [exact ex_db_keyed|]. split; [exact ex_db_ledger_keyed|].
  split; [reflexivity|]. intros w'.
  destruct (finished_results_are_frozen "https://vote" ex_send_mail
              [GetBulletin (ex_request "GET" [] 5) 301;
               CastVote (ex_request "POST" ["Y"] 6) 3 "000000";
               AdminAction (Start (ex_request "POST" [] 7) (λ _, true));
               PrintBulletins (ex_request "GET" [] 8) 3]
              ex_world_counting 3 (ex_poll 3 false Poll.FINISHED)
              ex_db_keyed ex_db_ledger_keyed eq_refl eq_refl)
    as (H1 & _ & H2 & _).
  split; [exact H1|exact H2].
Defined.
